(** * app.py: the account analytics dashboard, embedded in Rocq

    The script is sequential glue between three collaborators: the ODBC
    driver, pandas and the Streamlit widget layer.  The embedding keeps
    the script's own control flow (every [try]/[except], every branch,
    every driver call) and replaces the collaborators by small models:

    - the driver is an oracle [Driver] answering [connect], [cursor()]
      and [execute]; an answer either returns, raises or never comes;
    - a pandas frame is a list of column names over a list of rows, and
      frames live in a heap because the script updates them in place;
    - every Streamlit call appends one [event] to the page trace, and
      what the user typed or clicked comes from an oracle [Ui].

    Amounts are carried in hundredths: [VDecimal 123450] is
    [Decimal('1234.50')] and [VFloat 123450] is the Python float
    [1234.5], that is the double nearest to the amount; a float of the
    model is such a double, for an amount of up to fifteen digits, which
    [repr] prints back as the amount.  A Decimal and a float are compared
    as Python compares them, by their exact values: [float_side] says on
    which side of its amount a double lies.

    Every Streamlit call of the pages is taken to return: none raises
    and none interrupts the run.  What [main] does when a page function
    does not return is read from [main_over], in which the page
    functions are left open.

    pandas' dtype inference is left out: a cell of a frame is the Python
    object the driver returned.  That is what pandas holds for a column
    with a text or Decimal cell, for a column of NULLs only, of ints only
    or of floats only ([as_fetched]); in a column that mixes ints, floats
    and NULLs pandas turns the cells into floats and [nan]. *)

From Stdlib Require Import String Ascii List ZArith Lia Bool DecimalString.
Import ListNotations.

Open Scope string_scope.
Open Scope list_scope.
Open Scope Z_scope.

Infix "+++" := String.append (right associativity, at level 60).

(** ** Python values *)

Inductive value : Type :=
| VNone
| VInt (n : Z)
| VFloat (c : Z)
| VDecimal (c : Z)
| VStr (s : string).

(** An exception object: its class and [str(e)]. *)
Record exn : Type := Exn { exn_class : string; exn_msg : string }.

Definition TypeError (m : string) : exn := Exn "TypeError" m.
Definition ValueError (m : string) : exn := Exn "ValueError" m.
Definition IndexError (m : string) : exn := Exn "IndexError" m.

(** A pure step that may raise. *)
Inductive res (A : Type) : Type :=
| Ok (a : A)
| Err (e : exn).
Arguments Ok {A} a.
Arguments Err {A} e.

Definition dq : string := String (ascii_of_nat 34) EmptyString.
Definition nl : string := String (ascii_of_nat 10) EmptyString.

(** *** Numbers as text *)

Definition string_of_Z (z : Z) : string := NilZero.string_of_int (Z.to_int z).

Definition two_digits (n : Z) : string :=
  if n <? 10 then "0" +++ string_of_Z n else string_of_Z n.

(** [group_rev k l] walks the digits from the least significant one and
    puts a comma in front of every fourth. *)
Fixpoint group_rev (k : nat) (l : list ascii) : list ascii :=
  match l with
  | [] => []
  | d :: r =>
      if Nat.eqb k 3 then ","%char :: d :: group_rev 1 r
      else d :: group_rev (S k) r
  end.

Definition thousands (digits : string) : string :=
  string_of_list_ascii (rev (group_rev 0 (rev (list_ascii_of_string digits)))).

Definition sign_of (c : Z) : string := if c <? 0 then "-" else "".

(** The fraction the way [repr] of a float prints it: trailing zeros
    dropped, one digit kept. *)
Definition short_fraction (f : Z) : string :=
  if f mod 10 =? 0 then string_of_Z (f / 10) else two_digits f.

Fixpoint drop_zeros (l : list ascii) : list ascii :=
  match l with
  | "0"%char :: r => drop_zeros r
  | _ => l
  end.

(** [repr] of a float from 1e16 on: the significant digits, a point
    after the first of them, and the exponent. *)
Definition scientific (c : Z) : string :=
  let digits := string_of_Z (Z.abs c) in
  let exponent := string_of_Z (Z.of_nat (String.length digits) - 3) in
  match rev (drop_zeros (rev (list_ascii_of_string digits))) with
  | d :: [] => sign_of c +++ String d "e+" +++ exponent
  | d :: rest => sign_of c +++ String d ("." +++ string_of_list_ascii rest) +++ "e+" +++ exponent
  | [] => "0.0"
  end.

(** [repr] of a float, with the digits before the point written by [show]. *)
Definition float_repr (show : string -> string) (c : Z) : string :=
  if Z.abs c <? 1000000000000000000
  then sign_of c +++ show (string_of_Z (Z.abs c / 100)) +++ "."
         +++ short_fraction (Z.abs c mod 100)
  else scientific c.

(** [str(x)] *)
Definition py_str (v : value) : string :=
  match v with
  | VNone => "None"
  | VInt n => string_of_Z n
  | VFloat c => float_repr (fun digits => digits) c
  | VDecimal c =>
      sign_of c +++ string_of_Z (Z.abs c / 100) +++ "." +++ two_digits (Z.abs c mod 100)
  | VStr s => s
  end.

(** [format(x, ",.2f")] *)
Definition format_comma_2f (v : value) : res string :=
  match v with
  | VNone => Err (TypeError "unsupported format string passed to NoneType.__format__")
  | VStr _ => Err (ValueError "Unknown format code 'f' for object of type 'str'")
  | VInt n =>
      Ok (sign_of n +++ thousands (string_of_Z (Z.abs n)) +++ ".00")
  | VFloat c | VDecimal c =>
      Ok (sign_of c +++ thousands (string_of_Z (Z.abs c / 100)) +++ "."
            +++ two_digits (Z.abs c mod 100))
  end.

(** [format(x, ",")] *)
Definition format_comma (v : value) : res string :=
  match v with
  | VNone => Err (TypeError "unsupported format string passed to NoneType.__format__")
  | VStr _ => Err (ValueError "Cannot specify ',' with 's'.")
  | VInt n => Ok (sign_of n +++ thousands (string_of_Z (Z.abs n)))
  | VFloat c => Ok (float_repr thousands c)
  | VDecimal c =>
      Ok (sign_of c +++ thousands (string_of_Z (Z.abs c / 100)) +++ "."
            +++ two_digits (Z.abs c mod 100))
  end.

(** The lambda of lines 278 and 493: [lambda x: f"${x:,.2f}"]. *)
Definition currency (v : value) : res value :=
  match format_comma_2f v with
  | Ok s => Ok (VStr ("$" +++ s))
  | Err e => Err e
  end.

(** [isinstance(x, (int, float))] *)
Definition is_int_or_float (v : value) : bool :=
  match v with
  | VInt _ | VFloat _ => true
  | _ => false
  end.

(** The lambda of line 536:
    [lambda x: f"${x:,.2f}" if isinstance(x, (int, float)) else x]. *)
Definition currency_if_number (v : value) : res value :=
  if is_int_or_float v then currency v else Ok v.

(** *** Truth, equality, order *)

(** The amount a number stands for, in hundredths. *)
Definition cents_of (v : value) : option Z :=
  match v with
  | VInt n => Some (100 * n)
  | VFloat c | VDecimal c => Some c
  | _ => None
  end.

(** [bool(x)] *)
Definition truthy (v : value) : bool :=
  match v with
  | VNone => false
  | VInt n => negb (n =? 0)
  | VFloat c | VDecimal c => negb (c =? 0)
  | VStr s => negb (String.eqb s "")
  end.

(** What [==] and [hash] look at: numbers of different types that stand
    for the same amount are one dictionary key. *)
Inductive key : Type :=
| KNone
| KNum (c : Z)
| KStr (s : string).

Definition key_of (v : value) : key :=
  match v with
  | VNone => KNone
  | VInt n => KNum (100 * n)
  | VFloat c | VDecimal c => KNum c
  | VStr s => KStr s
  end.

Definition key_eqb (a b : key) : bool :=
  match a, b with
  | KNone, KNone => true
  | KNum x, KNum y => x =? y
  | KStr s, KStr t => String.eqb s t
  | _, _ => false
  end.

(** [a == b] *)
Definition py_eqb (a b : value) : bool := key_eqb (key_of a) (key_of b).

(** ** pandas frames *)

Record DataFrame : Type := Frame { columns : list string; rows : list (list value) }.

Definition empty_frame : DataFrame := Frame [] [].

Definition nat_str (n : nat) : string := string_of_Z (Z.of_nat n).

Definition width (data : list (list value)) : nat :=
  fold_right (fun r m => Nat.max (length r) m) 0%nat data.

Definition pad_row (n : nat) (r : list value) : list value :=
  r ++ repeat VNone (n - length r).

(** [pd.DataFrame(data, columns=cols)] for a list of rows.  pandas pads
    short rows up to the widest one and refuses a width that differs
    from the number of names.  The cells are kept as they come; pandas
    does so in the columns that [as_fetched] describes. *)
Definition frame_of_rows (data : list (list value)) (cols : list string) : res DataFrame :=
  match data with
  | [] => Ok (Frame cols [])
  | _ :: _ =>
      if Nat.eqb (width data) (length cols)
      then Ok (Frame cols (map (pad_row (length cols)) data))
      else Err (ValueError (nat_str (length cols) +++ " columns passed, passed data had "
                              +++ nat_str (width data) +++ " columns"))
  end.

(** [pd.DataFrame({name: list, ...})] *)
Definition frame_of_columns (cols : list (string * list value)) : res DataFrame :=
  match cols with
  | [] => Ok empty_frame
  | (_, c0) :: _ =>
      if forallb (fun c => Nat.eqb (length (snd c)) (length c0)) cols
      then Ok (Frame (map fst cols)
                 (map (fun i => map (fun c => nth i (snd c) VNone) cols)
                    (seq 0 (length c0))))
      else Err (ValueError "All arrays must be of the same length")
  end.

Fixpoint index_of (name : string) (l : list string) : option nat :=
  match l with
  | [] => None
  | x :: r =>
      if String.eqb x name then Some 0%nat
      else match index_of name r with
           | Some i => Some (S i)
           | None => None
           end
  end.

(** [name in df.columns] *)
Definition has_column (df : DataFrame) (name : string) : bool :=
  match index_of name (columns df) with
  | Some _ => true
  | None => false
  end.

(** [df[name]] as the list of its cells. *)
Definition column (df : DataFrame) (name : string) : res (list value) :=
  match index_of name (columns df) with
  | Some i => Ok (map (fun r => nth i r VNone) (rows df))
  | None => Err (Exn "KeyError" name)
  end.

Fixpoint replace_nth {A : Type} (i : nat) (x : A) (l : list A) : list A :=
  match l, i with
  | [], _ => []
  | _ :: r, O => x :: r
  | y :: r, S j => y :: replace_nth j x r
  end.

Fixpoint zip_with {A B C : Type} (f : A -> B -> C) (l : list A) (m : list B) : list C :=
  match l, m with
  | a :: l', b :: m' => f a b :: zip_with f l' m'
  | _, _ => []
  end.

(** [df[name] = cells]: an existing column is overwritten where it
    stands, a new one is added on the right. *)
Definition set_column (df : DataFrame) (name : string) (cells : list value) : DataFrame :=
  match index_of name (columns df) with
  | Some i => Frame (columns df) (zip_with (fun r x => replace_nth i x r) (rows df) cells)
  | None => Frame (columns df ++ [name]) (zip_with (fun r x => r ++ [x]) (rows df) cells)
  end.

(** [df[name] = scalar] *)
Definition set_scalar (df : DataFrame) (name : string) (x : value) : DataFrame :=
  set_column df name (repeat x (length (rows df))).

(** [series.apply(f)] *)
Fixpoint apply {A B : Type} (f : A -> res B) (l : list A) : res (list B) :=
  match l with
  | [] => Ok []
  | x :: r =>
      match f x with
      | Err e => Err e
      | Ok y =>
          match apply f r with
          | Err e => Err e
          | Ok ys => Ok (y :: ys)
          end
      end
  end.

(** Distinct values in the order of their first appearance:
    [series.unique()] and the key order of a [dict]. *)
Fixpoint mem (x : value) (l : list value) : bool :=
  match l with
  | [] => false
  | y :: r => py_eqb y x || mem x r
  end.

Fixpoint unique_from (seen : list value) (l : list value) : list value :=
  match l with
  | [] => seen
  | x :: r => if mem x seen then unique_from seen r else unique_from (seen ++ [x]) r
  end.

Definition unique (l : list value) : list value := unique_from [] l.

(** [float(series.min())] and [float(series.max())]: missing cells are
    skipped and [None] stands for the [nan] of an all-missing column.
    The result is a float: [Some c] is the double nearest to the least
    (greatest) amount [c], which need not be that amount ([float_side]).
    A column with a text cell is given up with an exception; which one
    Python raises, and with what message, depends on the cells and is
    not modelled (numeric text is not parsed either). *)
Fixpoint extremum (pick : Z -> Z -> Z) (l : list value) : res (option Z) :=
  match l with
  | [] => Ok None
  | v :: r =>
      match extremum pick r with
      | Err e => Err e
      | Ok m =>
          match v, cents_of v with
          | VNone, _ => Ok m
          | _, Some c => Ok (Some (match m with Some d => pick c d | None => c end))
          | _, None => Err (ValueError "could not convert string to float")
          end
      end
  end.

(** On which side of the amount [c] the double nearest to it lies:
    [Eq] when the amount is a double itself, [Gt] when the double is
    above it, as for 0.10, and [Lt] when it is below, as for 0.30.  The
    amount is scaled to a numerator of 53 bits over its denominator and
    rounded to the nearest, ties to the even numerator. *)
Definition float_side (c : Z) : comparison :=
  let n := Z.abs c in
  if n =? 0 then Eq else
  let k0 := 58 - Z.log2 n in
  let k := if Z.shiftl n k0 <? 100 * 2 ^ 52 then k0 + 1 else k0 in
  let num := if 0 <=? k then n * 2 ^ k else n in
  let den := if 0 <=? k then 100 else 100 * 2 ^ (- k) in
  let q := num / den in
  let r := num mod den in
  let up := if c <? 0 then Lt else Gt in
  let down := if c <? 0 then Gt else Lt in
  if r =? 0 then Eq
  else match 2 * r ?= den with
       | Lt => down
       | Gt => up
       | Eq => if Z.even q then down else up
       end.

(** A number against the float [bound]: ints and floats are doubles
    themselves; a Decimal is its exact amount, so against the float of
    its own amount it is on the side opposite to [float_side]. *)
Definition against_float (v : value) (bound : Z) : option comparison :=
  match v with
  | VInt n => Some (100 * n ?= bound)
  | VFloat c => Some (c ?= bound)
  | VDecimal c =>
      Some (match c ?= bound with
            | Eq => CompOpp (float_side bound)
            | o => o
            end)
  | _ => None
  end.

(** [>=] and [<=] on the outcome of a comparison. *)
Definition not_below (o : comparison) : bool :=
  match o with
  | Lt => false
  | _ => true
  end.

Definition not_above (o : comparison) : bool :=
  match o with
  | Gt => false
  | _ => true
  end.

(** One cell of [series >= bound] or [series <= bound], the bound being
    a float; a missing cell compares false. *)
Definition compare_cell (holds : comparison -> bool) (bound : Z) (v : value) : res bool :=
  match v, against_float v bound with
  | VNone, _ => Ok false
  | _, Some o => Ok (holds o)
  | _, None => Err (TypeError "'>=' not supported between instances of 'str' and 'float'")
  end.

(** One cell of [series == x]. *)
Definition equals_cell (x : value) (v : value) : bool :=
  match v with
  | VNone => false
  | _ => py_eqb v x
  end.

(** [df[mask]] *)
Fixpoint select_rows (rs : list (list value)) (mask : list bool) : list (list value) :=
  match rs, mask with
  | r :: rs', b :: mask' => if b then r :: select_rows rs' mask' else select_rows rs' mask'
  | _, _ => []
  end.

(** *** CSV *)

Fixpoint contains_char (c : ascii) (s : string) : bool :=
  match s with
  | EmptyString => false
  | String d r => Ascii.eqb c d || contains_char c r
  end.

Fixpoint double_quotes (s : string) : string :=
  match s with
  | EmptyString => EmptyString
  | String d r =>
      if Ascii.eqb d (ascii_of_nat 34)
      then String d (String d (double_quotes r))
      else String d (double_quotes r)
  end.

Definition needs_quotes (s : string) : bool :=
  contains_char ","%char s || contains_char (ascii_of_nat 34) s
  || contains_char (ascii_of_nat 10) s || contains_char (ascii_of_nat 13) s.

Definition csv_field (s : string) : string :=
  if needs_quotes s then dq +++ double_quotes s +++ dq else s.

(** A record made of one empty field is written quoted. *)
Definition csv_line (fields : list string) : string :=
  match fields with
  | [""] => dq +++ dq +++ nl
  | _ => String.concat "," (map csv_field fields) +++ nl
  end.

(** The text of a cell: its [str], nothing for a missing value. *)
Definition csv_cell (v : value) : string :=
  match v with
  | VNone => ""
  | _ => py_str v
  end.

(** [df.to_csv(index=False)] *)
Definition to_csv (df : DataFrame) : string :=
  String.concat "" (csv_line (columns df) :: map (fun r => csv_line (map csv_cell r)) (rows df)).

(** ** The page trace *)

Inductive text_kind : Type :=
| Markdown | Subheader | SidebarTitle | Write
| Error | Warning | Info | Success | ExceptionBox.

Inductive chart_kind : Type := Pie | Bar | Box.

Inductive event : Type :=
| Connect (conn_str : string)
| Cursor
| Execute (sql : string) (params : list value)
| Close
| Text (k : text_kind) (s : string)
| Radio (label : string) (options : list string)
| TextInput (label : string)
| Button (label : string)
| Selectbox (label : string) (options : list value)
| Slider (label : string) (lo hi : option Z)
| TextArea (label : string) (default : string)
| Columns (n : nat)
| Container
| Metric (label : string) (shown : string)
| Chart (k : chart_kind) (title : string) (df : DataFrame)
| Table (df : DataFrame)
| Download (label : string) (data : string) (file : string) (mime : string)
| Spinner (s : string)
| Sleep.

(** ** The collaborators *)

(** What a cursor holds after [execute]: the column descriptors and the
    rows not fetched yet. *)
Record resultset : Type := Results { description : list string; pending : list (list value) }.

(** The answer of the driver to one call. *)
Inductive response (A : Type) : Type :=
| Returns (a : A)
| Raises (e : exn)
| Hangs.
Arguments Returns {A} a.
Arguments Raises {A} e.
Arguments Hangs {A}.

(** The driver.  [tick] counts the driver calls made so far in the
    request, so the answers may change from one call to the next.  A
    statement that is not a query returns no result set. *)
Record Driver : Type := {
  drv_connect : string -> response unit;
  drv_cursor : nat -> response unit;
  drv_execute : nat -> string -> list value -> response (option resultset)
}.

(** The user: the page chosen in the sidebar, the buttons pressed in
    this run, the entry picked in each select box, the slider handles
    and the text typed.  The ends of a slider and its two handles are
    floats: each is the double nearest to the amount that stands for
    it. *)
Record Ui : Type := {
  ui_radio : string -> nat;
  ui_button : string -> bool;
  ui_select : string -> nat;
  ui_slider : string -> Z * Z;
  ui_text_area : string -> string -> string
}.

(** ** The state of a run and its monad *)

Record state : Type := State {
  trace : list event;
  tick : nat;
  cursor : option resultset;
  heap : list DataFrame
}.

Definition initial : state := State [] 0 None [].

(** How a computation ends: with a value, with an exception, or not at
    all.  The exceptions raised inside the pages are instances of
    [Exception], which the handlers of the script catch. *)
Inductive outcome (A : Type) : Type :=
| Ret (a : A)
| Raise (e : exn)
| Hang.
Arguments Ret {A} a.
Arguments Raise {A} e.
Arguments Hang {A}.

Definition M (A : Type) : Type := state -> outcome A * state.

Definition ret {A : Type} (a : A) : M A := fun s => (Ret a, s).

Definition bind {A B : Type} (m : M A) (f : A -> M B) : M B :=
  fun s =>
    match m s with
    | (Ret a, s') => f a s'
    | (Raise e, s') => (Raise e, s')
    | (Hang, s') => (Hang, s')
    end.

Definition raise {A : Type} (e : exn) : M A := fun s => (Raise e, s).

(** [try: m  except Exception as e: h e] *)
Definition try_except {A : Type} (m : M A) (h : exn -> M A) : M A :=
  fun s =>
    match m s with
    | (Raise e, s') => h e s'
    | r => r
    end.

Definition lift {A : Type} (r : res A) : M A :=
  match r with
  | Ok a => ret a
  | Err e => raise e
  end.

Notation "x <- m ;; k" := (bind m (fun x => k))
  (at level 61, m at next level, right associativity).
Notation "m ;; k" := (bind m (fun _ => k))
  (at level 61, right associativity).

Definition emit (e : event) : M unit :=
  fun s => (Ret tt, State (trace s ++ [e]) (tick s) (cursor s) (heap s)).

Definition when (b : bool) (m : M unit) : M unit := if b then m else ret tt.

(** *** Frames in the heap *)

Definition ref : Type := nat.

Definition alloc (df : DataFrame) : M ref :=
  fun s => (Ret (length (heap s)), State (trace s) (tick s) (cursor s) (heap s ++ [df])).

Definition load (r : ref) : M DataFrame :=
  fun s => (Ret (nth r (heap s) empty_frame), s).

Definition store (r : ref) (df : DataFrame) : M unit :=
  fun s => (Ret tt, State (trace s) (tick s) (cursor s) (replace_nth r df (heap s))).

(** [df.copy()] *)
Definition copy (r : ref) : M ref := df <- load r ;; alloc df.

(** *** Widgets *)

Definition text (k : text_kind) (s : string) : M unit := emit (Text k s).

Section Script.

Variable drv : Driver.
Variable ui : Ui.

Definition radio (label : string) (options : list string) : M string :=
  emit (Radio label options) ;;
  ret (nth (ui_radio ui label) options (hd "" options)).

Definition button (label : string) : M bool :=
  emit (Button label) ;; ret (ui_button ui label).

Definition selectbox (label : string) (options : list value) : M value :=
  emit (Selectbox label options) ;;
  ret (nth (ui_select ui label) options (hd VNone options)).

Definition slider (label : string) (lo hi : option Z) : M (Z * Z) :=
  emit (Slider label lo hi) ;; ret (ui_slider ui label).

Definition text_area (label default : string) : M string :=
  emit (TextArea label default) ;; ret (ui_text_area ui label default).

(** *** The connection and its cursor *)

Definition answer {A : Type} (r : response A) (s : state) : outcome A * state :=
  let s' := State (trace s) (S (tick s)) (cursor s) (heap s) in
  match r with
  | Returns a => (Ret a, s')
  | Raises e => (Raise e, s')
  | Hangs => (Hang, s')
  end.

(** [pyodbc.connect(conn_str)] *)
Definition pyodbc_connect (conn_str : string) : M unit :=
  emit (Connect conn_str) ;; answer (drv_connect drv conn_str).

(** [conn.cursor()] *)
Definition conn_cursor : M unit :=
  emit Cursor ;;
  (fun s => answer (drv_cursor drv (tick s)) s) ;;
  (fun s => (Ret tt, State (trace s) (tick s) None (heap s))).

(** [cursor.execute(sql, *params)] *)
Definition execute (sql : string) (params : list value) : M unit :=
  emit (Execute sql params) ;;
  (fun s => (Ret tt, State (trace s) (tick s) None (heap s))) ;;
  rs <- (fun s => answer (drv_execute drv (tick s) sql params) s) ;;
  (fun s => (Ret tt, State (trace s) (tick s) rs (heap s))).

Definition no_results : exn :=
  Exn "ProgrammingError" "No results.  Previous SQL was not a query.".

(** [cursor.fetchone()]: the next row, or [None]. *)
Definition fetchone : M (option (list value)) :=
  fun s =>
    match cursor s with
    | None => (Raise no_results, s)
    | Some (Results d []) => (Ret None, s)
    | Some (Results d (r :: rest)) =>
        (Ret (Some r), State (trace s) (tick s) (Some (Results d rest)) (heap s))
    end.

(** [cursor.fetchall()] *)
Definition fetchall : M (list (list value)) :=
  fun s =>
    match cursor s with
    | None => (Raise no_results, s)
    | Some (Results d rs) =>
        (Ret rs, State (trace s) (tick s) (Some (Results d [])) (heap s))
    end.

(** [[column[0] for column in cursor.description]] *)
Definition column_names : M (list string) :=
  fun s =>
    match cursor s with
    | None => (Raise (TypeError "'NoneType' object is not iterable"), s)
    | Some rs => (Ret (description rs), s)
    end.

(** [conn.close()] *)
Definition conn_close : M unit := emit Close.

(** [row[0]] *)
Definition first_of (row : list value) : res value :=
  match row with
  | x :: _ => Ok x
  | [] => Err (IndexError "tuple index out of range")
  end.

(** [cursor.fetchone()[0]] *)
Definition fetchone_0 : M value :=
  row <- fetchone ;;
  match row with
  | None => raise (TypeError "'NoneType' object is not subscriptable")
  | Some r => lift (first_of r)
  end.

(** [[row[0] for row in cursor.fetchall()]] *)
Definition fetchall_0 : M (list value) :=
  rs <- fetchall ;; lift (apply first_of rs).

(** *** Dictionaries

    A [dict] keeps its keys in the order they were first inserted;
    assigning to a key that is present keeps the key where it is. *)

Definition dict (V : Type) : Type := list (value * V).

Fixpoint dict_get {V : Type} (d : dict V) (k : value) : option V :=
  match d with
  | [] => None
  | (k', v) :: r => if py_eqb k' k then Some v else dict_get r k
  end.

Fixpoint dict_set {V : Type} (d : dict V) (k : value) (v : V) : dict V :=
  match d with
  | [] => [(k, v)]
  | (k', v') :: r => if py_eqb k' k then (k', v) :: r else (k', v') :: dict_set r k v
  end.

Definition dict_keys {V : Type} (d : dict V) : list value := map fst d.
Definition dict_values {V : Type} (d : dict V) : list V := map snd d.

(** [dict(zip(names, row))] *)
Definition dict_zip (names : list string) (row : list value) : dict value :=
  fold_left (fun d nv => dict_set d (VStr (fst nv)) (snd nv)) (combine names row) [].

(** ** connect_to_db (lines 22-39) *)

Inductive connection : Type := Conn.

Variable getenv : string -> option string.

(** An environment variable inside an f-string. *)
Definition shown_env (name : string) : string :=
  match getenv name with
  | Some v => v
  | None => "None"
  end.

Definition conn_str : string :=
  "DRIVER=" +++ "{ODBC Driver 17 for SQL Server}"
  +++ ";SERVER=" +++ shown_env "AZURE_SQL_SERVER"
  +++ ";DATABASE=" +++ shown_env "AZURE_SQL_DATABASE"
  +++ ";UID=" +++ shown_env "AZURE_SQL_USERNAME"
  +++ ";PWD=" +++ shown_env "AZURE_SQL_PASSWORD".

Definition connect_to_db : M (option connection) :=
  try_except
    (pyodbc_connect conn_str ;;
     ret (Some Conn))
    (fun e =>
     text Error ("Error connecting to database: " +++ exn_msg e) ;;
     ret None).

(** ** display_dashboard (lines 119-291) *)

Definition metric_open : string := "<div class=" +++ dq +++ "metric-container" +++ dq +++ ">".

(** Lines 125-155: the three totals and their metric boxes. *)
Definition key_metrics : M unit :=
  execute "SELECT COUNT(*) FROM Accounts" [] ;;
  total_accounts <- fetchone_0 ;;
  execute "SELECT SUM(Balance) FROM Accounts" [] ;;
  total_balance <- fetchone_0 ;;
  execute "SELECT AVG(Balance) FROM Accounts" [] ;;
  avg_balance <- fetchone_0 ;;
  emit (Columns 3) ;;
  text Markdown metric_open ;;
  shown <- lift (format_comma total_accounts) ;;
  emit (Metric "Total Accounts" shown) ;;
  text Markdown "</div>" ;;
  text Markdown metric_open ;;
  shown <- lift (format_comma_2f total_balance) ;;
  emit (Metric "Total Balance" ("$" +++ shown)) ;;
  text Markdown "</div>" ;;
  text Markdown metric_open ;;
  shown <- lift (format_comma_2f avg_balance) ;;
  emit (Metric "Average Balance" ("$" +++ shown)) ;;
  text Markdown "</div>".

(** Lines 170-179: the loop over the fetched account types. *)
Fixpoint count_account_types (account_types : list value)
    (account_type_counts : dict Z) (account_type_balances : dict value)
    : M (dict Z * dict value) :=
  match account_types with
  | [] => ret (account_type_counts, account_type_balances)
  | account_type :: rest =>
      match dict_get account_type_counts account_type with
      | None =>
          execute "SELECT SUM(Balance) FROM Accounts WHERE AccountType = ?" [account_type] ;;
          balance <- fetchone_0 ;;
          count_account_types rest
            (dict_set account_type_counts account_type 1)
            (dict_set account_type_balances account_type
               (if truthy balance then balance else VInt 0))
      | Some n =>
          count_account_types rest
            (dict_set account_type_counts account_type (n + 1))
            account_type_balances
      end
  end.

(** Lines 161-186: the frame behind both charts. *)
Definition accounts_by_type : M ref :=
  execute "SELECT AccountType FROM Accounts" [] ;;
  account_types <- fetchall_0 ;;
  dicts <- count_account_types account_types [] [] ;;
  df <- lift (frame_of_columns
                [("Account Type", dict_keys (fst dicts));
                 ("Count", map VInt (dict_values (fst dicts)));
                 ("Total Balance", dict_values (snd dicts))]) ;;
  alloc df.

(** Lines 189-215 *)
Definition type_charts (df_accounts_by_type : ref) : M unit :=
  emit (Columns 2) ;;
  df <- load df_accounts_by_type ;;
  emit (Chart Pie "Distribution of Account Types" df) ;;
  df <- load df_accounts_by_type ;;
  emit (Chart Bar "Total Balance by Account Type" df).

(** Lines 218-239 *)
Definition balance_distribution : M unit :=
  text Subheader "Balance Distribution" ;;
  execute "SELECT Balance FROM Accounts" [] ;;
  balances <- fetchall_0 ;;
  df <- lift (frame_of_columns
                [("Balance", balances);
                 ("ID", map (fun i => VInt (Z.of_nat i)) (seq 1 (length balances)))]) ;;
  df_balances <- alloc df ;;
  df <- load df_balances ;;
  emit (Chart Box "Account Balance Distribution" df).

Definition top_5_sql : string :=
  "
            SELECT TOP 5 AccountNumber, Balance, AccountType
            FROM Accounts
            ORDER BY Balance DESC
        ".

Definition expected_columns : list string := ["Account Number"; "Balance"; "Account Type"].

(** Lines 252-274: the rows of the top-five query made into a frame.
    A row is matched to the expected columns by position.  A driver row
    is the list of its values, also at line 265 where the rows go to
    pandas as they came. *)
Definition adapt_top_accounts (top_accounts : list (list value)) : M ref :=
  match top_accounts with
  | first :: _ =>
      if (3 <=? length first)%nat then
        df <- lift (frame_of_rows top_accounts expected_columns) ;;
        alloc df
      else
        let columns := ["Account Number"] in
        let columns := if (1 <? length first)%nat then columns ++ ["Balance"] else columns in
        let columns := if (2 <? length first)%nat then columns ++ ["Account Type"] else columns in
        df <- lift (frame_of_rows top_accounts columns) ;;
        df_top_accounts <- alloc df ;;
        df <- load df_top_accounts ;;
        when (negb (has_column df "Balance"))
          (store df_top_accounts (set_scalar df "Balance" (VFloat 0))) ;;
        df <- load df_top_accounts ;;
        when (negb (has_column df "Account Type"))
          (store df_top_accounts (set_scalar df "Account Type" (VStr "Unknown"))) ;;
        ret df_top_accounts
  | [] => alloc (Frame expected_columns [])
  end.

(** Lines 277-278 and 492-493:
    [if "Balance" in df.columns: df["Balance"] = df["Balance"].apply(f)],
    an assignment into the frame itself. *)
Definition format_balance (f : value -> res value) (df_ref : ref) : M unit :=
  df <- load df_ref ;;
  when (has_column df "Balance")
    (cells <- lift (column df "Balance") ;;
     shown <- lift (apply f cells) ;;
     store df_ref (set_column df "Balance" shown)).

(** Lines 242-285 *)
Definition top_accounts_table : M unit :=
  text Subheader "Top 5 Accounts by Balance" ;;
  execute top_5_sql [] ;;
  top_accounts <- fetchall ;;
  df_top_accounts <- adapt_top_accounts top_accounts ;;
  format_balance currency df_top_accounts ;;
  df <- load df_top_accounts ;;
  emit (Table df).

Definition shown_exception (e : exn) : string := exn_class e +++ ": " +++ exn_msg e.

Definition display_dashboard : M unit :=
  text Subheader "Key Metrics" ;;
  try_except
    (conn_cursor ;;
     key_metrics ;;
     text Subheader "Accounts by Type" ;;
     df_accounts_by_type <- accounts_by_type ;;
     type_charts df_accounts_by_type ;;
     balance_distribution ;;
     top_accounts_table)
    (fun e =>
     text Error ("Error fetching dashboard data: " +++ exn_msg e) ;;
     text Error "Detailed error information for debugging:" ;;
     text ExceptionBox (shown_exception e) ;;
     text Info "This dashboard is configured for a specific database schema. You may need to modify the queries to match your actual schema.").

(** ** display_account_details (lines 294-427) *)

Definition sample_accounts : list value :=
  [VStr "ACC-10001"; VStr "ACC-10002"; VStr "ACC-10003"].

(** Lines 302-311: the account numbers, or the samples, and the selector. *)
Definition select_account : M value :=
  account_numbers <-
    try_except
      (execute "SELECT AccountNumber FROM Accounts" [] ;;
       fetchall_0)
      (fun _ =>
       text Warning "Could not retrieve account numbers. The table structure may be different." ;;
       ret sample_accounts) ;;
  selectbox "Select an account" account_numbers.

Definition details_sql : string :=
  "
                    SELECT * FROM Accounts
                    WHERE AccountNumber = ?
                ".

Definition avg_by_type_sql : string :=
  "
                                SELECT AVG(Balance) 
                                FROM Accounts 
                                WHERE AccountType = ?
                            ".

(** [if name in d: st.markdown(f"**{title}:** {d[name]}")] *)
Definition show_field (d : dict value) (name title : string) : M unit :=
  match dict_get d (VStr name) with
  | Some v => text Markdown ("**" +++ title +++ ":** " +++ py_str v)
  | None => ret tt
  end.

(** Lines 333-349 *)
Definition account_fields (d : dict value) : M unit :=
  emit (Columns 2) ;;
  text Markdown "### Account Information" ;;
  show_field d "AccountID" "Account ID" ;;
  show_field d "AccountNumber" "Account Number" ;;
  show_field d "AccountType" "Account Type" ;;
  text Markdown "### Financial Details" ;;
  match dict_get d (VStr "Balance") with
  | Some v =>
      shown <- lift (format_comma_2f v) ;;
      text Markdown ("**Current Balance:** $" +++ shown)
  | None => ret tt
  end ;;
  show_field d "CreatedDate" "Created Date" ;;
  show_field d "LastUpdated" "Last Updated".

(** Lines 352-389 *)
Definition balance_comparison (d : dict value) (selected_account : value) : M unit :=
  match dict_get d (VStr "Balance"), dict_get d (VStr "AccountType") with
  | Some balance, Some account_type =>
      text Subheader "Balance Comparison" ;;
      try_except
        (execute avg_by_type_sql [account_type] ;;
         avg_balance_type <- fetchone_0 ;;
         execute "SELECT AVG(Balance) FROM Accounts" [] ;;
         avg_balance_overall <- fetchone_0 ;;
         df <- lift (frame_of_columns
                       [("Category", [VStr "This Account";
                                      VStr ("Avg " +++ py_str account_type);
                                      VStr "Overall Avg"]);
                        ("Balance", [balance; avg_balance_type; avg_balance_overall])]) ;;
         comparison_data <- alloc df ;;
         df <- load comparison_data ;;
         emit (Chart Bar ("Balance Comparison for " +++ py_str selected_account) df))
        (fun e =>
         text Warning "Couldn't generate comparison chart. Some data may be missing." ;;
         text Error (exn_msg e))
  | _, _ => ret tt
  end.

(** Lines 392-418 *)
Definition account_actions (selected_account : value) : M unit :=
  text Subheader "Account Actions" ;;
  emit (Columns 3) ;;
  pressed <- button "Simulate Deposit" ;;
  when pressed
    (amount <- lift (format_comma_2f (VFloat 10000)) ;;
     text Success ("Simulated deposit of $" +++ amount +++ " to account "
                     +++ py_str selected_account)) ;;
  pressed <- button "Simulate Withdrawal" ;;
  when pressed
    (amount <- lift (format_comma_2f (VFloat 5000)) ;;
     text Success ("Simulated withdrawal of $" +++ amount +++ " from account "
                     +++ py_str selected_account)) ;;
  pressed <- button "Generate Statement" ;;
  when pressed
    (emit (Spinner "Generating statement...") ;;
     emit Sleep ;;
     text Success "Statement generated successfully" ;;
     emit (Download "Download Statement"
             "This would be a statement PDF in a real application"
             (py_str selected_account +++ "_statement.pdf")
             "application/pdf")).

(** Lines 313-423 *)
Definition account_details (selected_account : value) : M unit :=
  when (truthy selected_account)
    (try_except
       (execute details_sql [selected_account] ;;
        account_details_raw <- fetchone ;;
        match account_details_raw with
        | Some (x :: r) =>
            column_names <- column_names ;;
            let account_details_dict := dict_zip column_names (x :: r) in
            account_fields account_details_dict ;;
            balance_comparison account_details_dict selected_account ;;
            account_actions selected_account
        | _ => text Warning ("Account " +++ py_str selected_account +++ " not found")
        end)
       (fun e =>
        text Error ("Error retrieving account details: " +++ exn_msg e) ;;
        text Info "This page is designed for a specific table structure. You may need to modify the code to match your database schema.")).

Definition display_account_details : M unit :=
  text Subheader "Account Details" ;;
  try_except
    (conn_cursor ;;
     selected_account <- select_account ;;
     account_details selected_account)
    (fun e =>
     text Error ("Error accessing account data: " +++ exn_msg e) ;;
     text ExceptionBox (shown_exception e)).

(** ** display_data_explorer (lines 430-586) *)

(** Lines 448-473: the two filter widgets. *)
Definition filter_widgets (df_accounts : ref) : M (value * (Z * Z)) :=
  text Subheader "Filters" ;;
  emit (Columns 2) ;;
  df <- load df_accounts ;;
  selected_type <-
    (if has_column df "AccountType" then
       cells <- lift (column df "AccountType") ;;
       selectbox "Account Type" (VStr "All" :: unique cells)
     else
       text Info "AccountType column not found in data" ;;
       ret (VStr "All")) ;;
  df <- load df_accounts ;;
  balance_range <-
    (if has_column df "Balance" then
       cells <- lift (column df "Balance") ;;
       min_balance <- lift (extremum Z.min cells) ;;
       max_balance <- lift (extremum Z.max cells) ;;
       slider "Balance Range" min_balance max_balance
     else
       text Info "Balance column not found in data" ;;
       ret (0, 0)) ;;
  ret (selected_type, balance_range).

(** Lines 476-485: the filters, applied to a copy of the typed frame;
    every [df[mask]] is a new frame. *)
Definition apply_filters (df_accounts : ref) (selected_type : value)
    (balance_range : Z * Z) : M ref :=
  filtered_df <- copy df_accounts ;;
  df <- load filtered_df ;;
  filtered_df <-
    (if negb (py_eqb selected_type (VStr "All")) && has_column df "AccountType" then
       cells <- lift (column df "AccountType") ;;
       alloc (Frame (columns df) (select_rows (rows df) (map (equals_cell selected_type) cells)))
     else ret filtered_df) ;;
  df <- load filtered_df ;;
  (if has_column df "Balance" then
     cells <- lift (column df "Balance") ;;
     above <- lift (apply (compare_cell not_below (fst balance_range)) cells) ;;
     below <- lift (apply (compare_cell not_above (snd balance_range)) cells) ;;
     alloc (Frame (columns df) (select_rows (rows df) (zip_with andb above below)))
   else ret filtered_df).

(** Lines 488-507: the formatted copy goes to the table, the typed
    frame to the download. *)
Definition show_and_download (filtered_df : ref) : M unit :=
  df <- load filtered_df ;;
  text Subheader ("Accounts Data (" +++ nat_str (length (rows df)) +++ " records)") ;;
  filtered_df_display <- copy filtered_df ;;
  format_balance currency filtered_df_display ;;
  df <- load filtered_df_display ;;
  emit (Table df) ;;
  df <- load filtered_df ;;
  emit (Download "Download Data as CSV" (to_csv df) "accounts_data.csv" "text/csv").

Definition default_query : string :=
  "SELECT AccountNumber, Balance, AccountType FROM Accounts WHERE Balance > 5000 ORDER BY Balance DESC".

(** Lines 519-552: one ad-hoc statement. *)
Definition run_query (sql_query : string) : M unit :=
  try_except
    (execute sql_query [] ;;
     query_columns <- column_names ;;
     query_results <- fetchall ;;
     match query_results with
     | _ :: _ =>
         df <- lift (frame_of_rows query_results query_columns) ;;
         df_results <- alloc df ;;
         format_balance currency_if_number df_results ;;
         df <- load df_results ;;
         emit (Table df) ;;
         df <- load df_results ;;
         emit (Download "Download Query Results" (to_csv df) "query_results.csv" "text/csv")
     | [] => text Info "Query returned no results"
     end)
    (fun e => text Error ("Error executing query: " +++ exn_msg e)).

(** Lines 510-552 *)
Definition custom_query : M unit :=
  text Subheader "Custom SQL Query" ;;
  sql_query <- text_area "Enter SQL Query" default_query ;;
  pressed <- button "Run Query" ;;
  when pressed (run_query sql_query).

Fixpoint write_each (tables : list value) : M unit :=
  match tables with
  | [] => ret tt
  | table :: rest => text Write ("- " +++ py_str table) ;; write_each rest
  end.

(** Lines 559-582: the table finder shown when the accounts query failed. *)
Definition table_finder : M unit :=
  text Subheader "Available Tables" ;;
  try_except
    (execute "SELECT TABLE_NAME FROM INFORMATION_SCHEMA.TABLES WHERE TABLE_TYPE = 'BASE TABLE'" [] ;;
     tables <- fetchall_0 ;;
     match tables with
     | _ :: _ =>
         text Write "The following tables were found in your database:" ;;
         write_each tables ;;
         selected_table <- selectbox "Select a table to view" tables ;;
         pressed <- button "View Table Structure" ;;
         when pressed
           (try_except
              (execute ("SELECT TOP 1 * FROM " +++ py_str selected_table) [] ;;
               columns <- column_names ;;
               text Write ("Columns in " +++ py_str selected_table +++ ":") ;;
               text Write (String.concat ", " columns))
              (fun e => text Error ("Error examining table: " +++ exn_msg e)))
     | [] => text Warning "No tables found in the database."
     end)
    (fun e => text Error ("Could not query database metadata: " +++ exn_msg e)).

Definition display_data_explorer : M unit :=
  text Subheader "Data Explorer" ;;
  try_except
    (conn_cursor ;;
     try_except
       (execute "SELECT AccountNumber, Balance, AccountType FROM Accounts" [] ;;
        columns <- column_names ;;
        accounts_data <- fetchall ;;
        df <- lift (frame_of_rows accounts_data columns) ;;
        df_accounts <- alloc df ;;
        chosen <- filter_widgets df_accounts ;;
        filtered_df <- apply_filters df_accounts (fst chosen) (snd chosen) ;;
        show_and_download filtered_df ;;
        custom_query)
       (fun e =>
        text Error ("Error querying Accounts table: " +++ exn_msg e) ;;
        text Warning "The Accounts table may not exist or may have a different structure than expected." ;;
        table_finder))
    (fun e =>
     text Error ("Error in Data Explorer: " +++ exn_msg e) ;;
     text ExceptionBox (shown_exception e)).

(** ** main (lines 78-116) *)

(** Lines 92-104: the form shown when there is no connection. *)
Definition connection_form : M unit :=
  emit Container ;;
  text Warning "⚠️ Database connection failed" ;;
  text Info "Please check your database connection settings in the .env file" ;;
  text Subheader "Configure Azure SQL Connection" ;;
  emit (TextInput "Server Name (e.g. myserver.database.windows.net)") ;;
  emit (TextInput "Database Name") ;;
  emit (TextInput "Username") ;;
  emit (TextInput "Password") ;;
  pressed <- button "Test Connection" ;;
  when pressed (text Info "This would test your connection in a real implementation").

Definition main : M unit :=
  text Markdown ("<p class=" +++ dq +++ "main-header" +++ dq +++ ">Account Analytics Dashboard</p>") ;;
  text Markdown ("<p class=" +++ dq +++ "sub-header" +++ dq
                   +++ ">Financial account insights and monitoring system</p>") ;;
  text SidebarTitle "Navigation" ;;
  page <- radio "Select a page:" ["Dashboard"; "Account Details"; "Data Explorer"] ;;
  conn <- connect_to_db ;;
  match conn with
  | None => connection_form
  | Some _ =>
      (if String.eqb page "Dashboard" then display_dashboard
       else if String.eqb page "Account Details" then display_account_details
       else display_data_explorer) ;;
      conn_close
  end.

End Script.

(** Lines 78-116 with the three page functions left open: [main] calls
    them and [conn.close()] is the plain statement that follows the
    call, in no [finally]. *)
Definition main_over (drv : Driver) (ui : Ui) (getenv : string -> option string)
    (dashboard account_details data_explorer : M unit) : M unit :=
  text Markdown ("<p class=" +++ dq +++ "main-header" +++ dq +++ ">Account Analytics Dashboard</p>") ;;
  text Markdown ("<p class=" +++ dq +++ "sub-header" +++ dq
                   +++ ">Financial account insights and monitoring system</p>") ;;
  text SidebarTitle "Navigation" ;;
  page <- radio ui "Select a page:" ["Dashboard"; "Account Details"; "Data Explorer"] ;;
  conn <- connect_to_db drv getenv ;;
  match conn with
  | None => connection_form ui
  | Some _ =>
      (if String.eqb page "Dashboard" then dashboard
       else if String.eqb page "Account Details" then account_details
       else data_explorer) ;;
      conn_close
  end.



(** ** A reference database

    An Accounts table with the three columns the script asks for, and a
    driver that answers the script's fixed statements over it with the
    meaning SQL Server gives them: aggregates skip NULL and are NULL
    when nothing is left, and [column = ?] holds for no row when either
    side is NULL.  Text is compared as under the server's default
    collation: trailing blanks and the case of the letters a to z make
    no difference.  The table's columns are typed: text for the number
    and the type, a decimal amount for the balance. *)

Record Account : Type := {
  AccountNumber : option string;
  Balance : option Z;
  AccountType : option string
}.

Definition sql_text (o : option string) : value :=
  match o with
  | Some s => VStr s
  | None => VNone
  end.

Definition sql_decimal (o : option Z) : value :=
  match o with
  | Some c => VDecimal c
  | None => VNone
  end.

Definition upper (c : ascii) : ascii :=
  let n := nat_of_ascii c in
  if (97 <=? n)%nat && (n <=? 122)%nat then ascii_of_nat (n - 32) else c.

Fixpoint drop_blanks (l : list ascii) : list ascii :=
  match l with
  | " "%char :: r => drop_blanks r
  | _ => l
  end.

(** What [=] looks at in a text: the text without its trailing blanks,
    in capitals. *)
Definition collate (s : string) : string :=
  string_of_list_ascii (map upper (rev (drop_blanks (rev (list_ascii_of_string s))))).

(** [column = ?] *)
Definition sql_eq (cell param : value) : bool :=
  match cell, param with
  | VNone, _ => false
  | _, VNone => false
  | VStr a, VStr b => String.eqb (collate a) (collate b)
  | _, _ => py_eqb cell param
  end.

(** [SUM] over a column. *)
Fixpoint sql_sum (l : list (option Z)) : option Z :=
  match l with
  | [] => None
  | None :: r => sql_sum r
  | Some c :: r => Some (c + match sql_sum r with Some d => d | None => 0 end)
  end.

Definition present (l : list (option Z)) : list Z :=
  flat_map (fun o => match o with Some c => [c] | None => [] end) l.

(** [AVG] over a column, cut to the hundredth. *)
Definition sql_avg (l : list (option Z)) : option Z :=
  match sql_sum l with
  | Some c => Some (Z.quot c (Z.of_nat (length (present l))))
  | None => None
  end.

(** [ORDER BY Balance DESC]: NULL sorts below every amount. *)
Definition balance_geb (a b : Account) : bool :=
  match Balance a, Balance b with
  | _, None => true
  | None, Some _ => false
  | Some x, Some y => y <=? x
  end.

Fixpoint insert_desc (a : Account) (l : list Account) : list Account :=
  match l with
  | [] => [a]
  | b :: r => if balance_geb a b then a :: l else b :: insert_desc a r
  end.

Definition order_by_balance_desc (t : list Account) : list Account :=
  fold_right insert_desc [] t.

Definition account_row (a : Account) : list value :=
  [sql_text (AccountNumber a); sql_decimal (Balance a); sql_text (AccountType a)].

Definition account_columns : list string := ["AccountNumber"; "Balance"; "AccountType"].

Definition where_type (p : value) (t : list Account) : list Account :=
  filter (fun a => sql_eq (sql_text (AccountType a)) p) t.

Definition where_number (p : value) (t : list Account) : list Account :=
  filter (fun a => sql_eq (sql_text (AccountNumber a)) p) t.

Definition scalar (v : value) : response (option resultset) :=
  Returns (Some (Results [""] [[v]])).

Definition table_execute (t : list Account) (sql : string) (params : list value)
    : response (option resultset) :=
  let p := hd VNone params in
  if String.eqb sql "SELECT COUNT(*) FROM Accounts" then
    scalar (VInt (Z.of_nat (length t)))
  else if String.eqb sql "SELECT SUM(Balance) FROM Accounts" then
    scalar (sql_decimal (sql_sum (map Balance t)))
  else if String.eqb sql "SELECT AVG(Balance) FROM Accounts" then
    scalar (sql_decimal (sql_avg (map Balance t)))
  else if String.eqb sql "SELECT AccountType FROM Accounts" then
    Returns (Some (Results ["AccountType"] (map (fun a => [sql_text (AccountType a)]) t)))
  else if String.eqb sql "SELECT SUM(Balance) FROM Accounts WHERE AccountType = ?" then
    scalar (sql_decimal (sql_sum (map Balance (where_type p t))))
  else if String.eqb sql "SELECT Balance FROM Accounts" then
    Returns (Some (Results ["Balance"] (map (fun a => [sql_decimal (Balance a)]) t)))
  else if String.eqb sql top_5_sql then
    Returns (Some (Results account_columns
                     (map account_row (firstn 5 (order_by_balance_desc t)))))
  else if String.eqb sql "SELECT AccountNumber FROM Accounts" then
    Returns (Some (Results ["AccountNumber"] (map (fun a => [sql_text (AccountNumber a)]) t)))
  else if String.eqb sql details_sql then
    Returns (Some (Results account_columns (map account_row (where_number p t))))
  else if String.eqb sql avg_by_type_sql then
    scalar (sql_decimal (sql_avg (map Balance (where_type p t))))
  else if String.eqb sql "SELECT AccountNumber, Balance, AccountType FROM Accounts" then
    Returns (Some (Results account_columns (map account_row t)))
  else
    Raises (Exn "ProgrammingError" "('42000', 'Incorrect syntax. (102) (SQLExecDirectW)')").

Definition table_driver (t : list Account) : Driver := {|
  drv_connect := fun _ => Returns tt;
  drv_cursor := fun _ => Returns tt;
  drv_execute := fun _ => table_execute t
|}.

(** Other drivers used below: one that rejects every statement, one
    that never answers, and one whose every answer is a single float
    column called Balance. *)
Definition syntax_error : exn :=
  Exn "ProgrammingError"
    "('42000', '[42000] [Microsoft][ODBC Driver 17 for SQL Server][SQL Server]Incorrect syntax near the keyword FROM. (156) (SQLExecDirectW)')".

Definition rejecting_driver : Driver := {|
  drv_connect := fun _ => Returns tt;
  drv_cursor := fun _ => Returns tt;
  drv_execute := fun _ _ _ => Raises syntax_error
|}.

Definition silent_driver : Driver := {|
  drv_connect := fun _ => Returns tt;
  drv_cursor := fun _ => Returns tt;
  drv_execute := fun _ _ _ => Hangs
|}.

Definition float_balance_driver : Driver := {|
  drv_connect := fun _ => Returns tt;
  drv_cursor := fun _ => Returns tt;
  drv_execute := fun _ _ _ => Returns (Some (Results ["Balance"] [[VFloat 123450]]))
|}.

Definition login_timeout : exn :=
  Exn "OperationalError" "('HYT00', '[HYT00] [Microsoft][ODBC Driver 17 for SQL Server]Login timeout expired (0) (SQLDriverConnect)')".

Definition unreachable_driver : Driver := {|
  drv_connect := fun _ => Raises login_timeout;
  drv_cursor := fun _ => Returns tt;
  drv_execute := fun _ _ _ => Raises syntax_error
|}.

Definition idle_user : Ui := {|
  ui_radio := fun _ => 0%nat;
  ui_button := fun _ => false;
  ui_select := fun _ => 0%nat;
  ui_slider := fun _ => (0, 100000000);
  ui_text_area := fun _ default => default
|}.

(** A user on the Data Explorer page who typed a misspelt statement and
    pressed every button. *)
Definition busy_user : Ui := {|
  ui_radio := fun _ => 2%nat;
  ui_button := fun _ => true;
  ui_select := fun _ => 0%nat;
  ui_slider := fun _ => (0, 100000000);
  ui_text_area := fun _ _ => "SELEC * FROM Accounts"
|}.

Definition no_env : string -> option string := fun _ => None.

Definition savings : Account := Build_Account (Some "ACC-1") (Some 123450) (Some "Savings").
Definition checking : Account := Build_Account (Some "ACC-2") (Some 50000) (Some "Checking").
Definition savings_2 : Account := Build_Account (Some "ACC-3") (None) (Some "Savings").
Definition untyped : Account := Build_Account (Some "ACC-4") (Some 1000) None.
Definition savings_small : Account := Build_Account (Some "ACC-5") (Some 500) (Some "savings").
Definition ten_cents : Account := Build_Account (Some "ACC-6") (Some 10) (Some "Savings").
Definition twenty_cents : Account := Build_Account (Some "ACC-7") (Some 20) (Some "Savings").
Definition thirty_cents : Account := Build_Account (Some "ACC-8") (Some 30) (Some "Savings").

(** ** The aggregate the specification describes *)

(** Distinct values, each at the place of its first occurrence. *)
Fixpoint first_seen (l : list value) : list value :=
  match l with
  | [] => []
  | x :: r => x :: filter (fun y => negb (py_eqb x y)) (first_seen r)
  end.

Definition type_value (a : Account) : value := sql_text (AccountType a).

Definition in_group (g : value) (a : Account) : bool := py_eqb (type_value a) g.

(** Count: the number of rows carrying the group value. *)
Definition group_count (g : value) (t : list Account) : Z :=
  Z.of_nat (length (filter (in_group g) t)).

(** TotalBalance: the sum over those rows, a missing balance counted as 0. *)
Definition group_total (g : value) (t : list Account) : Z :=
  fold_right Z.add 0
    (map (fun a => match Balance a with Some c => c | None => 0 end) (filter (in_group g) t)).

(** [byGroup]: one aggregate per distinct group value, in first-seen order. *)
Definition by_group (t : list Account) : list (value * Z * Z) :=
  map (fun g => (g, group_count g t, group_total g t)) (first_seen (map type_value t)).

(** How often a value occurs in a list, up to [==]. *)
Definition occurrences (g : value) (l : list value) : Z :=
  Z.of_nat (length (filter (fun x => py_eqb x g) l)).

(** No two members are [==]. *)
Fixpoint distinct (l : list value) : Prop :=
  match l with
  | [] => True
  | x :: r => mem x r = false /\ distinct r
  end.

(** What line 177 stores for a group over the reference database. *)
Definition stored_balance (t : list Account) (g : value) : value :=
  let balance := sql_decimal (sql_sum (map Balance (where_type g t))) in
  if truthy balance then balance else VInt 0.

(** A frame row carrying an aggregate: the group value, the count as an
    integer, and a number standing for the total. *)
Definition carries (a : value * Z * Z) (row : list value) : Prop :=
  exists b, row = [fst (fst a); VInt (snd (fst a)); b] /\ cents_of b = Some (snd a).

(** A table on whose account types the database and Python agree: two
    types are equal for [WHERE AccountType = ?] exactly when they are
    one dictionary key.  No type is NULL then, and no two types differ
    only by case or trailing blanks. *)
Definition plainly_typed (t : list Account) : Prop :=
  forall a b, In a t -> In b t ->
    sql_eq (type_value a) (type_value b) = py_eqb (type_value a) (type_value b).

(** A frame in which every row has one cell per column. *)
Definition well_formed (df : DataFrame) : Prop :=
  Forall (fun r => length r = length (columns df)) (rows df).


(** The cells of a column that pandas holds as they were fetched: a
    column with a text or a Decimal among its cells, a column of NULLs
    only, of ints only or of floats only. *)
Definition is_object (v : value) : bool :=
  match v with
  | VStr _ | VDecimal _ => true
  | _ => false
  end.

Definition is_none (v : value) : bool :=
  match v with
  | VNone => true
  | _ => false
  end.

Definition is_int (v : value) : bool :=
  match v with
  | VInt _ => true
  | _ => false
  end.

Definition is_float (v : value) : bool :=
  match v with
  | VFloat _ => true
  | _ => false
  end.

Definition as_fetched (cells : list value) : bool :=
  existsb is_object cells || forallb is_none cells || forallb is_int cells
  || forallb is_float cells.

(** An amount of at most fifteen digits: its double is nearer to it
    than to any other amount, and [repr] prints the double back as the
    amount. *)
Definition moderate (c : Z) : Prop := Z.abs c < 1000000000000000.

(** A cell that, if it is a float, is the double of such an amount. *)
Definition printable (v : value) : Prop :=
  match v with
  | VFloat c => moderate c
  | _ => True
  end.

(** Every column of rows of [n] values is held as fetched. *)
Definition held_as_fetched (n : nat) (data : list (list value)) : Prop :=
  forall i, (i < n)%nat -> as_fetched (map (fun r => nth i r VNone) data) = true.

(** [needle in hay] *)
Fixpoint occurs (needle hay : string) : bool :=
  String.prefix needle hay
  || match hay with
     | EmptyString => false
     | String _ r => occurs needle r
     end.

(** ** What is said of a computation *)

(** It comes to an end: it returns or raises, whatever the state. *)
Definition finishes {A : Type} (m : M A) : Prop := forall s, fst (m s) <> Hang.

(** No exception leaves it. *)
Definition never_raises {A : Type} (m : M A) : Prop := forall s e, fst (m s) <> Raise e.

(** It only adds to the trace. *)
Definition grows {A : Type} (m : M A) : Prop :=
  forall s, exists l, trace (snd (m s)) = trace s ++ l.

(** ** What is said of the rest of the script *)

(** It adds to the trace only events that satisfy [P]. *)
Definition emits (P : event -> Prop) {A : Type} (m : M A) : Prop :=
  forall s, exists l, trace (snd (m s)) = trace s ++ l /\ Forall P l.

(** The statements the Dashboard and Account Details pages are written
    with. *)
Definition page_statements : list string :=
  ["SELECT COUNT(*) FROM Accounts";
   "SELECT SUM(Balance) FROM Accounts";
   "SELECT AVG(Balance) FROM Accounts";
   "SELECT AccountType FROM Accounts";
   "SELECT SUM(Balance) FROM Accounts WHERE AccountType = ?";
   "SELECT Balance FROM Accounts";
   top_5_sql;
   "SELECT AccountNumber FROM Accounts";
   details_sql;
   avg_by_type_sql].

(** An event of a page that, if it is a statement, is one of those; a
    page neither connects nor closes. *)
Definition reads_only (e : event) : Prop :=
  match e with
  | Execute sql _ => In sql page_statements
  | Connect _ | Close => False
  | _ => True
  end.

(** The same for the Data Explorer, whose statements are its two fixed
    ones, the text typed into the query box, and the look at the table
    picked in the table finder. *)
Definition explores (ui : Ui) (e : event) : Prop :=
  match e with
  | Execute sql params =>
      params = []
      /\ (sql = "SELECT AccountNumber, Balance, AccountType FROM Accounts"
          \/ sql = "SELECT TABLE_NAME FROM INFORMATION_SCHEMA.TABLES WHERE TABLE_TYPE = 'BASE TABLE'"
          \/ sql = ui_text_area ui "Enter SQL Query" default_query
          \/ exists table, sql = "SELECT TOP 1 * FROM " +++ py_str table)
  | Connect _ | Close => False
  | _ => True
  end.

(** The statements of a Data Explorer trace read from its start, [seen]
    holding the lists of names that the selector of the table finder
    has offered so far: a statement is one of the page's own two, the
    text typed into the query box, or the look at the table picked from
    one of those lists. *)
Definition picked (ui : Ui) (tables : list value) : value :=
  nth (ui_select ui "Select a table to view") tables (hd VNone tables).

Definition explorer_statement (ui : Ui) (seen : list (list value)) (sql : string)
    (params : list value) : Prop :=
  params = []
  /\ (sql = "SELECT AccountNumber, Balance, AccountType FROM Accounts"
      \/ sql = "SELECT TABLE_NAME FROM INFORMATION_SCHEMA.TABLES WHERE TABLE_TYPE = 'BASE TABLE'"
      \/ sql = ui_text_area ui "Enter SQL Query" default_query
      \/ exists tables, In tables seen
                        /\ sql = "SELECT TOP 1 * FROM " +++ py_str (picked ui tables)).

Fixpoint explored (ui : Ui) (seen : list (list value)) (l : list event) : Prop :=
  match l with
  | [] => True
  | Execute sql params :: r => explorer_statement ui seen sql params /\ explored ui seen r
  | Selectbox label tables :: r =>
      explored ui (if String.eqb label "Select a table to view" then tables :: seen else seen) r
  | _ :: r => explored ui seen r
  end.

(** A computation that adds to the trace a list that is [explored]. *)
Definition explores_from (ui : Ui) (seen : list (list value)) {A : Type} (m : M A) : Prop :=
  forall s, exists l, trace (snd (m s)) = trace s ++ l /\ explored ui seen l.

(** Leading blanks and line ends dropped. *)
Fixpoint skip_blanks (s : string) : string :=
  match s with
  | String c r =>
      if Ascii.eqb c " "%char || Ascii.eqb c (ascii_of_nat 10) then skip_blanks r else s
  | EmptyString => EmptyString
  end.

(** An event that is no call to the driver. *)
Definition draws (e : event) : Prop :=
  match e with
  | Connect _ | Cursor | Execute _ _ | Close => False
  | _ => True
  end.

(** Rows of one cell each, numbered from [i]. *)
Fixpoint numbered (i : nat) (cells : list value) : list (list value) :=
  match cells with
  | [] => []
  | x :: r => [x; VInt (Z.of_nat i)] :: numbered (S i) r
  end.

(** An event that is a line of markdown. *)
Definition is_markdown (e : event) : Prop :=
  match e with
  | Text Markdown _ => True
  | _ => False
  end.

(** A user who leaves every widget as it comes up over the accounts
    [savings], [savings_2] and [checking]. *)
Definition whole_range_user : Ui := {|
  ui_radio := fun _ => 2%nat;
  ui_button := fun _ => false;
  ui_select := fun _ => 0%nat;
  ui_slider := fun _ => (50000, 123450);
  ui_text_area := fun _ default => default
|}.

(** The same over the accounts [ten_cents], [twenty_cents] and
    [thirty_cents]. *)
Definition cents_user : Ui := {|
  ui_radio := fun _ => 2%nat;
  ui_button := fun _ => false;
  ui_select := fun _ => 0%nat;
  ui_slider := fun _ => (10, 30);
  ui_text_area := fun _ default => default
|}.

(** A cell that holds a number or nothing. *)
Definition number_or_null (v : value) : Prop := v = VNone \/ cents_of v <> None.

(** Whether a number whose amount is that of the float [bound] is [>=]
    that float, and whether it is [<=] it: an int or a float is, and a
    Decimal is unless the float lies on the far side of the amount. *)
Definition reaches_up (v : value) (bound : Z) : bool :=
  match v with
  | VDecimal _ => not_above (float_side bound)
  | _ => true
  end.

Definition reaches_down (v : value) (bound : Z) : bool :=
  match v with
  | VDecimal _ => not_below (float_side bound)
  | _ => true
  end.

(** The balance filter on one cell: a number within the two slider
    handles; an amount that is the amount of a handle is within if it
    reaches the handle's float. *)
Definition in_range (balance_range : Z * Z) (v : value) : bool :=
  match cents_of v with
  | Some c =>
      ((fst balance_range <? c) || ((c =? fst balance_range) && reaches_up v (fst balance_range)))
      && ((c <? snd balance_range)
          || ((c =? snd balance_range) && reaches_down v (snd balance_range)))
  | None => false
  end.

(** The balance filter with the slider left at its two ends, the floats
    of the least amount [a] and of the greatest amount [b]. *)
Definition kept_untouched (a b : Z) (v : value) : bool :=
  match cents_of v with
  | Some c =>
      (negb (c =? a) || reaches_up v a) && (negb (c =? b) || reaches_down v b)
  | None => false
  end.

(** The type filter on one cell. *)
Definition of_type (selected_type : value) (v : value) : bool :=
  py_eqb selected_type (VStr "All") || equals_cell selected_type v.

(** A row that passes both filters, the type at position [i] and the
    balance at position [j]. *)
Definition passes (i j : nat) (selected_type : value) (balance_range : Z * Z)
    (row : list value) : bool :=
  of_type selected_type (nth i row VNone) && in_range balance_range (nth j row VNone).

(** A driver whose every answer is a list of two table names. *)
Definition catalog_driver : Driver := {|
  drv_connect := fun _ => Returns tt;
  drv_cursor := fun _ => Returns tt;
  drv_execute := fun _ _ _ =>
    Returns (Some (Results ["TABLE_NAME"] [[VStr "Accounts"]; [VStr "Customers"]]))
|}.

(** A driver for which every statement runs and has no result set, as
    an UPDATE has none. *)
Definition statement_driver : Driver := {|
  drv_connect := fun _ => Returns tt;
  drv_cursor := fun _ => Returns tt;
  drv_execute := fun _ _ _ => Returns None
|}.

(** * Properties *)

(** ** Running the model *)

Example currency_float : currency (VFloat 123450) = Ok (VStr "$1,234.50").
Proof. reflexivity. Qed.

Example currency_negative :
  currency (VDecimal (-100000005)) = Ok (VStr "$-1,000,000.05").
Proof. reflexivity. Qed.

Example str_of_numbers :
  py_str (VFloat 123450) = "1234.5" /\ py_str (VFloat 120000) = "1200.0"
  /\ py_str (VFloat (-5)) = "-0.05" /\ py_str (VDecimal 123450) = "1234.50".
Proof. repeat split; reflexivity. Qed.

Example str_of_large_floats :
  py_str (VFloat 1000000000000000000) = "1e+16"
  /\ py_str (VFloat (-1500000000000000000)) = "-1.5e+16"
  /\ py_str (VFloat 99999999999999900) = "999999999999999.0"
  /\ format_comma (VFloat 123456750) = Ok "1,234,567.5"
  /\ format_comma (VFloat 1000000000000000000) = Ok "1e+16".
Proof. repeat split; vm_compute; reflexivity. Qed.

Example text_as_the_server_compares_it :
  sql_eq (VStr "Savings") (VStr "savings  ") = true
  /\ sql_eq (VStr "Savings") (VStr " Savings") = false
  /\ sql_eq VNone VNone = false
  /\ py_eqb (VStr "Savings") (VStr "savings  ") = false
  /\ py_eqb VNone VNone = true.
Proof. repeat split; vm_compute; reflexivity. Qed.

Example format_count : format_comma (VInt 1234567) = Ok "1,234,567".
Proof. reflexivity. Qed.

Example unique_keeps_first :
  unique [VStr "A"; VStr "B"; VStr "A"; VNone; VStr "B"] = [VStr "A"; VStr "B"; VNone].
Proof. reflexivity. Qed.

(** The loop of lines 161-186 on three accounts: first-seen order, not
    alphabetical. *)
Example accounts_by_type_example :
  heap (snd (accounts_by_type
               (table_driver [Build_Account None (Some 1000) (Some "B");
                              Build_Account None (Some 500) (Some "A");
                              Build_Account None (Some 300) (Some "B")]) initial))
  = [Frame ["Account Type"; "Count"; "Total Balance"]
       [[VStr "B"; VInt 2; VDecimal 1300]; [VStr "A"; VInt 1; VDecimal 500]]].
Proof. reflexivity. Qed.

(** The grouping example of the specification, over the reference
    database. *)
Example by_group_example :
  by_group [Build_Account None (Some 10) (Some "B");
            Build_Account None (Some 5) (Some "A");
            Build_Account None (Some 3) (Some "B")]
  = [(VStr "B", 2, 13); (VStr "A", 1, 5)].
Proof. reflexivity. Qed.

(** [run] unfolds the monad and the primitive calls of the script. *)
Ltac run :=
  cbv [bind ret raise try_except lift emit when alloc load store copy text
       radio button selectbox slider text_area answer pyodbc_connect
       conn_cursor execute fetchone fetchall column_names conn_close
       fetchone_0 fetchall_0];
  cbn [trace tick cursor heap fst snd].

(** ** The ad-hoc query block *)

Lemma app_two {A : Type} (l : list A) (x y : A) : (l ++ [x]) ++ [y] = l ++ [x; y].
Proof. rewrite <- app_assoc. reflexivity. Qed.

Lemma app_three {A : Type} (l : list A) (x y z : A) :
  ((l ++ [x]) ++ [y]) ++ [z] = l ++ [x; y; z].
Proof. rewrite <- !app_assoc. reflexivity. Qed.

(** C5, as the script has it: a statement the driver rejects is caught
    inside the query block and shown as "Error executing query: "
    followed by the driver's message; the block itself returns. *)
Theorem rejected_query_is_reported (drv : Driver) (sql : string) (e : exn) (s : state) :
  drv_execute drv (tick s) sql [] = Raises e ->
  run_query drv sql s =
    (Ret tt,
     State (trace s ++ [Execute sql []; Text Error ("Error executing query: " +++ exn_msg e)])
           (S (tick s)) None (heap s)).
Proof.
  intros H.
  unfold run_query. run. rewrite H. run. rewrite app_two. reflexivity.
Qed.

Lemma rejected_query_is_reported_witness :
  drv_execute rejecting_driver (tick initial) "SELEC * FROM Accounts" [] = Raises syntax_error
  /\ run_query rejecting_driver "SELEC * FROM Accounts" initial =
       (Ret tt,
        State ([] ++ [Execute "SELEC * FROM Accounts" [];
                      Text Error ("Error executing query: " +++ exn_msg syntax_error)])
              1 None []).
Proof.
  split; [reflexivity | apply (rejected_query_is_reported rejecting_driver); reflexivity].
Defined.

(** C5 as stated fails: on the Data Explorer page, with the misspelt
    statement typed and Run Query pressed, no message on the page
    carries the statement's text. *)
Lemma rejected_sql_text_not_shown :
  ~ exists k m,
      In (Text k m) (trace (snd (main (table_driver [savings]) busy_user no_env initial)))
      /\ occurs "SELEC * FROM Accounts" m = true.
Proof.
  intros (k & m & Hin & Hocc).
  assert (Hall : forallb (fun ev => match ev with
                                    | Text _ x => negb (occurs "SELEC * FROM Accounts" x)
                                    | _ => true
                                    end)
                   (trace (snd (main (table_driver [savings]) busy_user no_env initial)))
                 = true) by (vm_compute; reflexivity).
  rewrite forallb_forall in Hall. specialize (Hall _ Hin). simpl in Hall.
  rewrite Hocc in Hall. discriminate.
Qed.

(** C6, as the script has it: the query block takes no timeout; when
    the driver never answers the statement the run stops there, with the
    statement as the last thing in the trace. *)
Theorem unanswered_query_blocks (drv : Driver) (sql : string) (s : state) :
  drv_execute drv (tick s) sql [] = Hangs ->
  run_query drv sql s =
    (Hang, State (trace s ++ [Execute sql []]) (S (tick s)) None (heap s)).
Proof.
  intros H.
  unfold run_query. run. rewrite H. reflexivity.
Qed.

Lemma unanswered_query_blocks_witness :
  drv_execute silent_driver (tick initial) "SELECT * FROM Accounts" [] = Hangs
  /\ run_query silent_driver "SELECT * FROM Accounts" initial =
       (Hang, State ([] ++ [Execute "SELECT * FROM Accounts" []]) 1 None []).
Proof.
  split; [reflexivity | apply (unanswered_query_blocks silent_driver); reflexivity].
Defined.

(** C6 as stated fails: against a driver that never answers, the page
    does not end and shows no error at all. *)
Lemma no_timeout_error :
  fst (main silent_driver busy_user no_env initial) = Hang
  /\ forall m, ~ In (Text Error m) (trace (snd (main silent_driver busy_user no_env initial))).
Proof.
  split; [vm_compute; reflexivity |].
  intros m Hin.
  assert (Hall : forallb (fun ev => match ev with Text Error _ => false | _ => true end)
                   (trace (snd (main silent_driver busy_user no_env initial))) = true)
    by (vm_compute; reflexivity).
  rewrite forallb_forall in Hall. specialize (Hall _ Hin). discriminate.
Qed.

(** ** Account numbers and their fallback *)

(** C10: when fetching the account numbers raises, whatever the cause,
    a warning is shown and the selector offers the three sample
    accounts; the selection is one of them. *)
Theorem samples_on_failure (drv : Driver) (ui : Ui) (e : exn) (s s1 : state) :
  (execute drv "SELECT AccountNumber FROM Accounts" [] ;; fetchall_0) s = (Raise e, s1) ->
  select_account drv ui s =
    (Ret (nth (ui_select ui "Select an account") sample_accounts (VStr "ACC-10001")),
     State (trace s1 ++
              [Text Warning "Could not retrieve account numbers. The table structure may be different.";
               Selectbox "Select an account"
                 [VStr "ACC-10001"; VStr "ACC-10002"; VStr "ACC-10003"]])
           (tick s1) (cursor s1) (heap s1)).
Proof.
  intros H.
  unfold select_account, try_except.
  unfold bind at 1. rewrite H.
  run. rewrite app_two. reflexivity.
Qed.

Lemma samples_on_failure_witness :
  (execute rejecting_driver "SELECT AccountNumber FROM Accounts" [] ;; fetchall_0) initial
    = (Raise syntax_error, State [Execute "SELECT AccountNumber FROM Accounts" []] 1 None [])
  /\ select_account rejecting_driver busy_user initial =
       (Ret (VStr "ACC-10001"),
        State ([Execute "SELECT AccountNumber FROM Accounts" []] ++
                 [Text Warning "Could not retrieve account numbers. The table structure may be different.";
                  Selectbox "Select an account"
                    [VStr "ACC-10001"; VStr "ACC-10002"; VStr "ACC-10003"]])
              1 None []).
Proof.
  split; [reflexivity |].
  apply (samples_on_failure rejecting_driver busy_user syntax_error initial
           (State [Execute "SELECT AccountNumber FROM Accounts" []] 1 None [])).
  reflexivity.
Defined.

(** ** Frames built from rows of one width *)

Lemma width_uniform (n : nat) (data : list (list value)) :
  data <> [] -> Forall (fun r => length r = n) data -> width data = n.
Proof.
  intros Hne Hall. induction Hall as [| r rest Hr Hrest IH]; [congruence |].
  unfold width in *. simpl. destruct rest as [| r' rest'].
  - simpl. rewrite Hr. apply Nat.max_0_r.
  - rewrite IH by discriminate. rewrite Hr. apply Nat.max_id.
Qed.

Lemma pad_uniform (n : nat) (data : list (list value)) :
  Forall (fun r => length r = n) data -> map (pad_row n) data = data.
Proof.
  intros Hall. induction Hall as [| r rest Hr Hrest IH]; [reflexivity |].
  simpl. rewrite IH. unfold pad_row. rewrite Hr, Nat.sub_diag. simpl.
  rewrite app_nil_r. reflexivity.
Qed.

Lemma frame_of_uniform_rows (n : nat) (data : list (list value)) (cols : list string) :
  Forall (fun r => length r = n) data -> length cols = n ->
  frame_of_rows data cols = Ok (Frame cols data).
Proof.
  intros Hall Hn. destruct data as [| r rest]; [reflexivity |].
  unfold frame_of_rows.
  rewrite (width_uniform n), Hn, Nat.eqb_refl by (assumption || discriminate).
  rewrite pad_uniform by assumption. reflexivity.
Qed.


Lemma nth_just_allocated {A : Type} (h : list A) (x d : A) : nth (length h) (h ++ [x]) d = x.
Proof. rewrite app_nth2, Nat.sub_diag by lia. reflexivity. Qed.

Lemma replace_just_allocated {A : Type} (h : list A) (x y : A) :
  replace_nth (length h) y (h ++ [x]) = h ++ [y].
Proof. induction h as [| a h IH]; simpl; [reflexivity | rewrite IH; reflexivity]. Qed.







(** The rows the top-five statement returns over the reference
    database: three values each, and every column held as fetched. *)
Example top_five_rows_are_adapted :
  held_as_fetched 3 (map account_row [savings; checking; savings_2])
  /\ heap (snd (adapt_top_accounts (map account_row [savings; checking; savings_2]) initial))
     = [Frame ["Account Number"; "Balance"; "Account Type"]
          [[VStr "ACC-1"; VDecimal 123450; VStr "Savings"];
           [VStr "ACC-2"; VDecimal 50000; VStr "Checking"];
           [VStr "ACC-3"; VNone; VStr "Savings"]]].
Proof.
  split; [| vm_compute; reflexivity].
  intros i Hi.
  assert (Hcases : i = 0%nat \/ i = 1%nat \/ i = 2%nat) by lia.
  destruct Hcases as [-> | [-> | ->]]; reflexivity.
Qed.

(** With no rows the adaptation returns the empty frame over the
    expected columns. *)
Lemma adapt_of_no_rows (s : state) :
  adapt_top_accounts [] s =
    (Ret (length (heap s)),
     State (trace s) (tick s) (cursor s) (heap s ++ [Frame expected_columns []])).
Proof. reflexivity. Qed.

(** The formatting of line 536 guards the type of the cell; that of
    lines 278 and 493 does not. *)
Example guarded_and_unguarded_formatting :
  currency_if_number VNone = Ok VNone
  /\ currency VNone = Err (TypeError "unsupported format string passed to NoneType.__format__").
Proof. split; reflexivity. Qed.

(** C3 fails in the code on rows the top-five statement does return:
    with fewer than five balances in the table, an account whose balance
    is NULL is among the top five; the frame is built, and the
    formatting of lines 277-278 raises on the NULL.  No table is drawn,
    and the dashboard ends in its error block. *)
Theorem null_balance_breaks_top_accounts :
  top_accounts_table (table_driver [savings; savings_2]) initial
  = (Raise (TypeError "unsupported format string passed to NoneType.__format__"),
     State [Text Subheader "Top 5 Accounts by Balance"; Execute top_5_sql []]
           1 (Some (Results account_columns []))
           [Frame expected_columns
              [[VStr "ACC-1"; VDecimal 123450; VStr "Savings"];
               [VStr "ACC-3"; VNone; VStr "Savings"]]])
  /\ fst (display_dashboard (table_driver [savings; savings_2]) initial) = Ret tt
  /\ In (Text Error "Error fetching dashboard data: unsupported format string passed to NoneType.__format__")
       (trace (snd (display_dashboard (table_driver [savings; savings_2]) initial)))
  /\ forall df,
       ~ In (Table df) (trace (snd (display_dashboard (table_driver [savings; savings_2]) initial))).
Proof.
  split; [vm_compute; reflexivity |]. split; [vm_compute; reflexivity |]. split.
  - vm_compute. repeat first [left; reflexivity | right].
  - intros df Hin.
    assert (Hall : forallb (fun ev => match ev with Table _ => false | _ => true end)
                     (trace (snd (display_dashboard (table_driver [savings; savings_2]) initial)))
                   = true) by (vm_compute; reflexivity).
    rewrite forallb_forall in Hall. specialize (Hall _ Hin). discriminate.
Qed.

(** ** Opening the connection *)

Lemma connect_to_db_never_raises (drv : Driver) (getenv : string -> option string)
    (s : state) (e : exn) :
  fst (connect_to_db drv getenv s) <> Raise e.
Proof.
  unfold connect_to_db. run.
  destruct (drv_connect drv (conn_str getenv)); cbn; discriminate.
Qed.

(** C9: when the driver refuses the connection, [connect_to_db] shows
    the error and returns [None]; [main] then draws the configuration
    form and ends, without a cursor and without a single statement. *)
Theorem connection_failure_shows_form (drv : Driver) (ui : Ui)
    (getenv : string -> option string) (e : exn) :
  drv_connect drv (conn_str getenv) = Raises e ->
  (forall s,
      connect_to_db drv getenv s =
        (Ret None,
         State (trace s ++ [Connect (conn_str getenv);
                            Text Error ("Error connecting to database: " +++ exn_msg e)])
               (S (tick s)) (cursor s) (heap s)))
  /\ exists s',
       main drv ui getenv initial = (Ret tt, s')
       /\ trace s' =
            [Text Markdown ("<p class=" +++ dq +++ "main-header" +++ dq
                              +++ ">Account Analytics Dashboard</p>");
             Text Markdown ("<p class=" +++ dq +++ "sub-header" +++ dq
                              +++ ">Financial account insights and monitoring system</p>");
             Text SidebarTitle "Navigation";
             Radio "Select a page:" ["Dashboard"; "Account Details"; "Data Explorer"];
             Connect (conn_str getenv);
             Text Error ("Error connecting to database: " +++ exn_msg e);
             Container;
             Text Warning "⚠️ Database connection failed";
             Text Info "Please check your database connection settings in the .env file";
             Text Subheader "Configure Azure SQL Connection";
             TextInput "Server Name (e.g. myserver.database.windows.net)";
             TextInput "Database Name";
             TextInput "Username";
             TextInput "Password";
             Button "Test Connection"]
            ++ (if ui_button ui "Test Connection"
                then [Text Info "This would test your connection in a real implementation"]
                else [])
       /\ ~ In Cursor (trace s')
       /\ forall sql params, ~ In (Execute sql params) (trace s').
Proof.
  intros H. split.
  - intros s. unfold connect_to_db. run. rewrite H. run. rewrite app_two. reflexivity.
  - unfold main, connect_to_db, connection_form. run. rewrite H. run.
    destruct (ui_button ui "Test Connection"); run; cbn [app];
      (eexists; split; [reflexivity |]); cbn [trace];
      (split; [reflexivity |]); cbn [app In];
      (split; [| intros sql params]); intros Hin;
      repeat (destruct Hin as [Hin | Hin]; [discriminate |]); exact Hin.
Qed.

Lemma connection_failure_shows_form_witness :
  drv_connect unreachable_driver (conn_str no_env) = Raises login_timeout
  /\ (forall s,
         connect_to_db unreachable_driver no_env s =
           (Ret None,
            State (trace s ++ [Connect (conn_str no_env);
                               Text Error ("Error connecting to database: "
                                             +++ exn_msg login_timeout)])
                  (S (tick s)) (cursor s) (heap s)))
  /\ exists s',
       main unreachable_driver busy_user no_env initial = (Ret tt, s')
       /\ trace s' =
            [Text Markdown ("<p class=" +++ dq +++ "main-header" +++ dq
                              +++ ">Account Analytics Dashboard</p>");
             Text Markdown ("<p class=" +++ dq +++ "sub-header" +++ dq
                              +++ ">Financial account insights and monitoring system</p>");
             Text SidebarTitle "Navigation";
             Radio "Select a page:" ["Dashboard"; "Account Details"; "Data Explorer"];
             Connect (conn_str no_env);
             Text Error ("Error connecting to database: " +++ exn_msg login_timeout);
             Container;
             Text Warning "⚠️ Database connection failed";
             Text Info "Please check your database connection settings in the .env file";
             Text Subheader "Configure Azure SQL Connection";
             TextInput "Server Name (e.g. myserver.database.windows.net)";
             TextInput "Database Name";
             TextInput "Username";
             TextInput "Password";
             Button "Test Connection"]
            ++ (if ui_button busy_user "Test Connection"
                then [Text Info "This would test your connection in a real implementation"]
                else [])
       /\ ~ In Cursor (trace s')
       /\ forall sql params, ~ In (Execute sql params) (trace s').
Proof.
  split; [reflexivity |].
  apply (connection_failure_shows_form unreachable_driver busy_user no_env login_timeout).
  reflexivity.
Defined.

(** ** Formatting in place and the two downloads *)

(** [format_balance] writes into the very frame it is given: when the
    frame has a Balance column and every cell formats, the frame at that
    reference holds the formatted cells afterwards. *)
Lemma format_balance_overwrites (f : value -> res value) (r : ref) (s : state)
    (cells shown : list value) :
  column (nth r (heap s) empty_frame) "Balance" = Ok cells ->
  apply f cells = Ok shown ->
  format_balance f r s =
    (Ret tt,
     State (trace s) (tick s) (cursor s)
       (replace_nth r (set_column (nth r (heap s) empty_frame) "Balance" shown) (heap s))).
Proof.
  intros Hcol Happ. unfold format_balance. run.
  assert (Hhas : has_column (nth r (heap s) empty_frame) "Balance" = true).
  { unfold has_column. unfold column in Hcol.
    destruct (index_of "Balance" (columns (nth r (heap s) empty_frame)));
      [reflexivity | discriminate]. }
  rewrite Hhas. run. rewrite Hcol. run. rewrite Happ. reflexivity.
Qed.

Lemma nth_replace_other {A : Type} (i j : nat) (x d : A) (l : list A) :
  i <> j -> nth i (replace_nth j x l) d = nth i l d.
Proof.
  revert i j. induction l as [| a l IH]; intros i j Hij; [destruct j; reflexivity |].
  destruct j, i; simpl; try reflexivity; try congruence.
  apply IH. congruence.
Qed.

(** The Data Explorer's table is drawn from a copy: whatever happens
    while the copy is formatted, the typed frame is left as it was. *)
Lemma show_and_download_keeps_typed_frame (filtered_df : ref) (s : state) :
  (filtered_df < length (heap s))%nat ->
  nth filtered_df (heap (snd (show_and_download filtered_df s))) empty_frame
  = nth filtered_df (heap s) empty_frame.
Proof.
  intros Hlt. unfold show_and_download, format_balance. run.
  assert (Hold : forall h', nth filtered_df (heap s ++ h') empty_frame
                            = nth filtered_df (heap s) empty_frame)
    by (intros h'; apply app_nth1; exact Hlt).
  rewrite nth_just_allocated.
  destruct (has_column (nth filtered_df (heap s) empty_frame) "Balance"); run.
  - destruct (column (nth filtered_df (heap s) empty_frame) "Balance") as [cells | e]; run;
      [| apply Hold].
    destruct (apply currency cells) as [shown | e]; run; [| apply Hold].
    rewrite replace_just_allocated. apply Hold.
  - apply Hold.
Qed.

(** And the first download is the CSV of that typed frame. *)
Lemma show_and_download_exports_typed_frame (filtered_df : ref) (s s' : state) :
  (filtered_df < length (heap s))%nat ->
  show_and_download filtered_df s = (Ret tt, s') ->
  exists before,
    trace s' = before ++ [Download "Download Data as CSV"
                            (to_csv (nth filtered_df (heap s) empty_frame))
                            "accounts_data.csv" "text/csv"].
Proof.
  intros Hlt. unfold show_and_download, format_balance. run.
  assert (Hold : forall h', nth filtered_df (heap s ++ h') empty_frame
                            = nth filtered_df (heap s) empty_frame)
    by (intros h'; apply app_nth1; exact Hlt).
  rewrite nth_just_allocated.
  destruct (has_column (nth filtered_df (heap s) empty_frame) "Balance"); run.
  - destruct (column (nth filtered_df (heap s) empty_frame) "Balance") as [cells | e]; run;
      [| discriminate].
    destruct (apply currency cells) as [shown | e]; run; [| discriminate].
    rewrite replace_just_allocated, Hold. intros H. inversion H. cbn [trace].
    eexists. reflexivity.
  - rewrite Hold. intros H. inversion H. cbn [trace]. eexists. reflexivity.
Qed.

(** C4 on the query-results path: a statement whose result has a float
    column called Balance.  The frame is formatted in place and then
    exported, so the download carries the display string "$1,234.50",
    quoted because of its comma, where the value fetched was 1234.5. *)
Theorem query_results_export_is_formatted :
  run_query float_balance_driver "SELECT Balance FROM Accounts" initial =
    (Ret tt,
     State [Execute "SELECT Balance FROM Accounts" [];
            Table (Frame ["Balance"] [[VStr "$1,234.50"]]);
            Download "Download Query Results"
              ("Balance" +++ nl +++ dq +++ "$1,234.50" +++ dq +++ nl)
              "query_results.csv" "text/csv"]
           1 (Some (Results ["Balance"] []))
           [Frame ["Balance"] [[VStr "$1,234.50"]]])
  /\ to_csv (Frame ["Balance"] [[VFloat 123450]]) = "Balance" +++ nl +++ "1234.5" +++ nl.
Proof. split; vm_compute; reflexivity. Qed.

(** C8 on the dashboard: the top-five frame is formatted in place.
    After the table is drawn the only frame the run holds has the text
    "$1,234.50" where the balance 1234.50 was; no typed frame is left. *)
Theorem dashboard_formatting_replaces_balances :
  top_accounts_table (table_driver [savings]) initial =
    (Ret tt,
     State [Text Subheader "Top 5 Accounts by Balance";
            Execute top_5_sql [];
            Table (Frame expected_columns [[VStr "ACC-1"; VStr "$1,234.50"; VStr "Savings"]])]
           1 (Some (Results account_columns []))
           [Frame expected_columns [[VStr "ACC-1"; VStr "$1,234.50"; VStr "Savings"]]])
  /\ table_execute [savings] top_5_sql [] =
       Returns (Some (Results account_columns
                        [[VStr "ACC-1"; VDecimal 123450; VStr "Savings"]])).
Proof. split; vm_compute; reflexivity. Qed.

(** ** Every page ends, and ends without an exception *)

Lemma finishes_ret {A : Type} (a : A) : finishes (ret a).
Proof. intros s. discriminate. Qed.

Lemma finishes_raise {A : Type} (e : exn) : finishes (@raise A e).
Proof. intros s. discriminate. Qed.

Lemma finishes_lift {A : Type} (r : res A) : finishes (lift r).
Proof. destruct r; intros s; discriminate. Qed.

Lemma finishes_emit (e : event) : finishes (emit e).
Proof. intros s. discriminate. Qed.

Lemma finishes_bind {A B : Type} (m : M A) (f : A -> M B) :
  finishes m -> (forall a, finishes (f a)) -> finishes (bind m f).
Proof.
  intros Hm Hf s. unfold bind. specialize (Hm s).
  destruct (m s) as [[a | e |] s1]; cbn in *; [apply Hf | discriminate | congruence].
Qed.

Lemma finishes_try {A : Type} (m : M A) (h : exn -> M A) :
  finishes m -> (forall e, finishes (h e)) -> finishes (try_except m h).
Proof.
  intros Hm Hh s. unfold try_except. specialize (Hm s).
  destruct (m s) as [[a | e |] s1]; cbn in *; [discriminate | apply Hh | congruence].
Qed.

Lemma finishes_when (b : bool) (m : M unit) : finishes m -> finishes (when b m).
Proof. intros Hm. destruct b; [exact Hm | apply finishes_ret]. Qed.

Lemma finishes_alloc (df : DataFrame) : finishes (alloc df).
Proof. intros s. discriminate. Qed.

Lemma finishes_load (r : ref) : finishes (load r).
Proof. intros s. discriminate. Qed.

Lemma finishes_store (r : ref) (df : DataFrame) : finishes (store r df).
Proof. intros s. discriminate. Qed.

Lemma finishes_fetchone : finishes fetchone.
Proof.
  intros s. unfold fetchone.
  destruct (cursor s) as [[d [| r rest]] |]; discriminate.
Qed.

Lemma finishes_fetchall : finishes fetchall.
Proof. intros s. unfold fetchall. destruct (cursor s) as [[d rs] |]; discriminate. Qed.

Lemma finishes_column_names : finishes column_names.
Proof. intros s. unfold column_names. destruct (cursor s); discriminate. Qed.

Lemma never_raises_ret {A : Type} (a : A) : never_raises (ret a).
Proof. intros s e. discriminate. Qed.

Lemma never_raises_emit (ev : event) : never_raises (emit ev).
Proof. intros s e. discriminate. Qed.

Lemma never_raises_bind {A B : Type} (m : M A) (f : A -> M B) :
  never_raises m -> (forall a, never_raises (f a)) -> never_raises (bind m f).
Proof.
  intros Hm Hf s e. unfold bind. specialize (Hm s).
  destruct (m s) as [[a | e' |] s1]; cbn in *;
    [apply Hf | exfalso; apply (Hm e'); reflexivity | discriminate].
Qed.

Lemma never_raises_try {A : Type} (m : M A) (h : exn -> M A) :
  (forall e, never_raises (h e)) -> never_raises (try_except m h).
Proof.
  intros Hh s e. unfold try_except.
  destruct (m s) as [[a | e' |] s1]; cbn; [discriminate | apply Hh | discriminate].
Qed.

Lemma never_raises_when (b : bool) (m : M unit) : never_raises m -> never_raises (when b m).
Proof. intros Hm. destruct b; [exact Hm | apply never_raises_ret]. Qed.


Create HintDb finishes.
#[export] Hint Resolve finishes_ret finishes_raise finishes_lift finishes_emit finishes_when
  finishes_alloc finishes_load finishes_store finishes_fetchone finishes_fetchall
  finishes_column_names : finishes.

(** Walks a block of the script: a bind, a [try], a branch at a time. *)
Ltac walk :=
  repeat first
    [ solve [auto with finishes]
    | match goal with
      | |- finishes (bind _ _) => apply finishes_bind; [| intros ?]
      | |- finishes (try_except _ _) => apply finishes_try; [| intros ?]
      | |- finishes (when _ _) => apply finishes_when
      | |- finishes (let _ := _ in _) => cbv zeta
      | |- finishes (match ?x with _ => _ end) => destruct x
      | |- finishes (text _ _) => apply finishes_emit
      | |- finishes (copy _) => unfold copy
      end ].

Ltac quiet :=
  repeat match goal with
    | |- never_raises (bind _ _) => apply never_raises_bind; [| intros ?]
    | |- never_raises (try_except _ _) => apply never_raises_try; intros ?
    | |- never_raises (when _ _) => apply never_raises_when
    | |- never_raises (emit _) => apply never_raises_emit
    | |- never_raises (ret _) => apply never_raises_ret
    | |- never_raises (text _ _) => apply never_raises_emit
    | |- never_raises (match ?x with _ => _ end) => destruct x
    end.

Section Responsive.

Variable drv : Driver.
Variable ui : Ui.

Hypothesis cursor_answers : forall n, drv_cursor drv n <> Hangs.
Hypothesis execute_answers : forall n sql params, drv_execute drv n sql params <> Hangs.

Lemma finishes_conn_cursor : finishes (conn_cursor drv).
Proof.
  intros s. unfold conn_cursor. run.
  specialize (cursor_answers (tick s)).
  destruct (drv_cursor drv (tick s)); cbn; congruence.
Qed.

Lemma finishes_execute (sql : string) (params : list value) : finishes (execute drv sql params).
Proof.
  intros s. unfold execute. run.
  specialize (execute_answers (tick s) sql params).
  destruct (drv_execute drv (tick s) sql params); cbn; congruence.
Qed.

Lemma finishes_fetchone_0 : finishes fetchone_0.
Proof. unfold fetchone_0. walk. Qed.

Lemma finishes_fetchall_0 : finishes fetchall_0.
Proof. unfold fetchall_0. walk. Qed.

Lemma finishes_radio (l : string) (o : list string) : finishes (radio ui l o).
Proof. unfold radio. walk. Qed.

Lemma finishes_button (l : string) : finishes (button ui l).
Proof. unfold button. walk. Qed.

Lemma finishes_selectbox (l : string) (o : list value) : finishes (selectbox ui l o).
Proof. unfold selectbox. walk. Qed.

Lemma finishes_slider (l : string) (lo hi : option Z) : finishes (slider ui l lo hi).
Proof. unfold slider. walk. Qed.

Lemma finishes_text_area (l d : string) : finishes (text_area ui l d).
Proof. unfold text_area. walk. Qed.

Hint Resolve finishes_conn_cursor finishes_execute finishes_fetchone_0 finishes_fetchall_0
  finishes_radio finishes_button finishes_selectbox finishes_slider finishes_text_area
  : finishes.

Lemma finishes_count_account_types (account_types : list value) (counts : dict Z)
    (balances : dict value) :
  finishes (count_account_types drv account_types counts balances).
Proof.
  revert counts balances.
  induction account_types as [| account_type rest IH]; intros counts balances;
    cbn [count_account_types]; walk.
Qed.

Lemma finishes_write_each (tables : list value) : finishes (write_each tables).
Proof. induction tables as [| table rest IH]; cbn [write_each]; walk. Qed.

Lemma finishes_format_balance (f : value -> res value) (r : ref) :
  finishes (format_balance f r).
Proof. unfold format_balance. walk. Qed.

Lemma finishes_adapt_top_accounts (top_accounts : list (list value)) :
  finishes (adapt_top_accounts top_accounts).
Proof. unfold adapt_top_accounts. walk. Qed.

Hint Resolve finishes_count_account_types finishes_write_each finishes_format_balance
  finishes_adapt_top_accounts : finishes.








End Responsive.

(** ** Nothing is ever taken out of the trace *)

Lemma grows_quiet {A : Type} (m : M A) :
  (forall s, trace (snd (m s)) = trace s) -> grows m.
Proof. intros H s. exists []. rewrite app_nil_r. apply H. Qed.

Lemma grows_ret {A : Type} (a : A) : grows (ret a).
Proof. apply grows_quiet. reflexivity. Qed.

Lemma grows_raise {A : Type} (e : exn) : grows (@raise A e).
Proof. apply grows_quiet. reflexivity. Qed.

Lemma grows_lift {A : Type} (r : res A) : grows (lift r).
Proof. destruct r; apply grows_quiet; reflexivity. Qed.

Lemma grows_emit (e : event) : grows (emit e).
Proof. intros s. exists [e]. reflexivity. Qed.

Lemma grows_bind {A B : Type} (m : M A) (f : A -> M B) :
  grows m -> (forall a, grows (f a)) -> grows (bind m f).
Proof.
  intros Hm Hf s. unfold bind. destruct (Hm s) as (l1 & H1).
  destruct (m s) as [[a | e |] s1]; cbn [snd] in *; try (exists l1; exact H1).
  destruct (Hf a s1) as (l2 & H2). exists (l1 ++ l2).
  rewrite H2, H1, app_assoc. reflexivity.
Qed.

Lemma grows_try {A : Type} (m : M A) (h : exn -> M A) :
  grows m -> (forall e, grows (h e)) -> grows (try_except m h).
Proof.
  intros Hm Hh s. unfold try_except. destruct (Hm s) as (l1 & H1).
  destruct (m s) as [[a | e |] s1]; cbn [snd] in *; try (exists l1; exact H1).
  destruct (Hh e s1) as (l2 & H2). exists (l1 ++ l2).
  rewrite H2, H1, app_assoc. reflexivity.
Qed.

Lemma grows_when (b : bool) (m : M unit) : grows m -> grows (when b m).
Proof. intros Hm. destruct b; [exact Hm | apply grows_ret]. Qed.

Lemma grows_alloc (df : DataFrame) : grows (alloc df).
Proof. apply grows_quiet. reflexivity. Qed.

Lemma grows_load (r : ref) : grows (load r).
Proof. apply grows_quiet. reflexivity. Qed.

Lemma grows_store (r : ref) (df : DataFrame) : grows (store r df).
Proof. apply grows_quiet. reflexivity. Qed.

Lemma grows_fetchone : grows fetchone.
Proof.
  apply grows_quiet. intros s. unfold fetchone.
  destruct (cursor s) as [[d [| r rest]] |]; reflexivity.
Qed.

Lemma grows_fetchall : grows fetchall.
Proof.
  apply grows_quiet. intros s. unfold fetchall.
  destruct (cursor s) as [[d rs] |]; reflexivity.
Qed.

Lemma grows_column_names : grows column_names.
Proof.
  apply grows_quiet. intros s. unfold column_names. destruct (cursor s); reflexivity.
Qed.

Lemma grows_conn_cursor (drv : Driver) : grows (conn_cursor drv).
Proof.
  intros s. exists [Cursor]. unfold conn_cursor. run.
  destruct (drv_cursor drv (tick s)); reflexivity.
Qed.

Lemma grows_execute (drv : Driver) (sql : string) (params : list value) :
  grows (execute drv sql params).
Proof.
  intros s. exists [Execute sql params]. unfold execute. run.
  destruct (drv_execute drv (tick s) sql params); reflexivity.
Qed.

Create HintDb grows.
#[export] Hint Resolve grows_ret grows_raise grows_lift grows_emit grows_alloc grows_load
  grows_store grows_fetchone grows_fetchall grows_column_names grows_conn_cursor
  grows_execute : grows.

Ltac climb :=
  repeat first
    [ solve [auto with grows]
    | match goal with
      | |- grows (bind _ _) => apply grows_bind; [| intros ?]
      | |- grows (try_except _ _) => apply grows_try; [| intros ?]
      | |- grows (when _ _) => apply grows_when
      | |- grows (let _ := _ in _) => cbv zeta
      | |- grows (match ?x with _ => _ end) => destruct x
      | |- grows (text _ _) => apply grows_emit
      | |- grows (copy _) => unfold copy
      | |- grows (fetchone_0) => unfold fetchone_0
      | |- grows (fetchall_0) => unfold fetchall_0
      | |- grows (radio _ _ _) => unfold radio
      | |- grows (button _ _) => unfold button
      | |- grows (selectbox _ _ _) => unfold selectbox
      | |- grows (slider _ _ _ _) => unfold slider
      | |- grows (text_area _ _ _) => unfold text_area
      | |- grows (format_balance _ _) => unfold format_balance
      | |- grows (adapt_top_accounts _) => unfold adapt_top_accounts
      end ].

Lemma grows_count_account_types (drv : Driver) (account_types : list value)
    (counts : dict Z) (balances : dict value) :
  grows (count_account_types drv account_types counts balances).
Proof.
  revert counts balances.
  induction account_types as [| account_type rest IH]; intros counts balances;
    cbn [count_account_types]; climb.
Qed.

Lemma grows_write_each (tables : list value) : grows (write_each tables).
Proof. induction tables as [| table rest IH]; cbn [write_each]; climb. Qed.

#[export] Hint Resolve grows_count_account_types grows_write_each : grows.




Lemma main_is_main_over (drv : Driver) (ui : Ui) (getenv : string -> option string) :
  main drv ui getenv
  = main_over drv ui getenv (display_dashboard drv) (display_account_details drv ui)
      (display_data_explorer drv ui).
Proof. reflexivity. Qed.

(** [conn.close()] is reached only when the page function returns: if
    the call raises, [main] ends with that exception where the page
    stopped. *)
Lemma close_needs_the_page_to_return (page : M unit) (e : exn) (s s1 : state) :
  page s = (Raise e, s1) -> (page ;; conn_close) s = (Raise e, s1).
Proof. intros H. unfold bind. rewrite H. reflexivity. Qed.


(** ** Grouping by account type *)

Lemma key_eqb_eq (a b : key) : key_eqb a b = true <-> a = b.
Proof.
  destruct a, b; simpl; split; intros H; try discriminate; try reflexivity.
  - apply Z.eqb_eq in H. congruence.
  - inversion H. apply Z.eqb_refl.
  - apply String.eqb_eq in H. congruence.
  - inversion H. apply String.eqb_refl.
Qed.

Lemma py_eqb_key (a b : value) : py_eqb a b = true <-> key_of a = key_of b.
Proof. apply key_eqb_eq. Qed.

Lemma py_eqb_refl (a : value) : py_eqb a a = true.
Proof. apply py_eqb_key. reflexivity. Qed.

Lemma py_eqb_sym (a b : value) : py_eqb a b = py_eqb b a.
Proof.
  destruct (py_eqb a b) eqn:E1, (py_eqb b a) eqn:E2; try reflexivity.
  - apply py_eqb_key in E1. symmetry in E1. apply py_eqb_key in E1. congruence.
  - apply py_eqb_key in E2. symmetry in E2. apply py_eqb_key in E2. congruence.
Qed.

(** [==] does not tell apart two values that are [==] to each other. *)
Lemma py_eqb_subst (a b c : value) : py_eqb a b = true -> py_eqb a c = py_eqb b c.
Proof.
  intros H. apply py_eqb_key in H. unfold py_eqb. rewrite H. reflexivity.
Qed.

Lemma mem_app (x : value) (l m : list value) : mem x (l ++ m) = mem x l || mem x m.
Proof.
  induction l as [| y l IH]; simpl; [reflexivity |]. rewrite IH, orb_assoc. reflexivity.
Qed.

Lemma mem_false (x : value) (l : list value) :
  mem x l = false <-> forall y, In y l -> py_eqb y x = false.
Proof.
  induction l as [| z l IH]; simpl.
  - split; [intros _ y [] | reflexivity].
  - rewrite orb_false_iff, IH. split.
    + intros [Hz Hl] y [<- | Hy]; auto.
    + intros H. split; [apply H; left; reflexivity | intros y Hy; apply H; right; exact Hy].
Qed.

Lemma mem_filter (x : value) (q : value -> bool) (l : list value) :
  (forall g, py_eqb g x = true -> q g = true) -> mem x (filter q l) = mem x l.
Proof.
  intros Hq. induction l as [| y l IH]; simpl; [reflexivity |].
  destruct (q y) eqn:Eq; simpl; rewrite IH; [reflexivity |].
  destruct (py_eqb y x) eqn:Ey; [| reflexivity].
  rewrite (Hq y Ey) in Eq. discriminate.
Qed.

Lemma mem_first_seen (x : value) (l : list value) : mem x (first_seen l) = mem x l.
Proof.
  induction l as [| y l IH]; simpl; [reflexivity |].
  destruct (py_eqb y x) eqn:Ey; simpl; [reflexivity |].
  rewrite mem_filter, IH; [reflexivity |].
  intros g Hg. rewrite (py_eqb_sym g x) in Hg. rewrite py_eqb_sym in Ey.
  rewrite (py_eqb_sym y g), <- (py_eqb_subst x g y Hg), Ey. reflexivity.
Qed.

Lemma distinct_filter (q : value -> bool) (l : list value) :
  distinct l -> distinct (filter q l).
Proof.
  induction l as [| y l IH]; simpl; [trivial |]. intros [Hy Hl].
  destruct (q y); simpl; [| apply IH; exact Hl].
  split; [| apply IH; exact Hl].
  apply mem_false. intros z Hz. apply filter_In in Hz. destruct Hz as [Hz _].
  rewrite mem_false in Hy. apply Hy. exact Hz.
Qed.

Lemma distinct_first_seen (l : list value) : distinct (first_seen l).
Proof.
  induction l as [| y l IH]; simpl; [trivial |]. split.
  - apply mem_false. intros z Hz. apply filter_In in Hz. destruct Hz as [_ Hz].
    rewrite py_eqb_sym. destruct (py_eqb y z); [discriminate | reflexivity].
  - apply distinct_filter. exact IH.
Qed.

(** The order of first occurrence, read from the left: a value seen
    before changes nothing, a new one goes to the end. *)
Lemma first_seen_snoc (l : list value) (x : value) :
  first_seen (l ++ [x]) = if mem x l then first_seen l else first_seen l ++ [x].
Proof.
  induction l as [| y l IH]; simpl; [reflexivity |].
  rewrite IH. destruct (mem x l) eqn:El; simpl.
  - rewrite orb_true_r. reflexivity.
  - rewrite orb_false_r, filter_app. simpl.
    destruct (py_eqb y x); simpl; [rewrite app_nil_r |]; reflexivity.
Qed.

Lemma unique_from_first_seen (seen l : list value) :
  unique_from (first_seen seen) l = first_seen (seen ++ l).
Proof.
  revert seen. induction l as [| x l IH]; intros seen; cbn [unique_from].
  - rewrite app_nil_r. reflexivity.
  - replace (seen ++ x :: l) with ((seen ++ [x]) ++ l) by (rewrite <- app_assoc; reflexivity).
    rewrite <- IH, first_seen_snoc, mem_first_seen.
    destruct (mem x seen); reflexivity.
Qed.

(** pandas' [unique] and the key order of a dictionary filled from left
    to right are this same order. *)
Lemma unique_is_first_seen (l : list value) : unique l = first_seen l.
Proof. apply (unique_from_first_seen [] l). Qed.

Lemma occurrences_snoc (g x : value) (l : list value) :
  occurrences g (l ++ [x]) = occurrences g l + (if py_eqb x g then 1 else 0).
Proof.
  unfold occurrences. rewrite filter_app, length_app. simpl.
  destruct (py_eqb x g); simpl; lia.
Qed.

Lemma occurrences_unseen (x : value) (l : list value) : mem x l = false -> occurrences x l = 0.
Proof.
  intros H. rewrite mem_false in H. unfold occurrences.
  induction l as [| y l IH]; simpl; [reflexivity |].
  rewrite (H y) by (left; reflexivity). apply IH. intros z Hz. apply H. right. exact Hz.
Qed.

Lemma occurrences_eq (a b : value) (l : list value) :
  py_eqb a b = true -> occurrences a l = occurrences b l.
Proof.
  intros H. unfold occurrences. f_equal. f_equal. apply filter_ext. intros x.
  rewrite (py_eqb_sym x a), (py_eqb_sym x b). apply py_eqb_subst. exact H.
Qed.

(** *** A dictionary that tabulates a function over distinct keys *)

Lemma dict_get_unseen {V : Type} (f : value -> V) (l : list value) (x : value) :
  mem x l = false -> dict_get (map (fun g => (g, f g)) l) x = None.
Proof.
  induction l as [| y l IH]; simpl; [reflexivity |].
  intros H. apply orb_false_iff in H. destruct H as [Hy Hl].
  rewrite Hy. apply IH. exact Hl.
Qed.

Lemma dict_get_seen {V : Type} (f : value -> V) (l : list value) (x : value) :
  mem x l = true ->
  exists g, py_eqb g x = true /\ dict_get (map (fun g => (g, f g)) l) x = Some (f g).
Proof.
  induction l as [| y l IH]; simpl; [discriminate |].
  destruct (py_eqb y x) eqn:Ey; simpl; intros H; [exists y; split; [exact Ey | reflexivity] |].
  apply IH. exact H.
Qed.

Lemma dict_set_unseen {V : Type} (f : value -> V) (l : list value) (x : value) (v : V) :
  mem x l = false ->
  dict_set (map (fun g => (g, f g)) l) x v = map (fun g => (g, f g)) l ++ [(x, v)].
Proof.
  induction l as [| y l IH]; simpl; [reflexivity |].
  intros H. apply orb_false_iff in H. destruct H as [Hy Hl].
  rewrite Hy, IH by exact Hl. reflexivity.
Qed.

Lemma dict_set_seen {V : Type} (f : value -> V) (l : list value) (x : value) (v : V) :
  distinct l -> mem x l = true ->
  dict_set (map (fun g => (g, f g)) l) x v
  = map (fun g => (g, if py_eqb g x then v else f g)) l.
Proof.
  induction l as [| y l IH]; simpl; [discriminate |].
  intros [Hy Hl] H. destruct (py_eqb y x) eqn:Ey; simpl in *.
  - f_equal. apply map_ext_in. intros g Hg.
    rewrite mem_false in Hy. specialize (Hy g Hg).
    rewrite (py_eqb_sym g x), <- (py_eqb_subst y x g Ey), (py_eqb_sym y g), Hy. reflexivity.
  - f_equal. apply IH; assumption.
Qed.

(** *** The driver's answers to the two statements of the loop *)

Lemma first_of_singletons {A : Type} (f : A -> value) (l : list A) :
  apply first_of (map (fun a => [f a]) l) = Ok (map f l).
Proof. induction l as [| a l IH]; simpl; [reflexivity | rewrite IH; reflexivity]. Qed.

Lemma sum_by_type {B : Type} (t : list Account) (g : value) (k : value -> M B)
    (s : state) :
  (execute (table_driver t) "SELECT SUM(Balance) FROM Accounts WHERE AccountType = ?" [g] ;;
   balance <- fetchone_0 ;;
   k balance) s
  = k (sql_decimal (sql_sum (map Balance (where_type g t))))
      (State (trace s ++ [Execute "SELECT SUM(Balance) FROM Accounts WHERE AccountType = ?" [g]])
             (S (tick s)) (Some (Results [""] [])) (heap s)).
Proof. reflexivity. Qed.

(** *** The loop *)

Lemma count_account_types_tabulates (t : list Account) (rest seen : list value) (s : state) :
  exists s',
    count_account_types (table_driver t) rest
      (map (fun g => (g, occurrences g seen)) (first_seen seen))
      (map (fun g => (g, stored_balance t g)) (first_seen seen)) s
    = (Ret (map (fun g => (g, occurrences g (seen ++ rest))) (first_seen (seen ++ rest)),
            map (fun g => (g, stored_balance t g)) (first_seen (seen ++ rest))), s')
    /\ heap s' = heap s.
Proof.
  revert seen s. induction rest as [| x rest IH]; intros seen s.
  - rewrite app_nil_r. exists s. split; reflexivity.
  - replace (seen ++ x :: rest) with ((seen ++ [x]) ++ rest)
      by (rewrite <- app_assoc; reflexivity).
    cbn [count_account_types].
    pose proof (first_seen_snoc seen x) as Hsnoc.
    destruct (mem x seen) eqn:Eseen.
    + assert (Efs : mem x (first_seen seen) = true) by (rewrite mem_first_seen; exact Eseen).
      destruct (dict_get_seen (fun g => occurrences g seen) _ _ Efs) as (g0 & Hg0 & Hget).
      rewrite Hget.
      rewrite (dict_set_seen _ _ _ _ (distinct_first_seen seen) Efs).
      replace (map (fun g => (g, if py_eqb g x then occurrences g0 seen + 1
                                 else occurrences g seen)) (first_seen seen))
        with (map (fun g => (g, occurrences g (seen ++ [x]))) (first_seen (seen ++ [x]))).
      * rewrite <- Hsnoc. apply IH.
      * rewrite Hsnoc. apply map_ext. intros g. rewrite occurrences_snoc, (py_eqb_sym x g).
        destruct (py_eqb g x) eqn:Eg; [| rewrite Z.add_0_r; reflexivity].
        rewrite (occurrences_eq g0 g); [reflexivity |].
        rewrite (py_eqb_subst g0 x g Hg0), py_eqb_sym. exact Eg.
    + assert (Efs : mem x (first_seen seen) = false) by (rewrite mem_first_seen; exact Eseen).
      rewrite (dict_get_unseen _ _ _ Efs).
      rewrite sum_by_type. fold (stored_balance t x).
      rewrite !(dict_set_unseen _ _ _ _ Efs).
      match goal with
      | |- context [count_account_types _ _ ?c ?b ?s1] =>
          replace c with (map (fun g => (g, occurrences g (seen ++ [x])))
                            (first_seen (seen ++ [x])));
          [ replace b with (map (fun g => (g, stored_balance t g)) (first_seen (seen ++ [x])));
            [ destruct (IH (seen ++ [x]) s1) as (s' & Hrun & Hheap) | ] | ]
      end.
      * exists s'. split; [exact Hrun | exact Hheap].
      * rewrite Hsnoc, map_app. reflexivity.
      * rewrite Hsnoc, map_app. cbn [map]. f_equal.
        -- apply map_ext_in. intros g Hg. rewrite occurrences_snoc.
           rewrite mem_false in Efs. rewrite py_eqb_sym, (Efs g Hg), Z.add_0_r. reflexivity.
        -- rewrite occurrences_snoc, py_eqb_refl, (occurrences_unseen x seen Eseen).
           reflexivity.
Qed.

Lemma types_query {B : Type} (t : list Account) (k : list value -> M B) (s : state) :
  (execute (table_driver t) "SELECT AccountType FROM Accounts" [] ;;
   account_types <- fetchall_0 ;;
   k account_types) s
  = k (map type_value t)
      (State (trace s ++ [Execute "SELECT AccountType FROM Accounts" []])
             (S (tick s)) (Some (Results ["AccountType"] [])) (heap s)).
Proof.
  run. cbn [drv_execute table_driver].
  change (table_execute t "SELECT AccountType FROM Accounts" [])
    with (Returns (Some (Results ["AccountType"] (map (fun a => [type_value a]) t)))).
  run. rewrite first_of_singletons. reflexivity.
Qed.

(** *** The frame made of the two dictionaries *)

Lemma rows_of_three_columns (f h : value -> value) (l : list value) :
  map (fun i => [nth i l VNone; nth i (map f l) VNone; nth i (map h l) VNone])
    (seq 0 (length l))
  = map (fun g => [g; f g; h g]) l.
Proof.
  induction l as [| g l IH]; [reflexivity |].
  cbn [length seq map nth]. f_equal.
  rewrite <- seq_shift, map_map. exact IH.
Qed.

Lemma frame_of_tabulated (f : value -> Z) (h : value -> value) (l : list value) :
  frame_of_columns
    [("Account Type", dict_keys (map (fun g => (g, f g)) l));
     ("Count", map VInt (dict_values (map (fun g => (g, f g)) l)));
     ("Total Balance", dict_values (map (fun g => (g, h g)) l))]
  = Ok (Frame ["Account Type"; "Count"; "Total Balance"]
          (map (fun g => [g; VInt (f g); h g]) l)).
Proof.
  unfold dict_keys, dict_values. rewrite !map_map. cbn [fst snd]. rewrite map_id.
  unfold frame_of_columns. cbn [forallb snd map fst].
  rewrite !length_map, Nat.eqb_refl. cbn [andb].
  rewrite <- (rows_of_three_columns (fun g => VInt (f g)) h l). reflexivity.
Qed.

(** Lines 161-186 over the reference database. *)
Lemma accounts_by_type_run (t : list Account) (s : state) :
  exists s',
    accounts_by_type (table_driver t) s = (Ret (length (heap s)), s')
    /\ heap s' =
         heap s ++ [Frame ["Account Type"; "Count"; "Total Balance"]
                      (map (fun g => [g; VInt (occurrences g (map type_value t));
                                      stored_balance t g])
                         (first_seen (map type_value t)))].
Proof.
  unfold accounts_by_type. rewrite types_query. unfold bind at 1.
  match goal with
  | |- context [count_account_types _ _ _ _ ?s1] =>
      destruct (count_account_types_tabulates t (map type_value t) [] s1)
        as (s2 & Hrun & Hheap)
  end.
  cbn [app first_seen map] in Hrun. rewrite Hrun.
  cbn [fst snd]. rewrite frame_of_tabulated. run. rewrite Hheap. cbn [heap].
  eexists. split; reflexivity.
Qed.

(** *** The frame against the specification's aggregate *)

Lemma occurrences_is_count (g : value) (t : list Account) :
  occurrences g (map type_value t) = group_count g t.
Proof.
  unfold occurrences, group_count, in_group. f_equal.
  induction t as [| a t IH]; simpl; [reflexivity |].
  destruct (py_eqb (type_value a) g); simpl; rewrite IH; reflexivity.
Qed.

Lemma sql_sum_total (l : list (option Z)) :
  match sql_sum l with Some c => c | None => 0 end
  = fold_right Z.add 0 (map (fun o => match o with Some c => c | None => 0 end) l).
Proof.
  induction l as [| [c |] l IH]; simpl; [reflexivity | rewrite IH; reflexivity | exact IH].
Qed.

Lemma where_type_is_group (t : list Account) (a : Account) :
  plainly_typed t -> In a t ->
  where_type (type_value a) t = filter (in_group (type_value a)) t.
Proof.
  intros Hplain Ha. unfold where_type. apply filter_ext_in. intros b Hb.
  unfold in_group. apply (Hplain b a Hb Ha).
Qed.

Lemma stored_balance_is_total (t : list Account) (a : Account) :
  plainly_typed t -> In a t ->
  cents_of (stored_balance t (type_value a)) = Some (group_total (type_value a) t).
Proof.
  intros Hplain Ha. unfold stored_balance, group_total.
  rewrite (where_type_is_group t a Hplain Ha).
  rewrite <- (map_map Balance (fun o => match o with Some c => c | None => 0 end)).
  rewrite <- sql_sum_total.
  destruct (sql_sum (map Balance (filter (in_group (type_value a)) t))) as [c |]; simpl;
    [| reflexivity].
  destruct (c =? 0) eqn:Ec; simpl; [| reflexivity].
  apply Z.eqb_eq in Ec. rewrite Ec. reflexivity.
Qed.

Lemma first_seen_incl (l : list value) (g : value) : In g (first_seen l) -> In g l.
Proof.
  induction l as [| x l IH]; cbn [first_seen]; [intros [] |].
  intros [-> | H]; [left; reflexivity |].
  right. apply IH. apply filter_In in H. tauto.
Qed.

(** Where the database and Python agree on the account types, the loop
    of lines 161-186 computes the aggregate of the specification: one
    row per distinct type, in the order the types are first met, with
    the number of accounts of the type and the sum of their balances, a
    missing balance counted as 0. *)
Lemma plain_types_are_aggregated (t : list Account) (s : state) :
  plainly_typed t ->
  exists df s',
    accounts_by_type (table_driver t) s = (Ret (length (heap s)), s')
    /\ nth (length (heap s)) (heap s') empty_frame = df
    /\ columns df = ["Account Type"; "Count"; "Total Balance"]
    /\ Forall2 carries (by_group t) (rows df).
Proof.
  intros Hplain.
  destruct (accounts_by_type_run t s) as (s' & Hrun & Hheap).
  eexists. exists s'. split; [exact Hrun |]. split; [reflexivity |].
  rewrite Hheap, nth_just_allocated. cbn [columns rows]. split; [reflexivity |].
  clear Hrun Hheap. unfold by_group.
  assert (Hin : forall g, In g (first_seen (map type_value t)) -> In g (map type_value t))
    by apply first_seen_incl.
  induction (first_seen (map type_value t)) as [| g l IH]; cbn [map]; [constructor |].
  constructor; [| apply IH; intros g' Hg'; apply Hin; right; exact Hg'].
  exists (stored_balance t g). cbn [fst snd].
  rewrite occurrences_is_count. split; [reflexivity |].
  destruct (proj1 (in_map_iff _ _ _) (Hin g (or_introl eq_refl))) as (a & <- & Ha).
  apply stored_balance_is_total; assumption.
Qed.

Example plain_types_example :
  plainly_typed [savings; checking; savings_2]
  /\ heap (snd (accounts_by_type (table_driver [savings; checking; savings_2]) initial))
     = [Frame ["Account Type"; "Count"; "Total Balance"]
          [[VStr "Savings"; VInt 2; VDecimal 123450]; [VStr "Checking"; VInt 1; VDecimal 50000]]].
Proof.
  split; [| vm_compute; reflexivity].
  intros a b Ha Hb. cbn [In] in Ha, Hb.
  repeat match goal with
         | H : _ \/ _ |- _ => destruct H
         | H : False |- _ => contradiction
         | H : _ = _ |- _ => subst
         end; vm_compute; reflexivity.
Qed.

(** The statement of line 173 finds no account whose type is NULL, so
    the total stored for the NULL group is 0 over every table. *)
Lemma null_group_always_shows_zero (t : list Account) : stored_balance t VNone = VInt 0.
Proof.
  unfold stored_balance, where_type.
  replace (filter (fun a => sql_eq (sql_text (AccountType a)) VNone) t) with (@nil Account);
    [reflexivity |].
  induction t as [| a t IH]; [reflexivity |].
  cbn [filter]. destruct (sql_text (AccountType a)); cbn [sql_eq]; exact IH.
Qed.

(** C1 fails in the code for the accounts whose type is NULL: the loop
    counts them in Python, but the statement [WHERE AccountType = ?] of
    line 173 ("Get balance for this account type") matches none of them,
    and the row of that group shows 0 where the balances add up to
    10.00. *)
Theorem null_group_total_is_lost :
  accounts_by_type (table_driver [untyped]) initial
  = (Ret 0%nat,
     State [Execute "SELECT AccountType FROM Accounts" [];
            Execute "SELECT SUM(Balance) FROM Accounts WHERE AccountType = ?" [VNone]]
           2 (Some (Results [""] []))
           [Frame ["Account Type"; "Count"; "Total Balance"] [[VNone; VInt 1; VInt 0]]])
  /\ by_group [untyped] = [(VNone, 1, 1000)]
  /\ ~ Forall2 carries (by_group [untyped]) [[VNone; VInt 1; VInt 0]].
Proof.
  split; [vm_compute; reflexivity |]. split; [vm_compute; reflexivity |].
  intros H. inversion H as [| a row l rows' Hcar Hrest]; subst.
  destruct Hcar as (b & Hrow & Hcents). inversion Hrow; subst. discriminate.
Qed.

(** The same loop over two accounts whose types differ in case only:
    Python counts two groups of one account, and the database adds both
    balances for each of them, 1,234.50 + 5.00. *)
Lemma spellings_of_a_type_are_added_twice :
  heap (snd (accounts_by_type (table_driver [savings; savings_small]) initial))
  = [Frame ["Account Type"; "Count"; "Total Balance"]
       [[VStr "Savings"; VInt 1; VDecimal 123950]; [VStr "savings"; VInt 1; VDecimal 123950]]]
  /\ by_group [savings; savings_small]
     = [(VStr "Savings", 1, 123450); (VStr "savings", 1, 500)].
Proof. split; vm_compute; reflexivity. Qed.

(** ** What a page may add to the trace *)

Lemma emits_quiet (P : event -> Prop) {A : Type} (m : M A) :
  (forall s, trace (snd (m s)) = trace s) -> emits P m.
Proof. intros H s. exists []. rewrite app_nil_r. split; [apply H | constructor]. Qed.

Lemma emits_ret (P : event -> Prop) {A : Type} (a : A) : emits P (ret a).
Proof. apply emits_quiet. reflexivity. Qed.

Lemma emits_raise (P : event -> Prop) {A : Type} (e : exn) : emits P (@raise A e).
Proof. apply emits_quiet. reflexivity. Qed.

Lemma emits_lift (P : event -> Prop) {A : Type} (r : res A) : emits P (lift r).
Proof. destruct r; apply emits_quiet; reflexivity. Qed.

Lemma emits_emit (P : event -> Prop) (e : event) : P e -> emits P (emit e).
Proof. intros H s. exists [e]. split; [reflexivity | constructor; [exact H | constructor]]. Qed.

Lemma emits_bind (P : event -> Prop) {A B : Type} (m : M A) (f : A -> M B) :
  emits P m -> (forall a, emits P (f a)) -> emits P (bind m f).
Proof.
  intros Hm Hf s. unfold bind. destruct (Hm s) as (l1 & H1 & P1).
  destruct (m s) as [[a | e |] s1]; cbn [snd] in *; try (exists l1; split; assumption).
  destruct (Hf a s1) as (l2 & H2 & P2). exists (l1 ++ l2). split.
  - rewrite H2, H1, app_assoc. reflexivity.
  - apply Forall_app. split; assumption.
Qed.

Lemma emits_try (P : event -> Prop) {A : Type} (m : M A) (h : exn -> M A) :
  emits P m -> (forall e, emits P (h e)) -> emits P (try_except m h).
Proof.
  intros Hm Hh s. unfold try_except. destruct (Hm s) as (l1 & H1 & P1).
  destruct (m s) as [[a | e |] s1]; cbn [snd] in *; try (exists l1; split; assumption).
  destruct (Hh e s1) as (l2 & H2 & P2). exists (l1 ++ l2). split.
  - rewrite H2, H1, app_assoc. reflexivity.
  - apply Forall_app. split; assumption.
Qed.

Lemma emits_when (P : event -> Prop) (b : bool) (m : M unit) :
  emits P m -> emits P (when b m).
Proof. intros Hm. destruct b; [exact Hm | apply emits_ret]. Qed.

Lemma emits_alloc (P : event -> Prop) (df : DataFrame) : emits P (alloc df).
Proof. apply emits_quiet. reflexivity. Qed.

Lemma emits_load (P : event -> Prop) (r : ref) : emits P (load r).
Proof. apply emits_quiet. reflexivity. Qed.

Lemma emits_store (P : event -> Prop) (r : ref) (df : DataFrame) : emits P (store r df).
Proof. apply emits_quiet. reflexivity. Qed.

Lemma emits_fetchone (P : event -> Prop) : emits P fetchone.
Proof.
  apply emits_quiet. intros s. unfold fetchone.
  destruct (cursor s) as [[d [| r rest]] |]; reflexivity.
Qed.

Lemma emits_fetchall (P : event -> Prop) : emits P fetchall.
Proof.
  apply emits_quiet. intros s. unfold fetchall.
  destruct (cursor s) as [[d rs] |]; reflexivity.
Qed.

Lemma emits_column_names (P : event -> Prop) : emits P column_names.
Proof.
  apply emits_quiet. intros s. unfold column_names. destruct (cursor s); reflexivity.
Qed.

Lemma emits_conn_cursor (P : event -> Prop) (drv : Driver) :
  P Cursor -> emits P (conn_cursor drv).
Proof.
  intros H s. exists [Cursor]. split; [| constructor; [exact H | constructor]].
  unfold conn_cursor. run. destruct (drv_cursor drv (tick s)); reflexivity.
Qed.

Lemma emits_execute (P : event -> Prop) (drv : Driver) (sql : string) (params : list value) :
  P (Execute sql params) -> emits P (execute drv sql params).
Proof.
  intros H s. exists [Execute sql params]. split; [| constructor; [exact H | constructor]].
  unfold execute. run. destruct (drv_execute drv (tick s) sql params); reflexivity.
Qed.

(** The text typed into a box is what the rest of the block goes on with. *)
Lemma emits_text_area (P : event -> Prop) {B : Type} (ui : Ui) (label default : string)
    (k : string -> M B) :
  P (TextArea label default) -> emits P (k (ui_text_area ui label default)) ->
  emits P (bind (text_area ui label default) k).
Proof.
  intros H Hk s. unfold text_area. run.
  destruct (Hk (State (trace s ++ [TextArea label default]) (tick s) (cursor s) (heap s)))
    as (l & Hl & Pl).
  exists (TextArea label default :: l). split.
  - rewrite Hl. cbn [trace]. rewrite <- app_assoc. reflexivity.
  - constructor; assumption.
Qed.

(** One of the listed statements. *)
Ltac listed := cbn [In page_statements]; repeat first [left; reflexivity | right].

(** One step through a block for [emits]; [side] settles what each
    event has to satisfy. *)
Ltac trail_step side :=
  first
    [ match goal with
      | |- emits _ (bind _ _) => apply emits_bind; [| intros ?]
      | |- emits _ (try_except _ _) => apply emits_try; [| intros ?]
      | |- emits _ (when _ _) => apply emits_when
      | |- emits _ (ret _) => apply emits_ret
      | |- emits _ (raise _) => apply emits_raise
      | |- emits _ (lift _) => apply emits_lift
      | |- emits _ (alloc _) => apply emits_alloc
      | |- emits _ (load _) => apply emits_load
      | |- emits _ (store _ _) => apply emits_store
      | |- emits _ fetchone => apply emits_fetchone
      | |- emits _ fetchall => apply emits_fetchall
      | |- emits _ column_names => apply emits_column_names
      | |- emits _ (emit _) => apply emits_emit; side
      | |- emits _ (text _ _) => apply emits_emit; side
      | |- emits _ (conn_cursor _) => apply emits_conn_cursor; side
      | |- emits _ (execute _ _ _) => apply emits_execute; side
      | |- emits _ (let _ := _ in _) => cbv zeta
      | |- emits _ (match ?x with _ => _ end) => destruct x
      | |- emits _ (copy _) => unfold copy
      | |- emits _ (fetchone_0) => unfold fetchone_0
      | |- emits _ (fetchall_0) => unfold fetchall_0
      | |- emits _ (radio _ _ _) => unfold radio
      | |- emits _ (button _ _) => unfold button
      | |- emits _ (selectbox _ _ _) => unfold selectbox
      | |- emits _ (slider _ _ _ _) => unfold slider
      | |- emits _ (format_balance _ _) => unfold format_balance
      | |- emits _ (adapt_top_accounts _) => unfold adapt_top_accounts
      end
    | assumption ].

Ltac trail side := repeat (trail_step side).

Ltac read_only := first [exact I | listed].

Lemma count_account_types_reads_only (drv : Driver) (account_types : list value)
    (counts : dict Z) (balances : dict value) :
  emits reads_only (count_account_types drv account_types counts balances).
Proof.
  revert counts balances.
  induction account_types as [| account_type rest IH]; intros counts balances;
    cbn [count_account_types]; trail read_only; apply IH.
Qed.

Lemma display_dashboard_reads_only (drv : Driver) : emits reads_only (display_dashboard drv).
Proof.
  unfold display_dashboard, key_metrics, accounts_by_type, type_charts,
    balance_distribution, top_accounts_table.
  pose proof (count_account_types_reads_only drv) as Hloop.
  trail read_only; apply Hloop.
Qed.

Lemma display_account_details_reads_only (drv : Driver) (ui : Ui) :
  emits reads_only (display_account_details drv ui).
Proof.
  unfold display_account_details, select_account, account_details, account_fields,
    show_field, balance_comparison, account_actions.
  trail read_only.
Qed.

(** On the Dashboard and Account Details pages every statement sent to
    the driver is one of ten statements written in the script, all of
    them SELECTs, whatever the driver answers and the user does; the
    simulated deposit and withdrawal among them write nothing. *)
Theorem pages_send_fixed_selects (drv : Driver) (ui : Ui) (s : state) :
  (exists l,
      trace (snd (display_dashboard drv s)) = trace s ++ l
      /\ forall sql params, In (Execute sql params) l -> In sql page_statements)
  /\ (exists l,
        trace (snd (display_account_details drv ui s)) = trace s ++ l
        /\ forall sql params, In (Execute sql params) l -> In sql page_statements)
  /\ Forall (fun sql => String.prefix "SELECT" (skip_blanks sql) = true) page_statements.
Proof.
  split; [| split; [| repeat constructor]].
  - destruct (display_dashboard_reads_only drv s) as (l & Hl & Pl).
    exists l. split; [exact Hl |]. intros sql params Hin.
    rewrite Forall_forall in Pl. exact (Pl _ Hin).
  - destruct (display_account_details_reads_only drv ui s) as (l & Hl & Pl).
    exists l. split; [exact Hl |]. intros sql params Hin.
    rewrite Forall_forall in Pl. exact (Pl _ Hin).
Qed.

Lemma write_each_explores (ui : Ui) (tables : list value) :
  emits (explores ui) (write_each tables).
Proof.
  induction tables as [| table rest IH]; cbn [write_each]; trail ltac:(exact I).
Qed.

Ltac own_statement :=
  first
    [ exact I
    | split;
      [ reflexivity
      | first [ left; reflexivity
              | right; left; reflexivity
              | right; right; left; reflexivity
              | right; right; right; eexists; reflexivity ] ] ].

Lemma display_data_explorer_explores (drv : Driver) (ui : Ui) :
  emits (explores ui) (display_data_explorer drv ui).
Proof.
  unfold display_data_explorer, filter_widgets, apply_filters, show_and_download,
    custom_query, run_query, table_finder.
  pose proof (write_each_explores ui) as Hwrite.
  repeat first
    [ match goal with
      | |- emits _ (bind (text_area _ _ _) _) => apply emits_text_area; [exact I |]
      | |- emits _ (write_each _) => apply Hwrite
      end
    | trail_step own_statement ].
Qed.

(** *** The statements of the Data Explorer, in their order *)

Lemma explored_more (ui : Ui) (l : list event) (seen seen' : list (list value)) :
  incl seen seen' -> explored ui seen l -> explored ui seen' l.
Proof.
  revert seen seen'. induction l as [| e l IH]; intros seen seen' Hincl H; [exact I |].
  destruct e; cbn [explored] in *; try (eapply IH; eassumption).
  - destruct H as [[Hparams Hsql] Hrest]. split; [| eapply IH; eassumption].
    split; [exact Hparams |].
    destruct Hsql as [H1 | [H2 | [H3 | (tables & Hin & Hsql)]]];
      [left; exact H1 | right; left; exact H2 | right; right; left; exact H3 |].
    right; right; right. exists tables. split; [apply Hincl; exact Hin | exact Hsql].
  - destruct (String.eqb label "Select a table to view"); [| eapply IH; eassumption].
    eapply IH; [| exact H].
    intros x [-> | Hx]; [left; reflexivity | right; apply Hincl; exact Hx].
Qed.

Lemma explored_app (ui : Ui) (l1 l2 : list event) (seen : list (list value)) :
  explored ui seen l1 -> explored ui seen l2 -> explored ui seen (l1 ++ l2).
Proof.
  revert seen. induction l1 as [| e l1 IH]; intros seen H1 H2; [exact H2 |].
  destruct e; cbn [app explored] in *; try (apply IH; assumption).
  - destruct H1 as [Hst Hrest]. split; [exact Hst | apply IH; assumption].
  - apply IH; [exact H1 |].
    destruct (String.eqb label "Select a table to view"); [| exact H2].
    eapply explored_more; [| exact H2]. intros x Hx. right. exact Hx.
Qed.

(** A statement met in an explored trace is one of the page's, and if
    it looks at a table, the table was picked from a list offered
    before it. *)
Lemma explored_statement (ui : Ui) (before after : list event) (seen : list (list value))
    (sql : string) (params : list value) :
  explored ui seen (before ++ Execute sql params :: after) ->
  params = []
  /\ (sql = "SELECT AccountNumber, Balance, AccountType FROM Accounts"
      \/ sql = "SELECT TABLE_NAME FROM INFORMATION_SCHEMA.TABLES WHERE TABLE_TYPE = 'BASE TABLE'"
      \/ sql = ui_text_area ui "Enter SQL Query" default_query
      \/ exists tables,
           (In tables seen \/ In (Selectbox "Select a table to view" tables) before)
           /\ sql = "SELECT TOP 1 * FROM " +++ py_str (picked ui tables)).
Proof.
  revert seen. induction before as [| e before IH]; intros seen H.
  - cbn [app explored] in H. destruct H as [[Hparams Hsql] _]. split; [exact Hparams |].
    destruct Hsql as [H1 | [H2 | [H3 | (tables & Hin & Hsql)]]];
      [left; exact H1 | right; left; exact H2 | right; right; left; exact H3 |].
    right; right; right. exists tables. split; [left; exact Hin | exact Hsql].
  - assert (Hstep : forall seen',
               explored ui seen' (before ++ Execute sql params :: after) ->
               (forall tables, In tables seen' ->
                               In tables seen \/ In (Selectbox "Select a table to view" tables)
                                                    (e :: before)) ->
               params = []
               /\ (sql = "SELECT AccountNumber, Balance, AccountType FROM Accounts"
                   \/ sql = "SELECT TABLE_NAME FROM INFORMATION_SCHEMA.TABLES WHERE TABLE_TYPE = 'BASE TABLE'"
                   \/ sql = ui_text_area ui "Enter SQL Query" default_query
                   \/ exists tables,
                        (In tables seen
                         \/ In (Selectbox "Select a table to view" tables) (e :: before))
                        /\ sql = "SELECT TOP 1 * FROM " +++ py_str (picked ui tables))).
    { intros seen' H' Hseen. destruct (IH seen' H') as [Hparams Hsql].
      split; [exact Hparams |].
      destruct Hsql as [H1 | [H2 | [H3 | (tables & Hin & Hsql)]]];
        [left; exact H1 | right; left; exact H2 | right; right; left; exact H3 |].
      right; right; right. exists tables. split; [| exact Hsql].
      destruct Hin as [Hin | Hin]; [exact (Hseen tables Hin) | right; right; exact Hin]. }
    destruct e; cbn [app explored] in H;
      try (apply (Hstep seen H); intros tables Hin; left; exact Hin).
    + destruct H as [_ H]. apply (Hstep seen H). intros tables Hin. left. exact Hin.
    + destruct (String.eqb label "Select a table to view") eqn:Hlabel.
      * apply String.eqb_eq in Hlabel. subst label. apply (Hstep _ H).
        intros tables [<- | Hin]; [right; left; reflexivity | left; exact Hin].
      * apply (Hstep seen H). intros tables Hin. left. exact Hin.
Qed.

Lemma explores_quiet (ui : Ui) (seen : list (list value)) {A : Type} (m : M A) :
  (forall s, trace (snd (m s)) = trace s) -> explores_from ui seen m.
Proof. intros H s. exists []. rewrite app_nil_r. split; [apply H | exact I]. Qed.

Lemma explores_ret (ui : Ui) (seen : list (list value)) {A : Type} (a : A) :
  explores_from ui seen (ret a).
Proof. apply explores_quiet. reflexivity. Qed.

Lemma explores_raise (ui : Ui) (seen : list (list value)) {A : Type} (e : exn) :
  explores_from ui seen (@raise A e).
Proof. apply explores_quiet. reflexivity. Qed.

Lemma explores_lift (ui : Ui) (seen : list (list value)) {A : Type} (r : res A) :
  explores_from ui seen (lift r).
Proof. destruct r; apply explores_quiet; reflexivity. Qed.

Lemma explores_emit (ui : Ui) (seen : list (list value)) (e : event) :
  explored ui seen [e] -> explores_from ui seen (emit e).
Proof. intros H s. exists [e]. split; [reflexivity | exact H]. Qed.

Lemma explores_bind (ui : Ui) (seen : list (list value)) {A B : Type} (m : M A)
    (f : A -> M B) :
  explores_from ui seen m -> (forall a, explores_from ui seen (f a)) ->
  explores_from ui seen (bind m f).
Proof.
  intros Hm Hf s. unfold bind. destruct (Hm s) as (l1 & H1 & P1).
  destruct (m s) as [[a | e |] s1]; cbn [snd] in *; try (exists l1; split; assumption).
  destruct (Hf a s1) as (l2 & H2 & P2). exists (l1 ++ l2). split.
  - rewrite H2, H1, app_assoc. reflexivity.
  - apply explored_app; assumption.
Qed.

Lemma explores_try (ui : Ui) (seen : list (list value)) {A : Type} (m : M A)
    (h : exn -> M A) :
  explores_from ui seen m -> (forall e, explores_from ui seen (h e)) ->
  explores_from ui seen (try_except m h).
Proof.
  intros Hm Hh s. unfold try_except. destruct (Hm s) as (l1 & H1 & P1).
  destruct (m s) as [[a | e |] s1]; cbn [snd] in *; try (exists l1; split; assumption).
  destruct (Hh e s1) as (l2 & H2 & P2). exists (l1 ++ l2). split.
  - rewrite H2, H1, app_assoc. reflexivity.
  - apply explored_app; assumption.
Qed.

Lemma explores_when (ui : Ui) (seen : list (list value)) (b : bool) (m : M unit) :
  explores_from ui seen m -> explores_from ui seen (when b m).
Proof. intros Hm. destruct b; [exact Hm | apply explores_ret]. Qed.

Lemma explores_fetchone (ui : Ui) (seen : list (list value)) : explores_from ui seen fetchone.
Proof.
  apply explores_quiet. intros s. unfold fetchone.
  destruct (cursor s) as [[d [| r rest]] |]; reflexivity.
Qed.

Lemma explores_fetchall (ui : Ui) (seen : list (list value)) : explores_from ui seen fetchall.
Proof.
  apply explores_quiet. intros s. unfold fetchall.
  destruct (cursor s) as [[d rs] |]; reflexivity.
Qed.

Lemma explores_column_names (ui : Ui) (seen : list (list value)) :
  explores_from ui seen column_names.
Proof.
  apply explores_quiet. intros s. unfold column_names. destruct (cursor s); reflexivity.
Qed.

Lemma explores_conn_cursor (ui : Ui) (seen : list (list value)) (drv : Driver) :
  explores_from ui seen (conn_cursor drv).
Proof.
  intros s. exists [Cursor]. split; [| exact I].
  unfold conn_cursor. run. destruct (drv_cursor drv (tick s)); reflexivity.
Qed.

Lemma explores_execute (ui : Ui) (seen : list (list value)) (drv : Driver) (sql : string)
    (params : list value) :
  explorer_statement ui seen sql params -> explores_from ui seen (execute drv sql params).
Proof.
  intros H s. exists [Execute sql params]. split; [| split; [exact H | exact I]].
  unfold execute. run. destruct (drv_execute drv (tick s) sql params); reflexivity.
Qed.

(** The text typed into the box is what the rest of the block goes on
    with, and the table picked in the finder's selector is one of the
    list the selector has offered. *)
Lemma explores_text_area (ui : Ui) (seen : list (list value)) {B : Type}
    (label default : string) (k : string -> M B) :
  explores_from ui seen (k (ui_text_area ui label default)) ->
  explores_from ui seen (bind (text_area ui label default) k).
Proof.
  intros Hk s. unfold text_area. run.
  destruct (Hk (State (trace s ++ [TextArea label default]) (tick s) (cursor s) (heap s)))
    as (l & Hl & Pl).
  exists (TextArea label default :: l). split; [| exact Pl].
  rewrite Hl. cbn [trace]. rewrite <- app_assoc. reflexivity.
Qed.

Lemma explores_table_selector (ui : Ui) (seen : list (list value)) {B : Type}
    (tables : list value) (k : value -> M B) :
  explores_from ui (tables :: seen) (k (picked ui tables)) ->
  explores_from ui seen (bind (selectbox ui "Select a table to view" tables) k).
Proof.
  intros Hk s. unfold selectbox. run.
  destruct (Hk (State (trace s ++ [Selectbox "Select a table to view" tables])
                  (tick s) (cursor s) (heap s))) as (l & Hl & Pl).
  exists (Selectbox "Select a table to view" tables :: l). split; [| exact Pl].
  unfold picked in Hl. rewrite Hl. cbn [trace]. rewrite <- app_assoc. reflexivity.
Qed.

Lemma explores_write_each (ui : Ui) (seen : list (list value)) (tables : list value) :
  explores_from ui seen (write_each tables).
Proof.
  induction tables as [| table rest IH]; cbn [write_each]; [apply explores_ret |].
  apply explores_bind; [apply explores_emit; exact I | intros _; exact IH].
Qed.

(** A statement of the page: one of its own, the text typed, or the look
    at the table just picked. *)
Ltac of_explorer :=
  split;
  [ reflexivity
  | first [ left; reflexivity
          | right; left; reflexivity
          | right; right; left; reflexivity
          | right; right; right; eexists; split; [left; reflexivity | reflexivity] ] ].

Ltac survey_step :=
  match goal with
  | |- explores_from _ _ (bind (text_area _ _ _) _) => apply explores_text_area
  | |- explores_from _ _ (bind (selectbox _ "Select a table to view" _) _) =>
      apply explores_table_selector
  | |- explores_from _ _ (write_each _) => apply explores_write_each
  | |- explores_from _ _ (bind _ _) => apply explores_bind; [| intros ?]
  | |- explores_from _ _ (try_except _ _) => apply explores_try; [| intros ?]
  | |- explores_from _ _ (when _ _) => apply explores_when
  | |- explores_from _ _ (ret _) => apply explores_ret
  | |- explores_from _ _ (raise _) => apply explores_raise
  | |- explores_from _ _ (lift _) => apply explores_lift
  | |- explores_from _ _ (alloc _) => apply explores_quiet; reflexivity
  | |- explores_from _ _ (load _) => apply explores_quiet; reflexivity
  | |- explores_from _ _ (store _ _) => apply explores_quiet; reflexivity
  | |- explores_from _ _ fetchone => apply explores_fetchone
  | |- explores_from _ _ fetchall => apply explores_fetchall
  | |- explores_from _ _ column_names => apply explores_column_names
  | |- explores_from _ _ (emit _) => apply explores_emit; exact I
  | |- explores_from _ _ (text _ _) => apply explores_emit; exact I
  | |- explores_from _ _ (conn_cursor _) => apply explores_conn_cursor
  | |- explores_from _ _ (execute _ _ _) => apply explores_execute; of_explorer
  | |- explores_from _ _ (let _ := _ in _) => cbv zeta
  | |- explores_from _ _ (match ?x with _ => _ end) => destruct x
  | |- explores_from _ _ (copy _) => unfold copy
  | |- explores_from _ _ (fetchone_0) => unfold fetchone_0
  | |- explores_from _ _ (fetchall_0) => unfold fetchall_0
  | |- explores_from _ _ (button _ _) => unfold button
  | |- explores_from _ _ (selectbox _ _ _) => unfold selectbox
  | |- explores_from _ _ (slider _ _ _ _) => unfold slider
  | |- explores_from _ _ (format_balance _ _) => unfold format_balance
  end.

Lemma display_data_explorer_explored (drv : Driver) (ui : Ui) :
  explores_from ui [] (display_data_explorer drv ui).
Proof.
  unfold display_data_explorer, filter_widgets, apply_filters, show_and_download,
    custom_query, run_query, table_finder.
  repeat survey_step.
Qed.

(** On the Data Explorer page the statements sent are the page's own
    two SELECTs, the text typed into the query box, sent as it is and
    without parameters, and SELECT TOP 1 * FROM followed by the name
    picked in the selector of the table finder: that selector has been
    drawn before the statement is sent, and the name is the entry of
    its list that the user picked. *)
Theorem explorer_sends_typed_text_verbatim (drv : Driver) (ui : Ui) (s : state) :
  exists l,
    trace (snd (display_data_explorer drv ui s)) = trace s ++ l
    /\ forall before sql params after,
         l = before ++ Execute sql params :: after ->
         params = []
         /\ (sql = "SELECT AccountNumber, Balance, AccountType FROM Accounts"
             \/ sql = "SELECT TABLE_NAME FROM INFORMATION_SCHEMA.TABLES WHERE TABLE_TYPE = 'BASE TABLE'"
             \/ sql = ui_text_area ui "Enter SQL Query" default_query
             \/ exists tables,
                  In (Selectbox "Select a table to view" tables) before
                  /\ sql = "SELECT TOP 1 * FROM "
                           +++ py_str (nth (ui_select ui "Select a table to view") tables
                                         (hd VNone tables))).
Proof.
  destruct (display_data_explorer_explored drv ui s) as (l & Hl & Pl).
  exists l. split; [exact Hl |]. intros before sql params after ->.
  destruct (explored_statement ui before after [] sql params Pl) as [Hparams Hsql].
  split; [exact Hparams |].
  destruct Hsql as [H1 | [H2 | [H3 | (tables & Hin & Hsql)]]];
    [left; exact H1 | right; left; exact H2 | right; right; left; exact H3 |].
  right; right; right. exists tables. split; [| exact Hsql].
  destruct Hin as [[] | Hin]. exact Hin.
Qed.

(** The look at a table, in a run: the finder offers the two names the
    driver returned, the user leaves the selector at the first and
    presses the button. *)
Example table_finder_looks_at_the_table_picked :
  trace (snd (table_finder catalog_driver busy_user initial))
  = [Text Subheader "Available Tables";
     Execute "SELECT TABLE_NAME FROM INFORMATION_SCHEMA.TABLES WHERE TABLE_TYPE = 'BASE TABLE'" [];
     Text Write "The following tables were found in your database:";
     Text Write "- Accounts";
     Text Write "- Customers";
     Selectbox "Select a table to view" [VStr "Accounts"; VStr "Customers"];
     Button "View Table Structure";
     Execute "SELECT TOP 1 * FROM Accounts" [];
     Text Write "Columns in Accounts:";
     Text Write "TABLE_NAME"].
Proof. vm_compute. reflexivity. Qed.

(** ** The connection is closed once, and last *)

Lemma emits_weaken (P Q : event -> Prop) {A : Type} (m : M A) :
  (forall e, P e -> Q e) -> emits P m -> emits Q m.
Proof.
  intros HPQ Hm s. destruct (Hm s) as (l & Hl & Pl). exists l. split; [exact Hl |].
  eapply Forall_impl; [exact HPQ | exact Pl].
Qed.

Lemma page_never_closes (drv : Driver) (ui : Ui) (page : string) :
  emits (fun e => e <> Close)
    (if String.eqb page "Dashboard" then display_dashboard drv
     else if String.eqb page "Account Details" then display_account_details drv ui
     else display_data_explorer drv ui).
Proof.
  destruct (String.eqb page "Dashboard"); [| destruct (String.eqb page "Account Details")].
  - apply (emits_weaken reads_only); [| apply display_dashboard_reads_only].
    intros [] H; try discriminate; contradiction.
  - apply (emits_weaken reads_only); [| apply display_account_details_reads_only].
    intros [] H; try discriminate; contradiction.
  - apply (emits_weaken (explores ui)); [| apply display_data_explorer_explores].
    intros [] H; try discriminate; contradiction.
Qed.

Lemma last_occurrence {A : Type} (c : A) (l before after : list A) :
  ~ In c l -> before ++ c :: after = l ++ [c] -> after = [] /\ before = l.
Proof.
  revert before. induction l as [| x l IH]; intros before Hnot H.
  - destruct before as [| b before]; cbn in H.
    + inversion H. split; reflexivity.
    + inversion H. destruct before; discriminate.
  - destruct before as [| b before]; cbn in H.
    + inversion H. subst. exfalso. apply Hnot. left. reflexivity.
    + inversion H. subst.
      destruct (IH before (fun Hin => Hnot (or_intror Hin)) H2) as [Ha Hb].
      subst. split; reflexivity.
Qed.

(** Settles a hypothesis that places [Close] in a list that has none. *)
Ltac absent Hin :=
  rewrite ?in_app_iff in Hin; cbn [In trace initial] in Hin;
  repeat match goal with
    | H : _ \/ _ |- _ => destruct H
    | H : False |- _ => contradiction
    | H : _ = Close |- _ => discriminate
    | H : In Close ?l, N : ~ In Close ?l |- _ => exact (N H)
    end.

Lemma not_in_forall {A : Type} (c : A) (l : list A) : Forall (fun e => e <> c) l -> ~ In c l.
Proof. intros H Hin. rewrite Forall_forall in H. exact (H c Hin eq_refl). Qed.

Lemma bind_emit {B : Type} (e : event) (k : unit -> M B) (s : state) :
  bind (emit e) k s = k tt (State (trace s ++ [e]) (tick s) (cursor s) (heap s)).
Proof. reflexivity. Qed.

Lemma bind_radio {B : Type} (ui : Ui) (label : string) (options : list string)
    (k : string -> M B) (s : state) :
  bind (radio ui label options) k s
  = k (nth (ui_radio ui label) options (hd "" options))
      (State (trace s ++ [Radio label options]) (tick s) (cursor s) (heap s)).
Proof. reflexivity. Qed.

(** What [connect_to_db] does with each answer of the driver. *)
Lemma connect_to_db_answers (drv : Driver) (getenv : string -> option string) (s : state) :
  connect_to_db drv getenv s =
    match drv_connect drv (conn_str getenv) with
    | Returns _ =>
        (Ret (Some Conn),
         State (trace s ++ [Connect (conn_str getenv)]) (S (tick s)) (cursor s) (heap s))
    | Raises e =>
        (Ret None,
         State (trace s ++ [Connect (conn_str getenv);
                            Text Error ("Error connecting to database: " +++ exn_msg e)])
               (S (tick s)) (cursor s) (heap s))
    | Hangs =>
        (Hang, State (trace s ++ [Connect (conn_str getenv)]) (S (tick s)) (cursor s) (heap s))
    end.
Proof.
  unfold connect_to_db. run.
  destruct (drv_connect drv (conn_str getenv)); run; rewrite ?app_two; reflexivity.
Qed.

Lemma connection_form_never_closes (ui : Ui) : emits (fun e => e <> Close) (connection_form ui).
Proof. unfold connection_form. trail ltac:(discriminate). Qed.

(** [main] up to the point where the driver has answered [connect]. *)
Lemma main_after_connect (drv : Driver) (ui : Ui) (getenv : string -> option string) :
  exists header page,
    header = [Text Markdown ("<p class=" +++ dq +++ "main-header" +++ dq
                               +++ ">Account Analytics Dashboard</p>");
              Text Markdown ("<p class=" +++ dq +++ "sub-header" +++ dq
                               +++ ">Financial account insights and monitoring system</p>");
              Text SidebarTitle "Navigation";
              Radio "Select a page:" ["Dashboard"; "Account Details"; "Data Explorer"];
              Connect (conn_str getenv)]
    /\ main drv ui getenv initial =
         match drv_connect drv (conn_str getenv) with
         | Returns _ =>
             bind (if String.eqb page "Dashboard" then display_dashboard drv
                   else if String.eqb page "Account Details"
                        then display_account_details drv ui
                        else display_data_explorer drv ui)
                  (fun _ => conn_close) (State header 1 None [])
         | Raises e =>
             connection_form ui
               (State (header ++ [Text Error ("Error connecting to database: " +++ exn_msg e)])
                      1 None [])
         | Hangs => (Hang, State header 1 None [])
         end.
Proof.
  eexists. eexists. split; [reflexivity |].
  unfold main, text. rewrite !bind_emit, bind_radio.
  unfold bind at 1. rewrite connect_to_db_answers.
  destruct (drv_connect drv (conn_str getenv)); reflexivity.
Qed.

(** In every run of [main]: the connection is closed exactly when it
    was opened and the page came to its end; it is closed once, and
    nothing follows.  A run that stops at a statement the driver never
    answers leaves the connection open. *)
Theorem close_once_and_last (drv : Driver) (ui : Ui) (getenv : string -> option string) :
  (In Close (trace (snd (main drv ui getenv initial)))
   <-> fst (main drv ui getenv initial) = Ret tt
       /\ drv_connect drv (conn_str getenv) = Returns tt)
  /\ (forall before after,
         trace (snd (main drv ui getenv initial)) = before ++ Close :: after ->
         after = [] /\ ~ In Close before).
Proof.
  destruct (main_after_connect drv ui getenv) as (header & page & Hheader & ->).
  assert (Hh : ~ In Close header) by (rewrite Hheader; intros Hin; absent Hin).
  clear Hheader.
  destruct (drv_connect drv (conn_str getenv)) as [[] | e |] eqn:Hconnect.
  - unfold bind, conn_close, emit.
    destruct (page_never_closes drv ui page (State header 1 None [])) as (l & Hl & Pl).
    destruct ((if String.eqb page "Dashboard" then display_dashboard drv
               else if String.eqb page "Account Details"
                    then display_account_details drv ui
                    else display_data_explorer drv ui) (State header 1 None []))
      as [[[] | e |] s1];
      cbn [snd fst trace] in *; apply not_in_forall in Pl;
      (assert (Hno : ~ In Close (trace s1)) by (rewrite Hl; intros Hin; absent Hin)).
    + split.
      * split; [intros _; split; reflexivity |
                intros _; apply in_or_app; right; left; reflexivity].
      * intros before after H. symmetry in H.
        apply (last_occurrence Close (trace s1)) in H; [| exact Hno].
        destruct H as [-> ->]. split; [reflexivity | exact Hno].
    + split; [split; [intros Hin; contradiction | intros [Hret _]; discriminate] |].
      intros before after H. exfalso. apply Hno. rewrite H. apply in_or_app. right. left.
      reflexivity.
    + split; [split; [intros Hin; contradiction | intros [Hret _]; discriminate] |].
      intros before after H. exfalso. apply Hno. rewrite H. apply in_or_app. right. left.
      reflexivity.
  - match goal with
    | |- context [connection_form ui ?s0] =>
        destruct (connection_form_never_closes ui s0) as (l & Hl & Pl);
        destruct (connection_form ui s0) as [o s1]
    end; cbn [snd fst trace] in *; apply not_in_forall in Pl;
      (assert (Hno : ~ In Close (trace s1)) by (rewrite Hl; intros Hin; absent Hin)).
    split; [split; [intros Hin; contradiction | intros [_ H]; discriminate] |].
    intros before after H. exfalso. apply Hno. rewrite H. apply in_or_app. right. left.
    reflexivity.
  - cbn [fst snd trace].
    split; [split; [intros Hin; contradiction | intros [H _]; discriminate] |].
    intros before after H. exfalso. apply Hh. rewrite H. apply in_or_app. right. left.
    reflexivity.
Qed.

(** ** The simulated account actions *)

(** Whatever buttons are pressed, the account actions (deposit,
    withdrawal, statement) make no call to the driver: they only draw,
    and leave the cursor and the frames as they were. *)
Theorem account_actions_only_draw (ui : Ui) (selected_account : value) (s : state) :
  exists l,
    account_actions ui selected_account s =
      (Ret tt, State (trace s ++ l) (tick s) (cursor s) (heap s))
    /\ Forall draws l.
Proof.
  unfold account_actions.
  change (format_comma_2f (VFloat 10000)) with (@Ok string "100.00").
  change (format_comma_2f (VFloat 5000)) with (@Ok string "50.00").
  run.
  destruct (ui_button ui "Simulate Deposit"), (ui_button ui "Simulate Withdrawal"),
    (ui_button ui "Generate Statement"); run; rewrite <- ?app_assoc; cbn [app];
    (eexists; split; [reflexivity | repeat constructor]).
Qed.

(** ** The dashboard without a single balance *)

Lemma format_comma_int (n : Z) :
  format_comma (VInt n) = Ok (sign_of n +++ thousands (string_of_Z (Z.abs n))).
Proof. reflexivity. Qed.

(** Over a table in which no account has a balance (the empty table
    among them) SUM(Balance) is NULL, the total cannot be formatted, and
    the dashboard stops after the first metric: it shows the error block
    and draws no chart and no table. *)
Theorem dashboard_without_balances (t : list Account) (s : state) :
  sql_sum (map Balance t) = None ->
  exists s',
    display_dashboard (table_driver t) s = (Ret tt, s')
    /\ trace s' =
         trace s ++
         [Text Subheader "Key Metrics";
          Cursor;
          Execute "SELECT COUNT(*) FROM Accounts" [];
          Execute "SELECT SUM(Balance) FROM Accounts" [];
          Execute "SELECT AVG(Balance) FROM Accounts" [];
          Columns 3;
          Text Markdown metric_open;
          Metric "Total Accounts" (thousands (string_of_Z (Z.of_nat (length t))));
          Text Markdown "</div>";
          Text Markdown metric_open;
          Text Error "Error fetching dashboard data: unsupported format string passed to NoneType.__format__";
          Text Error "Detailed error information for debugging:";
          Text ExceptionBox "TypeError: unsupported format string passed to NoneType.__format__";
          Text Info "This dashboard is configured for a specific database schema. You may need to modify the queries to match your actual schema."]
    /\ heap s' = heap s.
Proof.
  intros Hsum. unfold display_dashboard, key_metrics. run.
  cbn [drv_cursor drv_execute table_driver]. run.
  change (table_execute t "SELECT COUNT(*) FROM Accounts" [])
    with (scalar (VInt (Z.of_nat (length t)))).
  change (table_execute t "SELECT SUM(Balance) FROM Accounts" [])
    with (scalar (sql_decimal (sql_sum (map Balance t)))).
  change (table_execute t "SELECT AVG(Balance) FROM Accounts" [])
    with (scalar (sql_decimal (sql_avg (map Balance t)))).
  unfold scalar. run. cbn [first_of]. run.
  rewrite format_comma_int. run. rewrite Hsum. cbn [sql_decimal format_comma_2f]. run.
  replace (sign_of (Z.of_nat (length t))) with "".
  2:{ unfold sign_of. destruct (Z.of_nat (length t) <? 0) eqn:E; [| reflexivity].
      apply Z.ltb_lt in E. lia. }
  rewrite Z.abs_eq by lia.
  eexists. split; [reflexivity |]. cbn [trace heap]. split; [| reflexivity].
  rewrite <- !app_assoc. reflexivity.
Qed.

Lemma dashboard_without_balances_witness :
  sql_sum (map Balance [savings_2]) = None
  /\ exists s',
       display_dashboard (table_driver [savings_2]) initial = (Ret tt, s')
       /\ trace s' =
            trace initial ++
            [Text Subheader "Key Metrics";
             Cursor;
             Execute "SELECT COUNT(*) FROM Accounts" [];
             Execute "SELECT SUM(Balance) FROM Accounts" [];
             Execute "SELECT AVG(Balance) FROM Accounts" [];
             Columns 3;
             Text Markdown metric_open;
             Metric "Total Accounts"
               (thousands (string_of_Z (Z.of_nat (length [savings_2]))));
             Text Markdown "</div>";
             Text Markdown metric_open;
             Text Error "Error fetching dashboard data: unsupported format string passed to NoneType.__format__";
             Text Error "Detailed error information for debugging:";
             Text ExceptionBox "TypeError: unsupported format string passed to NoneType.__format__";
             Text Info "This dashboard is configured for a specific database schema. You may need to modify the queries to match your actual schema."]
       /\ heap s' = heap initial.
Proof.
  split; [reflexivity | apply (dashboard_without_balances [savings_2] initial); reflexivity].
Defined.

(** ** The balance distribution *)

Lemma first_of_cells (l : list value) :
  apply first_of (map (fun b => [b]) l) = Ok l.
Proof. induction l as [| a l IH]; simpl; [reflexivity | rewrite IH; reflexivity]. Qed.

Lemma rows_of_numbered (f : nat -> value) (a : nat) (l : list value) :
  map (fun i => [nth i l VNone; nth i (map f (seq a (length l))) VNone]) (seq 0 (length l))
  = zip_with (fun x i => [x; f i]) l (seq a (length l)).
Proof.
  revert a. induction l as [| x l IH]; intros a; [reflexivity |].
  cbn [length seq map nth zip_with]. f_equal.
  rewrite <- (seq_shift (length l) 0), map_map. cbn [nth]. apply IH.
Qed.

Lemma zip_numbered (a : nat) (l : list value) :
  zip_with (fun x i => [x; VInt (Z.of_nat i)]) l (seq a (length l)) = numbered a l.
Proof.
  revert a. induction l as [| x l IH]; intros a; [reflexivity |].
  cbn [length seq zip_with numbered]. rewrite IH. reflexivity.
Qed.

(** The box plot is drawn from a frame with one row per balance
    fetched, in the order fetched, each with its position counted from
    1 as ID. *)
Theorem balance_distribution_numbers_rows (drv : Driver) (d : list string)
    (balances : list value) (s : state) :
  drv_execute drv (tick s) "SELECT Balance FROM Accounts" []
    = Returns (Some (Results d (map (fun b => [b]) balances))) ->
  balance_distribution drv s =
    (Ret tt,
     State (trace s ++
              [Text Subheader "Balance Distribution";
               Execute "SELECT Balance FROM Accounts" [];
               Chart Box "Account Balance Distribution"
                 (Frame ["Balance"; "ID"] (numbered 1 balances))])
           (S (tick s)) (Some (Results d []))
           (heap s ++ [Frame ["Balance"; "ID"] (numbered 1 balances)])).
Proof.
  intros H. unfold balance_distribution. run. rewrite H. run.
  rewrite first_of_cells. run.
  unfold frame_of_columns. cbn [forallb snd map fst].
  rewrite !length_map, length_seq, Nat.eqb_refl. cbn [andb]. run.
  rewrite nth_just_allocated.
  rewrite (rows_of_numbered (fun i => VInt (Z.of_nat i)) 1 balances), zip_numbered.
  rewrite <- !app_assoc. reflexivity.
Qed.

Lemma balance_distribution_numbers_rows_witness :
  drv_execute (table_driver [savings; checking]) (tick initial) "SELECT Balance FROM Accounts" []
    = Returns (Some (Results ["Balance"]
                       (map (fun b => [b]) [VDecimal 123450; VDecimal 50000])))
  /\ balance_distribution (table_driver [savings; checking]) initial =
       (Ret tt,
        State (trace initial ++
                 [Text Subheader "Balance Distribution";
                  Execute "SELECT Balance FROM Accounts" [];
                  Chart Box "Account Balance Distribution"
                    (Frame ["Balance"; "ID"]
                       (numbered 1 [VDecimal 123450; VDecimal 50000]))])
              (S (tick initial)) (Some (Results ["Balance"] []))
              (heap initial ++ [Frame ["Balance"; "ID"]
                                  (numbered 1 [VDecimal 123450; VDecimal 50000])])).
Proof.
  split; [reflexivity |].
  apply (balance_distribution_numbers_rows (table_driver [savings; checking]) ["Balance"]).
  reflexivity.
Defined.

(** ** More of the ad-hoc query block *)

(** A statement that is not a query (an UPDATE, say) is sent to the
    driver all the same; it has no result set, reading the column names
    fails, and the user is shown an error although the statement ran. *)
Theorem non_query_runs_and_reports_error (drv : Driver) (sql : string) (s : state) :
  drv_execute drv (tick s) sql [] = Returns None ->
  run_query drv sql s =
    (Ret tt,
     State (trace s ++
              [Execute sql [];
               Text Error "Error executing query: 'NoneType' object is not iterable"])
           (S (tick s)) None (heap s)).
Proof.
  intros H. unfold run_query. run. rewrite H. run. rewrite app_two. reflexivity.
Qed.

(** A query without rows draws neither table nor download, only the
    note that there are no results; no frame is built. *)
Theorem empty_result_is_only_noted (drv : Driver) (sql : string) (d : list string)
    (s : state) :
  drv_execute drv (tick s) sql [] = Returns (Some (Results d [])) ->
  run_query drv sql s =
    (Ret tt,
     State (trace s ++ [Execute sql []; Text Info "Query returned no results"])
           (S (tick s)) (Some (Results d [])) (heap s)).
Proof.
  intros H. unfold run_query. run. rewrite H. run. rewrite app_two. reflexivity.
Qed.

Lemma non_query_runs_and_reports_error_witness :
  drv_execute statement_driver (tick initial) "UPDATE Accounts SET Balance = 0" []
    = Returns None
  /\ run_query statement_driver "UPDATE Accounts SET Balance = 0" initial =
       (Ret tt,
        State (trace initial ++
                 [Execute "UPDATE Accounts SET Balance = 0" [];
                  Text Error "Error executing query: 'NoneType' object is not iterable"])
              (S (tick initial)) None (heap initial)).
Proof.
  split; [reflexivity |].
  apply (non_query_runs_and_reports_error statement_driver); reflexivity.
Defined.

Lemma empty_result_is_only_noted_witness :
  drv_execute (table_driver []) (tick initial)
      "SELECT AccountNumber, Balance, AccountType FROM Accounts" []
    = Returns (Some (Results account_columns []))
  /\ run_query (table_driver []) "SELECT AccountNumber, Balance, AccountType FROM Accounts"
       initial =
       (Ret tt,
        State (trace initial ++
                 [Execute "SELECT AccountNumber, Balance, AccountType FROM Accounts" [];
                  Text Info "Query returned no results"])
              (S (tick initial)) (Some (Results account_columns [])) (heap initial)).
Proof.
  split; [reflexivity |].
  apply (empty_result_is_only_noted (table_driver []) _ account_columns); reflexivity.
Defined.

Lemma index_of_lt (name : string) (l : list string) (i : nat) :
  index_of name l = Some i -> (i < length l)%nat.
Proof.
  revert i. induction l as [| x l IH]; intros i; cbn [index_of]; [discriminate |].
  destruct (String.eqb x name); [intros H; inversion H; cbn; lia |].
  destruct (index_of name l) as [j |]; [| discriminate].
  intros H. inversion H. specialize (IH j eq_refl). cbn. lia.
Qed.

Lemma replace_nth_same {A : Type} (i : nat) (d : A) (l : list A) :
  (i < length l)%nat -> replace_nth i (nth i l d) l = l.
Proof.
  revert i. induction l as [| x l IH]; intros i Hi; [cbn in Hi; lia |].
  destruct i; cbn; [reflexivity |]. rewrite IH by (cbn in Hi; lia). reflexivity.
Qed.

Lemma set_column_same (cols : list string) (data : list (list value)) (name : string)
    (i : nat) :
  index_of name cols = Some i ->
  Forall (fun r => length r = length cols) data ->
  set_column (Frame cols data) name (map (fun r => nth i r VNone) data) = Frame cols data.
Proof.
  intros Hi Hall. unfold set_column. cbn [columns rows]. rewrite Hi. f_equal.
  apply index_of_lt in Hi.
  induction Hall as [| r rest Hr Hrest IH]; [reflexivity |].
  cbn [map zip_with]. rewrite IH, replace_nth_same by (rewrite Hr; exact Hi). reflexivity.
Qed.

Lemma apply_unchanged (f : value -> res value) (l : list value) :
  Forall (fun x => f x = Ok x) l -> apply f l = Ok l.
Proof.
  intros H. induction H as [| x l Hx Hl IH]; [reflexivity |].
  cbn [apply]. rewrite Hx, IH. reflexivity.
Qed.

(** When the columns of the ad-hoc statement's result have names that
    differ from one another and are columns that pandas holds as
    fetched, their floats being doubles of amounts of at most fifteen
    digits, and the result has no column called Balance, or that column
    holds no int and no float (decimals, text and NULL are left alone
    by line 536), the table shows the rows as fetched and the download
    is the CSV of exactly those rows. *)
Theorem query_results_exported_as_fetched (drv : Driver) (sql : string)
    (cols : list string) (first : list value) (others : list (list value)) (s : state) :
  drv_execute drv (tick s) sql [] = Returns (Some (Results cols (first :: others))) ->
  NoDup cols ->
  Forall (fun row => length row = length cols) (first :: others) ->
  held_as_fetched (length cols) (first :: others) ->
  Forall (Forall printable) (first :: others) ->
  (forall j, index_of "Balance" cols = Some j ->
             Forall (fun row => is_int_or_float (nth j row VNone) = false) (first :: others)) ->
  run_query drv sql s =
    (Ret tt,
     State (trace s ++
              [Execute sql [];
               Table (Frame cols (first :: others));
               Download "Download Query Results" (to_csv (Frame cols (first :: others)))
                 "query_results.csv" "text/csv"])
           (S (tick s)) (Some (Results cols []))
           (heap s ++ [Frame cols (first :: others)])).
Proof.
  intros H _ Hwide _ _ Hplain. unfold run_query. run. rewrite H. run. cbn [description pending].
  rewrite (frame_of_uniform_rows _ _ _ Hwide) by reflexivity. run.
  unfold format_balance. run. rewrite nth_just_allocated.
  unfold has_column, column. cbn [columns rows].
  destruct (index_of "Balance" cols) as [j |] eqn:Hj; run.
  - rewrite apply_unchanged.
    + run. rewrite (set_column_same _ _ _ _ Hj Hwide), replace_just_allocated.
      rewrite nth_just_allocated, app_three. reflexivity.
    + apply Forall_map. eapply Forall_impl; [| exact (Hplain j eq_refl)].
      intros row Hrow. unfold currency_if_number. cbv beta in Hrow. rewrite Hrow.
      reflexivity.
  - rewrite nth_just_allocated, app_three. reflexivity.
Qed.

Lemma query_results_exported_as_fetched_witness :
  drv_execute (table_driver [savings]) (tick initial)
      "SELECT AccountNumber, Balance, AccountType FROM Accounts" []
    = Returns (Some (Results account_columns
                       ([VStr "ACC-1"; VDecimal 123450; VStr "Savings"] :: [])))
  /\ NoDup account_columns
  /\ Forall (fun row => length row = length account_columns)
       ([VStr "ACC-1"; VDecimal 123450; VStr "Savings"] :: [])
  /\ held_as_fetched (length account_columns)
       ([VStr "ACC-1"; VDecimal 123450; VStr "Savings"] :: [])
  /\ Forall (Forall printable) ([VStr "ACC-1"; VDecimal 123450; VStr "Savings"] :: [])
  /\ (forall j, index_of "Balance" account_columns = Some j ->
                Forall (fun row => is_int_or_float (nth j row VNone) = false)
                  ([VStr "ACC-1"; VDecimal 123450; VStr "Savings"] :: []))
  /\ run_query (table_driver [savings])
       "SELECT AccountNumber, Balance, AccountType FROM Accounts" initial =
       (Ret tt,
        State (trace initial ++
                 [Execute "SELECT AccountNumber, Balance, AccountType FROM Accounts" [];
                  Table (Frame account_columns
                           ([VStr "ACC-1"; VDecimal 123450; VStr "Savings"] :: []));
                  Download "Download Query Results"
                    (to_csv (Frame account_columns
                               ([VStr "ACC-1"; VDecimal 123450; VStr "Savings"] :: [])))
                    "query_results.csv" "text/csv"])
              (S (tick initial)) (Some (Results account_columns []))
              (heap initial ++ [Frame account_columns
                                  ([VStr "ACC-1"; VDecimal 123450; VStr "Savings"] :: [])])).
Proof.
  assert (H1 : drv_execute (table_driver [savings]) (tick initial)
                 "SELECT AccountNumber, Balance, AccountType FROM Accounts" []
               = Returns (Some (Results account_columns
                                  ([VStr "ACC-1"; VDecimal 123450; VStr "Savings"] :: []))))
    by reflexivity.
  assert (Hn : NoDup account_columns).
  { unfold account_columns. repeat constructor; simpl; intuition discriminate. }
  assert (H2 : Forall (fun row => length row = length account_columns)
                 ([VStr "ACC-1"; VDecimal 123450; VStr "Savings"] :: []))
    by (repeat constructor).
  assert (Hf : held_as_fetched (length account_columns)
                 ([VStr "ACC-1"; VDecimal 123450; VStr "Savings"] :: [])).
  { intros i Hi. cbn [length account_columns] in Hi.
    assert (Hcases : i = 0%nat \/ i = 1%nat \/ i = 2%nat) by lia.
    destruct Hcases as [-> | [-> | ->]]; reflexivity. }
  assert (Hp : Forall (Forall printable)
                 ([VStr "ACC-1"; VDecimal 123450; VStr "Savings"] :: []))
    by (repeat constructor).
  assert (H3 : forall j, index_of "Balance" account_columns = Some j ->
                 Forall (fun row => is_int_or_float (nth j row VNone) = false)
                   ([VStr "ACC-1"; VDecimal 123450; VStr "Savings"] :: []))
    by (intros j Hj; vm_compute in Hj; inversion Hj; repeat constructor).
  exact (conj H1 (conj Hn (conj H2 (conj Hf (conj Hp (conj H3
           (query_results_exported_as_fetched (table_driver [savings]) _ _ _ _ initial
              H1 Hn H2 Hf Hp H3))))))).
Defined.

(** What the download reads like for each kind of column held as
    fetched: text, a Decimal and a NULL, ints, and floats up to the
    largest. *)
Example csv_of_columns_held_as_fetched :
  to_csv (Frame ["Name"; "Balance"; "ID"; "Rate"]
            [[VStr "A, B"; VDecimal 123450; VInt 1; VFloat 150];
             [VStr "C"; VNone; VInt 2; VFloat 1000000000000000000]])
  = "Name,Balance,ID,Rate" +++ nl
    +++ dq +++ "A, B" +++ dq +++ ",1234.50,1,1.5" +++ nl
    +++ "C,,2,1e+16" +++ nl.
Proof. vm_compute. reflexivity. Qed.

(** ** More of the Account Details page *)

(** With no account in the table the selector is empty, nothing is
    selected, and the page ends there: no detail statement is sent. *)
Theorem no_accounts_nothing_to_select (drv : Driver) (ui : Ui) (d : list string)
    (s : state) :
  drv_cursor drv (tick s) = Returns tt ->
  drv_execute drv (S (tick s)) "SELECT AccountNumber FROM Accounts" []
    = Returns (Some (Results d [])) ->
  display_account_details drv ui s =
    (Ret tt,
     State (trace s ++
              [Text Subheader "Account Details";
               Cursor;
               Execute "SELECT AccountNumber FROM Accounts" [];
               Selectbox "Select an account" []])
           (S (S (tick s))) (Some (Results d [])) (heap s)).
Proof.
  intros Hc He. unfold display_account_details, select_account, account_details. run.
  rewrite Hc. run. rewrite He. run. cbn [apply nth hd]. run.
  destruct (ui_select ui "Select an account"); cbn [truthy]; run;
    rewrite <- !app_assoc; reflexivity.
Qed.

Lemma no_accounts_nothing_to_select_witness :
  drv_cursor (table_driver []) (tick initial) = Returns tt
  /\ drv_execute (table_driver []) (S (tick initial)) "SELECT AccountNumber FROM Accounts" []
       = Returns (Some (Results ["AccountNumber"] []))
  /\ display_account_details (table_driver []) busy_user initial =
       (Ret tt,
        State (trace initial ++
                 [Text Subheader "Account Details";
                  Cursor;
                  Execute "SELECT AccountNumber FROM Accounts" [];
                  Selectbox "Select an account" []])
              (S (S (tick initial))) (Some (Results ["AccountNumber"] [])) (heap initial)).
Proof.
  split; [reflexivity |]. split; [reflexivity |].
  apply (no_accounts_nothing_to_select (table_driver []) busy_user ["AccountNumber"] initial);
    reflexivity.
Defined.

(** When the detail statement finds no row for the account selected,
    the page says so and shows nothing else: no fields, no chart, no
    actions. *)
Theorem missing_account_is_reported (drv : Driver) (ui : Ui) (selected_account : value)
    (d : list string) (s : state) :
  truthy selected_account = true ->
  drv_execute drv (tick s) details_sql [selected_account] = Returns (Some (Results d [])) ->
  account_details drv ui selected_account s =
    (Ret tt,
     State (trace s ++
              [Execute details_sql [selected_account];
               Text Warning ("Account " +++ py_str selected_account +++ " not found")])
           (S (tick s)) (Some (Results d [])) (heap s)).
Proof.
  intros Ht He. unfold account_details. rewrite Ht. run. rewrite He. run.
  rewrite app_two. reflexivity.
Qed.

Lemma missing_account_is_reported_witness :
  truthy (VStr "ACC-10001") = true
  /\ drv_execute (table_driver [savings]) (tick initial) details_sql [VStr "ACC-10001"]
       = Returns (Some (Results account_columns []))
  /\ account_details (table_driver [savings]) busy_user (VStr "ACC-10001") initial =
       (Ret tt,
        State (trace initial ++
                 [Execute details_sql [VStr "ACC-10001"];
                  Text Warning ("Account " +++ py_str (VStr "ACC-10001") +++ " not found")])
              (S (tick initial)) (Some (Results account_columns [])) (heap initial)).
Proof.
  split; [reflexivity |]. split; [reflexivity |].
  apply (missing_account_is_reported (table_driver [savings]) busy_user (VStr "ACC-10001")
           account_columns initial); reflexivity.
Defined.

(** When the average by type cannot be fetched, the comparison chart is
    given up for a warning and the driver's message, and the block
    returns, so the account actions below it are still drawn. *)
Theorem comparison_failure_is_contained (drv : Driver) (details : dict value)
    (selected_account balance account_type : value) (e : exn) (s : state) :
  dict_get details (VStr "Balance") = Some balance ->
  dict_get details (VStr "AccountType") = Some account_type ->
  drv_execute drv (tick s) avg_by_type_sql [account_type] = Raises e ->
  balance_comparison drv details selected_account s =
    (Ret tt,
     State (trace s ++
              [Text Subheader "Balance Comparison";
               Execute avg_by_type_sql [account_type];
               Text Warning "Couldn't generate comparison chart. Some data may be missing.";
               Text Error (exn_msg e)])
           (S (tick s)) None (heap s)).
Proof.
  intros Hb Ht He. unfold balance_comparison. rewrite Hb, Ht. run. rewrite He. run.
  rewrite <- !app_assoc. reflexivity.
Qed.

Lemma comparison_failure_is_contained_witness :
  dict_get [(VStr "Balance", VDecimal 500); (VStr "AccountType", VStr "Savings")]
    (VStr "Balance") = Some (VDecimal 500)
  /\ dict_get [(VStr "Balance", VDecimal 500); (VStr "AccountType", VStr "Savings")]
       (VStr "AccountType") = Some (VStr "Savings")
  /\ drv_execute rejecting_driver (tick initial) avg_by_type_sql [VStr "Savings"]
       = Raises syntax_error
  /\ balance_comparison rejecting_driver
       [(VStr "Balance", VDecimal 500); (VStr "AccountType", VStr "Savings")]
       (VStr "ACC-1") initial =
       (Ret tt,
        State (trace initial ++
                 [Text Subheader "Balance Comparison";
                  Execute avg_by_type_sql [VStr "Savings"];
                  Text Warning "Couldn't generate comparison chart. Some data may be missing.";
                  Text Error (exn_msg syntax_error)])
              (S (tick initial)) None (heap initial)).
Proof.
  split; [reflexivity |]. split; [reflexivity |]. split; [reflexivity |].
  apply (comparison_failure_is_contained rejecting_driver _ (VStr "ACC-1") (VDecimal 500)
           (VStr "Savings") syntax_error initial); reflexivity.
Defined.

(** ** One statement per account type *)

Lemma count_account_types_statements (t : list Account) (rest seen : list value)
    (base : list event) (s : state) :
  trace s = base ++ map (fun g => Execute "SELECT SUM(Balance) FROM Accounts WHERE AccountType = ?" [g])
                      (first_seen seen) ->
  trace (snd (count_account_types (table_driver t) rest
                (map (fun g => (g, occurrences g seen)) (first_seen seen))
                (map (fun g => (g, stored_balance t g)) (first_seen seen)) s))
  = base ++ map (fun g => Execute "SELECT SUM(Balance) FROM Accounts WHERE AccountType = ?" [g])
              (first_seen (seen ++ rest)).
Proof.
  revert seen s. induction rest as [| x rest IH]; intros seen s Htrace.
  - rewrite app_nil_r. exact Htrace.
  - replace (seen ++ x :: rest) with ((seen ++ [x]) ++ rest)
      by (rewrite <- app_assoc; reflexivity).
    cbn [count_account_types].
    pose proof (first_seen_snoc seen x) as Hsnoc.
    destruct (mem x seen) eqn:Eseen.
    + assert (Efs : mem x (first_seen seen) = true) by (rewrite mem_first_seen; exact Eseen).
      destruct (dict_get_seen (fun g => occurrences g seen) _ _ Efs) as (g0 & Hg0 & Hget).
      rewrite Hget.
      rewrite (dict_set_seen _ _ _ _ (distinct_first_seen seen) Efs).
      replace (map (fun g => (g, if py_eqb g x then occurrences g0 seen + 1
                                 else occurrences g seen)) (first_seen seen))
        with (map (fun g => (g, occurrences g (seen ++ [x]))) (first_seen (seen ++ [x]))).
      * rewrite <- Hsnoc. apply IH. rewrite Hsnoc. exact Htrace.
      * rewrite Hsnoc. apply map_ext. intros g. rewrite occurrences_snoc, (py_eqb_sym x g).
        destruct (py_eqb g x) eqn:Eg; [| rewrite Z.add_0_r; reflexivity].
        rewrite (occurrences_eq g0 g); [reflexivity |].
        rewrite (py_eqb_subst g0 x g Hg0), py_eqb_sym. exact Eg.
    + assert (Efs : mem x (first_seen seen) = false) by (rewrite mem_first_seen; exact Eseen).
      rewrite (dict_get_unseen _ _ _ Efs).
      rewrite sum_by_type. fold (stored_balance t x).
      rewrite !(dict_set_unseen _ _ _ _ Efs).
      match goal with
      | |- context [count_account_types _ _ ?c ?b ?s1] =>
          replace c with (map (fun g => (g, occurrences g (seen ++ [x])))
                            (first_seen (seen ++ [x])));
          [ replace b with (map (fun g => (g, stored_balance t g)) (first_seen (seen ++ [x])));
            [ apply (IH (seen ++ [x]) s1) | ] | ]
      end.
      * cbn [trace]. rewrite Htrace, Hsnoc, map_app, <- app_assoc. reflexivity.
      * rewrite Hsnoc, map_app. reflexivity.
      * rewrite Hsnoc, map_app. cbn [map]. f_equal.
        -- apply map_ext_in. intros g Hg. rewrite occurrences_snoc.
           rewrite mem_false in Efs. rewrite py_eqb_sym, (Efs g Hg), Z.add_0_r. reflexivity.
        -- rewrite occurrences_snoc, py_eqb_refl, (occurrences_unseen x seen Eseen).
           reflexivity.
Qed.

(** The dashboard asks for the account types once and then sends one
    SUM statement per distinct type, in the order the types are first
    met, with the type as its parameter: as many statements as there
    are types, not as there are accounts. *)
Theorem one_sum_statement_per_type (t : list Account) (s : state) :
  trace (snd (accounts_by_type (table_driver t) s))
  = trace s
    ++ Execute "SELECT AccountType FROM Accounts" []
    :: map (fun g => Execute "SELECT SUM(Balance) FROM Accounts WHERE AccountType = ?" [g])
         (first_seen (map type_value t)).
Proof.
  unfold accounts_by_type. rewrite types_query. unfold bind at 1.
  match goal with
  | |- context [count_account_types _ _ _ _ ?s1] =>
      pose proof (count_account_types_statements t (map type_value t) []
                    (trace s ++ [Execute "SELECT AccountType FROM Accounts" []]) s1) as Hst;
      destruct (count_account_types_tabulates t (map type_value t) [] s1)
        as (s2 & Hrun & Hheap)
  end.
  cbn [app first_seen map trace] in Hst, Hrun. rewrite app_nil_r in Hst.
  specialize (Hst eq_refl). rewrite Hrun in *. cbn [fst snd] in *.
  rewrite frame_of_tabulated. run. rewrite Hst, <- app_assoc. reflexivity.
Qed.

(** ** The table finder *)

Lemma write_each_run (tables : list value) (s : state) :
  write_each tables s =
    (Ret tt,
     State (trace s ++ map (fun table => Text Write ("- " +++ py_str table)) tables)
           (tick s) (cursor s) (heap s)).
Proof.
  revert s. induction tables as [| table rest IH]; intros s; cbn [write_each map].
  - rewrite app_nil_r. destruct s; reflexivity.
  - unfold text. rewrite bind_emit. rewrite IH. cbn [trace tick cursor heap].
    rewrite <- app_assoc. reflexivity.
Qed.

(** The table finder lists every table name the metadata statement
    returned, in the order returned, and offers the same names in its
    selector; when the statement returns none it says that no tables
    were found. *)
Theorem table_finder_lists_what_it_found (drv : Driver) (ui : Ui) (d : list string)
    (names : list value) (s : state) :
  drv_execute drv (tick s)
      "SELECT TABLE_NAME FROM INFORMATION_SCHEMA.TABLES WHERE TABLE_TYPE = 'BASE TABLE'" []
    = Returns (Some (Results d (map (fun name => [name]) names))) ->
  ui_button ui "View Table Structure" = false ->
  table_finder drv ui s =
    (Ret tt,
     State (trace s ++
              [Text Subheader "Available Tables";
               Execute "SELECT TABLE_NAME FROM INFORMATION_SCHEMA.TABLES WHERE TABLE_TYPE = 'BASE TABLE'" []]
              ++ match names with
                 | [] => [Text Warning "No tables found in the database."]
                 | _ :: _ =>
                     Text Write "The following tables were found in your database:"
                     :: map (fun table => Text Write ("- " +++ py_str table)) names
                     ++ [Selectbox "Select a table to view" names;
                         Button "View Table Structure"]
                 end)
           (S (tick s)) (Some (Results d [])) (heap s)).
Proof.
  intros He Hb. unfold table_finder. run. rewrite He. run.
  rewrite first_of_singletons. rewrite map_id. run.
  destruct names as [| name names].
  - run. rewrite <- !app_assoc. reflexivity.
  - run. rewrite write_each_run. run. rewrite Hb. run.
    rewrite <- !app_assoc. reflexivity.
Qed.

Lemma table_finder_lists_what_it_found_witness :
  drv_execute catalog_driver (tick initial)
      "SELECT TABLE_NAME FROM INFORMATION_SCHEMA.TABLES WHERE TABLE_TYPE = 'BASE TABLE'" []
    = Returns (Some (Results ["TABLE_NAME"] (map (fun name => [name]) [VStr "Accounts"; VStr "Customers"])))
  /\ ui_button idle_user "View Table Structure" = false
  /\ table_finder catalog_driver idle_user initial =
       (Ret tt,
        State (trace initial ++
                 [Text Subheader "Available Tables";
                  Execute "SELECT TABLE_NAME FROM INFORMATION_SCHEMA.TABLES WHERE TABLE_TYPE = 'BASE TABLE'" []]
                 ++ match [VStr "Accounts"; VStr "Customers"] with
                    | [] => [Text Warning "No tables found in the database."]
                    | _ :: _ =>
                        Text Write "The following tables were found in your database:"
                        :: map (fun table => Text Write ("- " +++ py_str table)) [VStr "Accounts"; VStr "Customers"]
                        ++ [Selectbox "Select a table to view" [VStr "Accounts"; VStr "Customers"];
                            Button "View Table Structure"]
                    end)
              (S (tick initial)) (Some (Results ["TABLE_NAME"] [])) (heap initial)).
Proof.
  split; [reflexivity |]. split; [reflexivity |].
  apply (table_finder_lists_what_it_found catalog_driver idle_user ["TABLE_NAME"]
           [VStr "Accounts"; VStr "Customers"] initial); reflexivity.
Defined.

Lemma never_raises_table_finder (drv : Driver) (ui : Ui) : never_raises (table_finder drv ui).
Proof. unfold table_finder. quiet. Qed.

(** When the page's own statement over Accounts is rejected, the Data
    Explorer shows the error and a warning and goes on as the table
    finder: no filter, no table, no query box. *)
Theorem rejected_accounts_query_opens_table_finder (drv : Driver) (ui : Ui) (e : exn)
    (s : state) :
  drv_cursor drv (tick s) = Returns tt ->
  drv_execute drv (S (tick s)) "SELECT AccountNumber, Balance, AccountType FROM Accounts" []
    = Raises e ->
  display_data_explorer drv ui s =
    table_finder drv ui
      (State (trace s ++
                [Text Subheader "Data Explorer";
                 Cursor;
                 Execute "SELECT AccountNumber, Balance, AccountType FROM Accounts" [];
                 Text Error ("Error querying Accounts table: " +++ exn_msg e);
                 Text Warning "The Accounts table may not exist or may have a different structure than expected."])
             (S (S (tick s))) None (heap s)).
Proof.
  intros Hc He. unfold display_data_explorer. run. rewrite Hc. run. rewrite He. run.
  rewrite <- !app_assoc. cbn [app].
  match goal with
  | |- context [table_finder drv ui ?s1] =>
      pose proof (never_raises_table_finder drv ui s1) as Hquiet;
      destruct (table_finder drv ui s1) as [[[] | e' |] s2]
  end; try reflexivity.
  exfalso. apply (Hquiet e'). reflexivity.
Qed.

Lemma rejected_accounts_query_opens_table_finder_witness :
  drv_cursor rejecting_driver (tick initial) = Returns tt
  /\ drv_execute rejecting_driver (S (tick initial))
       "SELECT AccountNumber, Balance, AccountType FROM Accounts" [] = Raises syntax_error
  /\ display_data_explorer rejecting_driver busy_user initial =
       table_finder rejecting_driver busy_user
         (State (trace initial ++
                   [Text Subheader "Data Explorer";
                    Cursor;
                    Execute "SELECT AccountNumber, Balance, AccountType FROM Accounts" [];
                    Text Error ("Error querying Accounts table: " +++ exn_msg syntax_error);
                    Text Warning "The Accounts table may not exist or may have a different structure than expected."])
                (S (S (tick initial))) None (heap initial)).
Proof.
  split; [reflexivity |]. split; [reflexivity |].
  apply (rejected_accounts_query_opens_table_finder rejecting_driver busy_user syntax_error
           initial); reflexivity.
Defined.

(** ** The filters of the Data Explorer *)

Lemma select_rows_filter (p : list value -> bool) (data : list (list value)) :
  select_rows data (map p data) = filter p data.
Proof.
  induction data as [| r data IH]; cbn [map select_rows filter]; [reflexivity |].
  rewrite IH. reflexivity.
Qed.

Lemma zip_with_maps {A : Type} (f g : A -> bool) (l : list A) :
  zip_with andb (map f l) (map g l) = map (fun x => f x && g x) l.
Proof. induction l as [| x l IH]; cbn; [reflexivity | rewrite IH; reflexivity]. Qed.

Lemma filter_filter {A : Type} (p q : A -> bool) (l : list A) :
  filter q (filter p l) = filter (fun x => p x && q x) l.
Proof.
  induction l as [| x l IH]; cbn; [reflexivity |].
  destruct (p x); cbn; [destruct (q x) |]; rewrite IH; reflexivity.
Qed.

Lemma compare_cells (holds : comparison -> bool) (bound : Z) (cells : list value) :
  Forall number_or_null cells ->
  apply (compare_cell holds bound) cells
  = Ok (map (fun v => match against_float v bound with Some o => holds o | None => false end)
          cells).
Proof.
  intros H. induction H as [| v cells Hv Hcells IH]; [reflexivity |].
  cbn [apply map]. rewrite IH.
  destruct Hv as [-> | Hv]; [reflexivity |].
  destruct v; cbn in *; try reflexivity; congruence.
Qed.

Lemma not_below_opp (o : comparison) : not_below (CompOpp o) = not_above o.
Proof. destruct o; reflexivity. Qed.

Lemma not_above_opp (o : comparison) : not_above (CompOpp o) = not_below o.
Proof. destruct o; reflexivity. Qed.

(** Settles an equation between the outcome of [?=] and the tests
    [<?] and [=?] on the same numbers. *)
Ltac orders :=
  repeat match goal with
         | |- context [?x ?= ?y] => destruct (Z.compare_spec x y)
         end;
  repeat match goal with
         | |- context [?x <? ?y] => destruct (Z.ltb_spec x y)
         | |- context [?x =? ?y] => destruct (Z.eqb_spec x y)
         end;
  cbn [not_below not_above andb orb negb];
  rewrite ?not_below_opp, ?not_above_opp;
  first [reflexivity | lia | idtac].

(** The two comparisons of lines 483-484 on one cell. *)
Lemma in_range_compares (balance_range : Z * Z) (v : value) :
  (match against_float v (fst balance_range) with Some o => not_below o | None => false end)
  && (match against_float v (snd balance_range) with Some o => not_above o | None => false end)
  = in_range balance_range v.
Proof.
  destruct balance_range as [lo hi]. unfold in_range, reaches_up, reaches_down.
  destruct v; cbn [against_float cents_of fst snd]; try reflexivity; orders;
    destruct (float_side lo), (float_side hi); reflexivity.
Qed.

Lemma in_range_bounds (balance_range : Z * Z) (v : value) :
  in_range balance_range v = true ->
  exists c, cents_of v = Some c /\ fst balance_range <= c <= snd balance_range.
Proof.
  unfold in_range. destruct (cents_of v) as [c |]; [| discriminate].
  intros H. exists c. split; [reflexivity |].
  apply andb_true_iff in H. destruct H as [Hlo Hhi].
  apply orb_true_iff in Hlo. apply orb_true_iff in Hhi.
  rewrite !andb_true_iff, !Z.ltb_lt, !Z.eqb_eq in *. lia.
Qed.

Lemma has_column_found (df : DataFrame) (name : string) (i : nat) :
  index_of name (columns df) = Some i ->
  has_column df name = true /\ column df name = Ok (map (fun r => nth i r VNone) (rows df)).
Proof. intros H. unfold has_column, column. rewrite H. split; reflexivity. Qed.

Lemma nth_after_two {A : Type} (h : list A) (x y d : A) (r : nat) :
  (r < length h)%nat -> nth r ((h ++ [x]) ++ [y]) d = nth r h d.
Proof. intros H. rewrite <- app_assoc. apply app_nth1. exact H. Qed.

(** Lines 476-485 on a frame with both columns. *)
Lemma apply_filters_run (df_accounts : ref) (cols : list string) (data : list (list value))
    (i j : nat) (selected_type : value) (balance_range : Z * Z) (s : state) :
  (df_accounts < length (heap s))%nat ->
  nth df_accounts (heap s) empty_frame = Frame cols data ->
  index_of "AccountType" cols = Some i ->
  index_of "Balance" cols = Some j ->
  Forall (fun row => number_or_null (nth j row VNone)) data ->
  exists filtered_df mid,
    apply_filters df_accounts selected_type balance_range s =
      (Ret filtered_df,
       State (trace s) (tick s) (cursor s)
         (heap s ++ mid ++ [Frame cols (filter (passes i j selected_type balance_range) data)]))
    /\ filtered_df = (length (heap s) + length mid)%nat.
Proof.
  intros Hlt Hdf Hi Hj Hnum. unfold apply_filters, copy. run.
  rewrite nth_just_allocated, Hdf.
  destruct (has_column_found (Frame cols data) _ _ Hi) as [Hhas1 Hcol1].
  destruct (has_column_found (Frame cols data) _ _ Hj) as [Hhas2 Hcol2].
  rewrite Hhas1, andb_true_r. cbn [columns rows] in *.
  assert (Hrange : forall rows' : list (list value),
             zip_with andb
               (map (fun v => match against_float v (fst balance_range) with
                              | Some o => not_below o
                              | None => false
                              end) (map (fun r => nth j r VNone) rows'))
               (map (fun v => match against_float v (snd balance_range) with
                              | Some o => not_above o
                              | None => false
                              end) (map (fun r => nth j r VNone) rows'))
             = map (fun r => in_range balance_range (nth j r VNone)) rows').
  { intros rows'. rewrite zip_with_maps, map_map. apply map_ext. intros r.
    apply in_range_compares. }
  destruct (py_eqb selected_type (VStr "All")) eqn:Hall; cbn [negb]; run.
  - rewrite nth_just_allocated, Hhas2. run.
    destruct (has_column_found (Frame cols data) _ _ Hj) as [_ ->]. cbn [rows]. run.
    rewrite !(compare_cells _ _ _ (proj2 (Forall_map _ _ _) Hnum)). run.
    rewrite (Hrange data), select_rows_filter.
    exists (length (heap s ++ [Frame cols data])), [Frame cols data].
    rewrite <- app_assoc. split.
    + rewrite (filter_ext _ (passes i j selected_type balance_range)); [reflexivity |].
      intros r. unfold passes, of_type. rewrite Hall. reflexivity.
    + rewrite length_app. reflexivity.
  - destruct (has_column_found (Frame cols data) _ _ Hi) as [_ ->]. cbn [rows]. run.
    rewrite nth_just_allocated.
    rewrite (map_map (fun r => nth i r VNone) (equals_cell selected_type)),
      select_rows_filter.
    set (data1 := filter (fun x => equals_cell selected_type (nth i x VNone)) data).
    assert (Hnum1 : Forall (fun row => number_or_null (nth j row VNone)) data1).
    { apply Forall_forall. intros r Hr. apply filter_In in Hr.
      rewrite Forall_forall in Hnum. apply Hnum. tauto. }
    destruct (has_column_found (Frame cols data1) _ _ Hj) as [-> ->]. cbn [rows]. run.
    rewrite !(compare_cells _ _ _ (proj2 (Forall_map _ _ _) Hnum1)). run.
    rewrite (Hrange data1), select_rows_filter.
    assert (Hfinal : filter (fun r => in_range balance_range (nth j r VNone)) data1
                     = filter (passes i j selected_type balance_range) data).
    { unfold data1. rewrite filter_filter. apply filter_ext. intros r.
      unfold passes, of_type. rewrite Hall. reflexivity. }
    rewrite Hfinal.
    exists (length ((heap s ++ [Frame cols data]) ++ [Frame cols data1])),
      [Frame cols data; Frame cols data1].
    split.
    + rewrite <- !app_assoc. reflexivity.
    + rewrite !length_app. cbn [length]. lia.
Qed.

(** The filters of lines 476-485, on a frame that has both columns,
    whose columns pandas holds as fetched and whose balances are numbers
    or NULL, the slider handles being doubles of amounts of at most
    fifteen digits: the result is a new frame with
    the same columns holding, in their order, exactly the rows whose
    type is the one selected (or any, under "All") and whose balance is
    within the two slider handles as Python compares a number with a
    float: an int or float balance from one handle to the other, a
    Decimal balance likewise, except that a Decimal equal to the amount
    of a handle is kept only if the handle's float is not on its far
    side.  Whatever is kept lies between the two amounts, and a row
    whose balance is NULL is never kept.  The frame that was filtered is
    left as it was, and nothing is drawn. *)
Theorem filters_keep_passing_rows (df_accounts : ref) (cols : list string)
    (data : list (list value)) (i j : nat) (selected_type : value)
    (balance_range : Z * Z) (s : state) :
  (df_accounts < length (heap s))%nat ->
  nth df_accounts (heap s) empty_frame = Frame cols data ->
  index_of "AccountType" cols = Some i ->
  index_of "Balance" cols = Some j ->
  Forall (fun row => length row = length cols) data ->
  held_as_fetched (length cols) data ->
  Forall (fun row => number_or_null (nth j row VNone)) data ->
  moderate (fst balance_range) /\ moderate (snd balance_range) ->
  exists filtered_df s',
    apply_filters df_accounts selected_type balance_range s = (Ret filtered_df, s')
    /\ nth filtered_df (heap s') empty_frame
       = Frame cols (filter (passes i j selected_type balance_range) data)
    /\ nth df_accounts (heap s') empty_frame = Frame cols data
    /\ trace s' = trace s
    /\ forall row, In row (filter (passes i j selected_type balance_range) data) ->
                   exists c, cents_of (nth j row VNone) = Some c
                             /\ fst balance_range <= c <= snd balance_range.
Proof.
  intros Hlt Hdf Hi Hj _ _ Hnum _.
  destruct (apply_filters_run df_accounts cols data i j selected_type balance_range s
              Hlt Hdf Hi Hj Hnum) as (filtered_df & mid & Hrun & Href).
  eexists. eexists. split; [exact Hrun |]. cbn [heap trace].
  split; [| split; [| split; [reflexivity |]]].
  - rewrite Href, app_assoc.
    replace (length (heap s) + length mid)%nat with (length (heap s ++ mid))
      by apply length_app.
    apply nth_just_allocated.
  - rewrite app_nth1 by exact Hlt. exact Hdf.
  - intros row Hrow. apply filter_In in Hrow. destruct Hrow as [_ Hrow].
    unfold passes in Hrow. apply andb_true_iff in Hrow. destruct Hrow as [_ Hrow].
    apply in_range_bounds. exact Hrow.
Qed.

Lemma filters_keep_passing_rows_witness :
  (0 < length (heap (State [] 0 None
                       [Frame account_columns (map account_row [savings; savings_2; checking])])))%nat
  /\ nth 0 (heap (State [] 0 None
                    [Frame account_columns (map account_row [savings; savings_2; checking])]))
         empty_frame
     = Frame account_columns (map account_row [savings; savings_2; checking])
  /\ index_of "AccountType" account_columns = Some 2%nat
  /\ index_of "Balance" account_columns = Some 1%nat
  /\ Forall (fun row => length row = length account_columns)
       (map account_row [savings; savings_2; checking])
  /\ held_as_fetched (length account_columns) (map account_row [savings; savings_2; checking])
  /\ Forall (fun row => number_or_null (nth 1 row VNone))
       (map account_row [savings; savings_2; checking])
  /\ (moderate (fst (0, 200000)) /\ moderate (snd (0, 200000)))
  /\ exists filtered_df s',
       apply_filters 0%nat (VStr "Savings") (0, 200000)
         (State [] 0 None
            [Frame account_columns (map account_row [savings; savings_2; checking])])
         = (Ret filtered_df, s')
       /\ nth filtered_df (heap s') empty_frame
          = Frame account_columns
              (filter (passes 2 1 (VStr "Savings") (0, 200000))
                 (map account_row [savings; savings_2; checking]))
       /\ nth 0 (heap s') empty_frame
          = Frame account_columns (map account_row [savings; savings_2; checking])
       /\ trace s' = trace (State [] 0 None
                              [Frame account_columns
                                 (map account_row [savings; savings_2; checking])])
       /\ forall row,
            In row (filter (passes 2 1 (VStr "Savings") (0, 200000))
                      (map account_row [savings; savings_2; checking])) ->
            exists c, cents_of (nth 1 row VNone) = Some c
                      /\ fst (0, 200000) <= c <= snd (0, 200000).
Proof.
  assert (H1 : (0 < length (heap (State [] 0 None
                  [Frame account_columns (map account_row [savings; savings_2; checking])])))%nat)
    by (simpl; lia).
  assert (H2 : nth 0 (heap (State [] 0 None
                  [Frame account_columns (map account_row [savings; savings_2; checking])]))
                 empty_frame
               = Frame account_columns (map account_row [savings; savings_2; checking]))
    by reflexivity.
  assert (H3 : index_of "AccountType" account_columns = Some 2%nat) by reflexivity.
  assert (H4 : index_of "Balance" account_columns = Some 1%nat) by reflexivity.
  assert (H5 : Forall (fun row => number_or_null (nth 1 row VNone))
                 (map account_row [savings; savings_2; checking])).
  { simpl.
    repeat (constructor;
            [unfold number_or_null; simpl; first [left; reflexivity | right; discriminate] |]).
    constructor. }
  assert (Hs : Forall (fun row => length row = length account_columns)
                 (map account_row [savings; savings_2; checking]))
    by (repeat constructor).
  assert (Hh : held_as_fetched (length account_columns)
                 (map account_row [savings; savings_2; checking])).
  { intros k Hk. cbn [length account_columns] in Hk.
    assert (Hcases : k = 0%nat \/ k = 1%nat \/ k = 2%nat) by lia.
    destruct Hcases as [-> | [-> | ->]]; reflexivity. }
  assert (Hm : moderate (fst (0, 200000)) /\ moderate (snd (0, 200000)))
    by (unfold moderate; cbn [fst snd]; lia).
  exact (conj H1 (conj H2 (conj H3 (conj H4 (conj Hs (conj Hh (conj H5 (conj Hm
           (filters_keep_passing_rows 0%nat _ _ 2%nat 1%nat (VStr "Savings") (0, 200000) _
              H1 H2 H3 H4 Hs Hh H5 Hm))))))))).
Defined.

(** A Decimal balance of 0.10 against the handle 0.1: the float is
    above the amount, and the row is not kept; 0.25 is a float itself,
    and is kept. *)
Example handle_above_its_amount :
  float_side 10 = Gt /\ float_side 30 = Lt /\ float_side 25 = Eq
  /\ in_range (10, 100) (VDecimal 10) = false
  /\ in_range (10, 100) (VFloat 10) = true
  /\ in_range (0, 30) (VDecimal 30) = false
  /\ in_range (25, 100) (VDecimal 25) = true
  /\ compare_cell not_below 10 (VDecimal 10) = Ok false.
Proof. repeat split; vm_compute; reflexivity. Qed.

(** *** The widgets *)

Lemma extremum_defined (pick : Z -> Z -> Z) (cells : list value) :
  Forall number_or_null cells -> exists m, extremum pick cells = Ok m.
Proof.
  intros H. induction H as [| v cells Hv Hcells [m IH]]; [exists None; reflexivity |].
  cbn [extremum]. rewrite IH.
  destruct Hv as [-> | Hv]; [exists m; reflexivity |].
  destruct v; cbn in *; try congruence; eexists; reflexivity.
Qed.

Lemma extremum_cons (pick : Z -> Z -> Z) (x : value) (cells : list value) (m : option Z) :
  extremum pick (x :: cells) = Ok m ->
  exists m',
    extremum pick cells = Ok m'
    /\ (cents_of x = None -> m = m')
    /\ (forall c, cents_of x = Some c ->
                   m = Some (match m' with Some d => pick c d | None => c end)).
Proof.
  cbn [extremum]. destruct (extremum pick cells) as [m' | e]; [| discriminate].
  intros H. exists m'. split; [reflexivity |].
  destruct x; cbn [cents_of] in *; inversion H; subst;
    (split; [intros Hx; try discriminate; reflexivity
            | intros c0 Hc; try discriminate; inversion Hc; subst; reflexivity]).
Qed.

Lemma least_is_below (cells : list value) (m : option Z) (v : value) (c : Z) :
  extremum Z.min cells = Ok m -> In v cells -> cents_of v = Some c ->
  exists a, m = Some a /\ a <= c.
Proof.
  revert m. induction cells as [| x cells IH]; intros m Hm Hin Hc; [contradiction |].
  destruct (extremum_cons _ _ _ _ Hm) as (m' & Hm' & Hnone & Hsome).
  destruct Hin as [-> | Hin].
  - rewrite (Hsome c Hc). destruct m'; eexists; (split; [reflexivity | lia]).
  - destruct (IH m' Hm' Hin Hc) as (a & -> & Ha).
    destruct (cents_of x) as [cx |] eqn:Ex.
    + rewrite (Hsome cx eq_refl). eexists. split; [reflexivity | lia].
    + rewrite (Hnone eq_refl). exists a. split; [reflexivity | exact Ha].
Qed.

Lemma greatest_is_above (cells : list value) (m : option Z) (v : value) (c : Z) :
  extremum Z.max cells = Ok m -> In v cells -> cents_of v = Some c ->
  exists b, m = Some b /\ c <= b.
Proof.
  revert m. induction cells as [| x cells IH]; intros m Hm Hin Hc; [contradiction |].
  destruct (extremum_cons _ _ _ _ Hm) as (m' & Hm' & Hnone & Hsome).
  destruct Hin as [-> | Hin].
  - rewrite (Hsome c Hc). destruct m'; eexists; (split; [reflexivity | lia]).
  - destruct (IH m' Hm' Hin Hc) as (a & -> & Ha).
    destruct (cents_of x) as [cx |] eqn:Ex.
    + rewrite (Hsome cx eq_refl). eexists. split; [reflexivity | lia].
    + rewrite (Hnone eq_refl). exists a. split; [reflexivity | exact Ha].
Qed.

Lemma min_is_one (c d : Z) : Z.min c d = c \/ Z.min c d = d.
Proof. lia. Qed.

Lemma max_is_one (c d : Z) : Z.max c d = c \/ Z.max c d = d.
Proof. lia. Qed.

(** The least and the greatest amount are amounts of the column. *)
Lemma extremum_is_attained (pick : Z -> Z -> Z) (cells : list value) (a : Z) :
  (forall c d, pick c d = c \/ pick c d = d) ->
  extremum pick cells = Ok (Some a) ->
  exists v, In v cells /\ cents_of v = Some a.
Proof.
  intros Hpick. revert a. induction cells as [| x cells IH]; intros a Hm; [discriminate |].
  destruct (extremum_cons _ _ _ _ Hm) as (m' & Hm' & Hnone & Hsome).
  destruct (cents_of x) as [cx |] eqn:Ex.
  - specialize (Hsome cx eq_refl). destruct m' as [d |]; injection Hsome as Ha.
    + destruct (Hpick cx d) as [E | E]; rewrite E in Ha; subst a.
      * exists x. split; [left; reflexivity | exact Ex].
      * destruct (IH d Hm') as (v & Hv & Hc). exists v. split; [right; exact Hv | exact Hc].
    + subst a. exists x. split; [left; reflexivity | exact Ex].
  - specialize (Hnone eq_refl). subst m'.
    destruct (IH a Hm') as (v & Hv & Hc). exists v. split; [right; exact Hv | exact Hc].
Qed.

(** Lines 448-473 on a frame with both columns. *)
Lemma filter_widgets_run (ui : Ui) (df_accounts : ref) (cols : list string)
    (data : list (list value)) (i j : nat) (s : state) :
  nth df_accounts (heap s) empty_frame = Frame cols data ->
  index_of "AccountType" cols = Some i ->
  index_of "Balance" cols = Some j ->
  Forall (fun row => number_or_null (nth j row VNone)) data ->
  exists lo hi,
    extremum Z.min (map (fun r => nth j r VNone) data) = Ok lo
    /\ extremum Z.max (map (fun r => nth j r VNone) data) = Ok hi
    /\ filter_widgets ui df_accounts s =
         (Ret (nth (ui_select ui "Account Type")
                 (VStr "All" :: first_seen (map (fun r => nth i r VNone) data)) (VStr "All"),
               ui_slider ui "Balance Range"),
          State (trace s ++
                   [Text Subheader "Filters";
                    Columns 2;
                    Selectbox "Account Type"
                      (VStr "All" :: first_seen (map (fun r => nth i r VNone) data));
                    Slider "Balance Range" lo hi])
                (tick s) (cursor s) (heap s)).
Proof.
  intros Hdf Hi Hj Hnum.
  destruct (extremum_defined Z.min _ (proj2 (Forall_map _ _ _) Hnum)) as (lo & Hlo).
  destruct (extremum_defined Z.max _ (proj2 (Forall_map _ _ _) Hnum)) as (hi & Hhi).
  exists lo, hi. split; [exact Hlo |]. split; [exact Hhi |].
  unfold filter_widgets. run. rewrite Hdf.
  destruct (has_column_found (Frame cols data) _ _ Hi) as [-> ->]. cbn [rows]. run.
  rewrite Hdf.
  destruct (has_column_found (Frame cols data) _ _ Hj) as [-> ->].
  cbn [rows]. run. rewrite Hlo. run. rewrite Hhi. run.
  rewrite unique_is_first_seen, <- !app_assoc. reflexivity.
Qed.

(** The filter widgets, on a frame that has both columns, whose columns
    pandas holds as fetched and whose balances are numbers or NULL: the
    type selector offers "All" and
    then every distinct account type in the order first met, and the
    slider is given as its two ends the floats of the least and of the
    greatest balance of the frame, [float(min)] and [float(max)].  The
    ends are named by the amounts they were taken from: [lo] is the
    least amount present and [hi] the greatest; each float may lie a
    rounding error beside its amount. *)
Theorem filter_widgets_offer_types_and_range (ui : Ui) (df_accounts : ref)
    (cols : list string) (data : list (list value)) (i j : nat) (s : state) :
  nth df_accounts (heap s) empty_frame = Frame cols data ->
  index_of "AccountType" cols = Some i ->
  index_of "Balance" cols = Some j ->
  Forall (fun row => length row = length cols) data ->
  held_as_fetched (length cols) data ->
  Forall (fun row => number_or_null (nth j row VNone)) data ->
  exists lo hi chosen,
    filter_widgets ui df_accounts s =
      (Ret chosen,
       State (trace s ++
                [Text Subheader "Filters";
                 Columns 2;
                 Selectbox "Account Type"
                   (VStr "All" :: first_seen (map (fun r => nth i r VNone) data));
                 Slider "Balance Range" lo hi])
             (tick s) (cursor s) (heap s))
    /\ (forall row c, In row data -> cents_of (nth j row VNone) = Some c ->
                      exists a b, lo = Some a /\ hi = Some b /\ a <= c <= b)
    /\ (forall a, lo = Some a ->
                  exists row, In row data /\ cents_of (nth j row VNone) = Some a)
    /\ (forall b, hi = Some b ->
                  exists row, In row data /\ cents_of (nth j row VNone) = Some b).
Proof.
  intros Hdf Hi Hj _ _ Hnum.
  destruct (filter_widgets_run ui df_accounts cols data i j s Hdf Hi Hj Hnum)
    as (lo & hi & Hlo & Hhi & Hrun).
  exists lo, hi. eexists. split; [exact Hrun |]. split; [| split].
  - intros row c Hrow Hc.
    assert (Hin : In (nth j row VNone) (map (fun r => nth j r VNone) data))
      by (apply in_map_iff; exists row; split; [reflexivity | exact Hrow]).
    destruct (least_is_below _ _ _ _ Hlo Hin Hc) as (a & -> & Ha).
    destruct (greatest_is_above _ _ _ _ Hhi Hin Hc) as (b & -> & Hb).
    exists a, b. repeat split; assumption.
  - intros a ->.
    destruct (extremum_is_attained Z.min _ a min_is_one Hlo)
      as (v & Hv & Hc).
    apply in_map_iff in Hv. destruct Hv as (row & <- & Hrow). exists row. split; assumption.
  - intros b ->.
    destruct (extremum_is_attained Z.max _ b max_is_one Hhi)
      as (v & Hv & Hc).
    apply in_map_iff in Hv. destruct Hv as (row & <- & Hrow). exists row. split; assumption.
Qed.

Lemma filter_widgets_offer_types_and_range_witness :
  nth 0 (heap (State [] 0 None
                 [Frame account_columns (map account_row [savings; savings_2; checking])]))
      empty_frame
  = Frame account_columns (map account_row [savings; savings_2; checking])
  /\ index_of "AccountType" account_columns = Some 2%nat
  /\ index_of "Balance" account_columns = Some 1%nat
  /\ Forall (fun row => length row = length account_columns)
       (map account_row [savings; savings_2; checking])
  /\ held_as_fetched (length account_columns) (map account_row [savings; savings_2; checking])
  /\ Forall (fun row => number_or_null (nth 1 row VNone))
       (map account_row [savings; savings_2; checking])
  /\ exists lo hi chosen,
       filter_widgets idle_user 0%nat
         (State [] 0 None
            [Frame account_columns (map account_row [savings; savings_2; checking])]) =
         (Ret chosen,
          State (trace (State [] 0 None
                          [Frame account_columns
                             (map account_row [savings; savings_2; checking])]) ++
                   [Text Subheader "Filters";
                    Columns 2;
                    Selectbox "Account Type"
                      (VStr "All"
                       :: first_seen (map (fun r => nth 2 r VNone)
                                        (map account_row [savings; savings_2; checking])));
                    Slider "Balance Range" lo hi])
                (tick (State [] 0 None
                         [Frame account_columns
                            (map account_row [savings; savings_2; checking])]))
                (cursor (State [] 0 None
                           [Frame account_columns
                              (map account_row [savings; savings_2; checking])]))
                (heap (State [] 0 None
                         [Frame account_columns
                            (map account_row [savings; savings_2; checking])])))
       /\ (forall row c,
             In row (map account_row [savings; savings_2; checking]) ->
             cents_of (nth 1 row VNone) = Some c ->
             exists a b, lo = Some a /\ hi = Some b /\ a <= c <= b)
       /\ (forall a, lo = Some a ->
                     exists row, In row (map account_row [savings; savings_2; checking])
                                 /\ cents_of (nth 1 row VNone) = Some a)
       /\ (forall b, hi = Some b ->
                     exists row, In row (map account_row [savings; savings_2; checking])
                                 /\ cents_of (nth 1 row VNone) = Some b).
Proof.
  assert (H2 : nth 0 (heap (State [] 0 None
                  [Frame account_columns (map account_row [savings; savings_2; checking])]))
                 empty_frame
               = Frame account_columns (map account_row [savings; savings_2; checking]))
    by reflexivity.
  assert (H3 : index_of "AccountType" account_columns = Some 2%nat) by reflexivity.
  assert (H4 : index_of "Balance" account_columns = Some 1%nat) by reflexivity.
  assert (H5 : Forall (fun row => number_or_null (nth 1 row VNone))
                 (map account_row [savings; savings_2; checking])).
  { simpl.
    repeat (constructor;
            [unfold number_or_null; simpl; first [left; reflexivity | right; discriminate] |]).
    constructor. }
  assert (Hs : Forall (fun row => length row = length account_columns)
                 (map account_row [savings; savings_2; checking]))
    by (repeat constructor).
  assert (Hh : held_as_fetched (length account_columns)
                 (map account_row [savings; savings_2; checking])).
  { intros k Hk. cbn [length account_columns] in Hk.
    assert (Hcases : k = 0%nat \/ k = 1%nat \/ k = 2%nat) by lia.
    destruct Hcases as [-> | [-> | ->]]; reflexivity. }
  exact (conj H2 (conj H3 (conj H4 (conj Hs (conj Hh (conj H5
           (filter_widgets_offer_types_and_range idle_user 0%nat _ _ 2%nat 1%nat _
              H2 H3 H4 Hs Hh H5))))))).
Defined.

(** With the widgets left as they come up ("All" selected, the slider
    at its two ends) the Data Explorer filters on the floats of the
    least and of the greatest balance, here amounts of at most fifteen
    digits in a frame whose columns pandas holds as fetched.  The table
    then holds no account
    whose balance is NULL, every account whose balance is an int or a
    float, and every account whose Decimal balance is not one of the two
    ends; an account whose Decimal balance is the least one is held only
    if the float of that amount is not above it, and one whose balance is
    the greatest only if that float is not below it. *)
Theorem untouched_filters_can_drop_the_ends (ui : Ui) (df_accounts : ref)
    (cols : list string) (data : list (list value)) (i j : nat) (a b : Z) (s : state) :
  (df_accounts < length (heap s))%nat ->
  nth df_accounts (heap s) empty_frame = Frame cols data ->
  index_of "AccountType" cols = Some i ->
  index_of "Balance" cols = Some j ->
  Forall (fun row => length row = length cols) data ->
  held_as_fetched (length cols) data ->
  Forall (fun row => number_or_null (nth j row VNone)) data ->
  extremum Z.min (map (fun r => nth j r VNone) data) = Ok (Some a) ->
  extremum Z.max (map (fun r => nth j r VNone) data) = Ok (Some b) ->
  moderate a /\ moderate b ->
  ui_select ui "Account Type" = 0%nat ->
  ui_slider ui "Balance Range" = (a, b) ->
  exists filtered_df s',
    (chosen <- filter_widgets ui df_accounts ;;
     apply_filters df_accounts (fst chosen) (snd chosen)) s = (Ret filtered_df, s')
    /\ nth filtered_df (heap s') empty_frame
       = Frame cols (filter (fun row => kept_untouched a b (nth j row VNone)) data)
    /\ forall row,
         In row data ->
         (nth j row VNone = VNone -> kept_untouched a b (nth j row VNone) = false)
         /\ (is_int_or_float (nth j row VNone) = true ->
             kept_untouched a b (nth j row VNone) = true)
         /\ (forall c, nth j row VNone = VDecimal c ->
               kept_untouched a b (nth j row VNone)
               = (negb (c =? a) || not_above (float_side a))
                 && (negb (c =? b) || not_below (float_side b))).
Proof.
  intros Hlt Hdf Hi Hj _ _ Hnum Hmin Hmax _ Hsel Hslider.
  destruct (filter_widgets_run ui df_accounts cols data i j s Hdf Hi Hj Hnum)
    as (lo & hi & Hlo & Hhi & Hrun).
  unfold bind. rewrite Hrun, Hsel, Hslider. cbn [nth fst snd].
  match goal with
  | |- context [apply_filters _ _ _ ?s1] =>
      destruct (apply_filters_run df_accounts cols data i j (VStr "All") (a, b) s1
                  Hlt Hdf Hi Hj Hnum) as (filtered_df & mid & Hf & Href)
  end.
  rewrite Hf. eexists. eexists. split; [reflexivity |]. cbn [heap] in *. split.
  - rewrite Href, app_assoc.
    replace (length (heap s) + length mid)%nat with (length (heap s ++ mid))
      by apply length_app.
    rewrite nth_just_allocated. f_equal. apply filter_ext_in. intros row Hrow.
    unfold passes, of_type, in_range, kept_untouched. rewrite py_eqb_refl.
    cbn [fst snd orb andb].
    destruct (cents_of (nth j row VNone)) as [c |] eqn:Hc; [| reflexivity].
    assert (Hin : In (nth j row VNone) (map (fun r => nth j r VNone) data))
      by (apply in_map_iff; exists row; split; [reflexivity | exact Hrow]).
    destruct (least_is_below _ _ _ _ Hmin Hin Hc) as (a' & Ha' & Hle).
    destruct (greatest_is_above _ _ _ _ Hmax Hin Hc) as (b' & Hb' & Hge).
    inversion Ha'. inversion Hb'. subst a' b'.
    destruct (reaches_up (nth j row VNone) a), (reaches_down (nth j row VNone) b); orders.
  - intros row Hrow. split; [| split].
    + intros ->. reflexivity.
    + intros Hnumber. unfold kept_untouched.
      destruct (nth j row VNone); try discriminate; cbn [cents_of reaches_up reaches_down];
        rewrite !orb_true_r; reflexivity.
    + intros c ->. reflexivity.
Qed.

Lemma untouched_filters_can_drop_the_ends_witness :
  (0 < length (heap (State [] 0 None
                       [Frame account_columns (map account_row [savings; savings_2; checking])])))%nat
  /\ nth 0 (heap (State [] 0 None
                    [Frame account_columns (map account_row [savings; savings_2; checking])]))
         empty_frame
     = Frame account_columns (map account_row [savings; savings_2; checking])
  /\ index_of "AccountType" account_columns = Some 2%nat
  /\ index_of "Balance" account_columns = Some 1%nat
  /\ Forall (fun row => length row = length account_columns)
       (map account_row [savings; savings_2; checking])
  /\ held_as_fetched (length account_columns) (map account_row [savings; savings_2; checking])
  /\ Forall (fun row => number_or_null (nth 1 row VNone))
       (map account_row [savings; savings_2; checking])
  /\ extremum Z.min (map (fun r => nth 1 r VNone)
                       (map account_row [savings; savings_2; checking])) = Ok (Some 50000)
  /\ extremum Z.max (map (fun r => nth 1 r VNone)
                       (map account_row [savings; savings_2; checking])) = Ok (Some 123450)
  /\ (moderate 50000 /\ moderate 123450)
  /\ ui_select whole_range_user "Account Type" = 0%nat
  /\ ui_slider whole_range_user "Balance Range" = (50000, 123450)
  /\ exists filtered_df s',
       (chosen <- filter_widgets whole_range_user 0%nat ;;
        apply_filters 0%nat (fst chosen) (snd chosen))
         (State [] 0 None
            [Frame account_columns (map account_row [savings; savings_2; checking])])
         = (Ret filtered_df, s')
       /\ nth filtered_df (heap s') empty_frame
          = Frame account_columns
              (filter (fun row => kept_untouched 50000 123450 (nth 1 row VNone))
                 (map account_row [savings; savings_2; checking]))
       /\ forall row,
            In row (map account_row [savings; savings_2; checking]) ->
            (nth 1 row VNone = VNone ->
             kept_untouched 50000 123450 (nth 1 row VNone) = false)
            /\ (is_int_or_float (nth 1 row VNone) = true ->
                kept_untouched 50000 123450 (nth 1 row VNone) = true)
            /\ (forall c, nth 1 row VNone = VDecimal c ->
                  kept_untouched 50000 123450 (nth 1 row VNone)
                  = (negb (c =? 50000) || not_above (float_side 50000))
                    && (negb (c =? 123450) || not_below (float_side 123450))).
Proof.
  assert (H1 : (0 < length (heap (State [] 0 None
                  [Frame account_columns (map account_row [savings; savings_2; checking])])))%nat)
    by (simpl; lia).
  assert (H2 : nth 0 (heap (State [] 0 None
                  [Frame account_columns (map account_row [savings; savings_2; checking])]))
                 empty_frame
               = Frame account_columns (map account_row [savings; savings_2; checking]))
    by reflexivity.
  assert (H3 : index_of "AccountType" account_columns = Some 2%nat) by reflexivity.
  assert (H4 : index_of "Balance" account_columns = Some 1%nat) by reflexivity.
  assert (H5 : Forall (fun row => number_or_null (nth 1 row VNone))
                 (map account_row [savings; savings_2; checking])).
  { simpl.
    repeat (constructor;
            [unfold number_or_null; simpl; first [left; reflexivity | right; discriminate] |]).
    constructor. }
  assert (H6 : extremum Z.min (map (fun r => nth 1 r VNone)
                  (map account_row [savings; savings_2; checking])) = Ok (Some 50000))
    by reflexivity.
  assert (H7 : extremum Z.max (map (fun r => nth 1 r VNone)
                  (map account_row [savings; savings_2; checking])) = Ok (Some 123450))
    by reflexivity.
  assert (H8 : ui_select whole_range_user "Account Type" = 0%nat) by reflexivity.
  assert (H9 : ui_slider whole_range_user "Balance Range" = (50000, 123450)) by reflexivity.
  assert (Hs : Forall (fun row => length row = length account_columns)
                 (map account_row [savings; savings_2; checking]))
    by (repeat constructor).
  assert (Hh : held_as_fetched (length account_columns)
                 (map account_row [savings; savings_2; checking])).
  { intros k Hk. cbn [length account_columns] in Hk.
    assert (Hcases : k = 0%nat \/ k = 1%nat \/ k = 2%nat) by lia.
    destruct Hcases as [-> | [-> | ->]]; reflexivity. }
  assert (Hm : moderate 50000 /\ moderate 123450) by (unfold moderate; lia).
  exact (conj H1 (conj H2 (conj H3 (conj H4 (conj Hs (conj Hh (conj H5 (conj H6 (conj H7
           (conj Hm (conj H8 (conj H9
              (untouched_filters_can_drop_the_ends whole_range_user 0%nat _ _ 2%nat 1%nat
                 50000 123450 _ H1 H2 H3 H4 Hs Hh H5 H6 H7 Hm H8 H9))))))))))))).
Defined.

(** The Data Explorer over three accounts with the balances 0.10, 0.20
    and 0.30, every widget left as it comes up: the slider runs from
    the float 0.1 to the float 0.3, the first of which is above 0.10 and
    the second below 0.30, and the table shows the account in the middle
    alone, under the heading of one record. *)
Example only_the_middle_account_is_shown :
  trace (snd (display_data_explorer (table_driver [ten_cents; twenty_cents; thirty_cents])
                cents_user initial))
  = [Text Subheader "Data Explorer";
     Cursor;
     Execute "SELECT AccountNumber, Balance, AccountType FROM Accounts" [];
     Text Subheader "Filters";
     Columns 2;
     Selectbox "Account Type" [VStr "All"; VStr "Savings"];
     Slider "Balance Range" (Some 10) (Some 30);
     Text Subheader "Accounts Data (1 records)";
     Table (Frame account_columns [[VStr "ACC-7"; VStr "$0.20"; VStr "Savings"]]);
     Download "Download Data as CSV"
       (to_csv (Frame account_columns [[VStr "ACC-7"; VDecimal 20; VStr "Savings"]]))
       "accounts_data.csv" "text/csv";
     Text Subheader "Custom SQL Query";
     TextArea "Enter SQL Query" default_query;
     Button "Run Query"].
Proof. vm_compute. reflexivity. Qed.

(** ** The dictionary of account details *)

Lemma dict_get_set_hit {V : Type} (d : dict V) (k k' : value) (v : V) :
  py_eqb k k' = true -> dict_get (dict_set d k v) k' = Some v.
Proof.
  intros H. induction d as [| [k0 v0] d IH]; cbn [dict_set dict_get].
  - rewrite H. reflexivity.
  - destruct (py_eqb k0 k) eqn:E0; cbn [dict_get].
    + rewrite (py_eqb_subst k0 k k' E0), H. reflexivity.
    + rewrite (py_eqb_sym k0 k'), <- (py_eqb_subst k k' k0 H), (py_eqb_sym k k0), E0.
      exact IH.
Qed.

Lemma dict_get_set_miss {V : Type} (d : dict V) (k k' : value) (v : V) :
  py_eqb k k' = false -> dict_get (dict_set d k v) k' = dict_get d k'.
Proof.
  intros H. induction d as [| [k0 v0] d IH]; cbn [dict_set dict_get].
  - rewrite H. reflexivity.
  - destruct (py_eqb k0 k) eqn:E0; cbn [dict_get].
    + rewrite (py_eqb_subst k0 k k' E0), H. reflexivity.
    + destruct (py_eqb k0 k'); [reflexivity | exact IH].
Qed.

Lemma index_of_absent (name : string) (l : list string) :
  ~ In name l -> index_of name l = None.
Proof.
  induction l as [| x l IH]; intros H; cbn [index_of]; [reflexivity |].
  destruct (String.eqb x name) eqn:E.
  - apply String.eqb_eq in E. exfalso. apply H. left. exact E.
  - rewrite IH; [reflexivity |]. intros Hin. apply H. right. exact Hin.
Qed.

Lemma dict_zip_from (names : list string) (row : list value) (d : dict value)
    (name : string) :
  NoDup names -> length row = length names ->
  dict_get (fold_left (fun d nv => dict_set d (VStr (fst nv)) (snd nv)) (combine names row) d)
    (VStr name)
  = match index_of name names with
    | Some i => Some (nth i row VNone)
    | None => dict_get d (VStr name)
    end.
Proof.
  revert row d. induction names as [| x names IH]; intros row d Hnodup Hlen.
  - reflexivity.
  - destruct row as [| v row]; [discriminate |].
    inversion Hnodup as [| x' l' Hx Hrest]; subst.
    cbn [combine fold_left fst snd index_of].
    rewrite IH by (assumption || (cbn in Hlen; lia)).
    destruct (String.eqb x name) eqn:E.
    + apply String.eqb_eq in E. subst.
      rewrite (index_of_absent _ _ Hx). cbn [nth].
      apply dict_get_set_hit. apply py_eqb_refl.
    + destruct (index_of name names); [reflexivity |].
      apply dict_get_set_miss. exact E.
Qed.

(** The details dictionary of line 328, built from descriptor names
    that differ from one another and a row of as many values: a name is
    in the dictionary exactly when it is a column of the result, and is
    then mapped to the value at that column's position.  The fields the
    page shows under a name are therefore those of that column. *)
Theorem details_are_looked_up_by_column (names : list string) (row : list value)
    (name : string) :
  NoDup names -> length row = length names ->
  dict_get (dict_zip names row) (VStr name)
  = match index_of name names with
    | Some i => Some (nth i row VNone)
    | None => None
    end.
Proof. intros Hnodup Hlen. apply (dict_zip_from names row [] name Hnodup Hlen). Qed.

Lemma details_are_looked_up_by_column_witness :
  NoDup account_columns
  /\ length (account_row savings) = length account_columns
  /\ dict_get (dict_zip account_columns (account_row savings)) (VStr "Balance")
     = match index_of "Balance" account_columns with
       | Some i => Some (nth i (account_row savings) VNone)
       | None => None
       end.
Proof.
  assert (H1 : NoDup account_columns).
  { unfold account_columns. repeat constructor; simpl; intuition discriminate. }
  assert (H2 : length (account_row savings) = length account_columns) by reflexivity.
  exact (conj H1 (conj H2
           (details_are_looked_up_by_column account_columns (account_row savings) "Balance"
              H1 H2))).
Defined.

(** ** An account without a balance *)

Lemma show_field_run (d : dict value) (name title : string) (s : state) :
  exists l,
    show_field d name title s = (Ret tt, State (trace s ++ l) (tick s) (cursor s) (heap s))
    /\ Forall is_markdown l.
Proof.
  unfold show_field. destruct (dict_get d (VStr name)) as [v |].
  - eexists. split; [reflexivity | repeat constructor].
  - exists []. rewrite app_nil_r. destruct s. split; [reflexivity | constructor].
Qed.

(** When the account selected has a NULL balance, the balance cannot be
    formatted: the page shows the account information, the heading of
    the financial details and then the error, and neither the
    comparison chart nor the account actions are drawn. *)
Theorem account_without_balance_shows_error (drv : Driver) (ui : Ui)
    (selected_account : value) (names : list string) (first : value) (others : list value)
    (more : list (list value)) (s : state) :
  truthy selected_account = true ->
  drv_execute drv (tick s) details_sql [selected_account]
    = Returns (Some (Results names ((first :: others) :: more))) ->
  dict_get (dict_zip names (first :: others)) (VStr "Balance") = Some VNone ->
  exists information s',
    account_details drv ui selected_account s = (Ret tt, s')
    /\ trace s' =
         trace s
         ++ [Execute details_sql [selected_account];
             Columns 2;
             Text Markdown "### Account Information"]
         ++ information
         ++ [Text Markdown "### Financial Details";
             Text Error "Error retrieving account details: unsupported format string passed to NoneType.__format__";
             Text Info "This page is designed for a specific table structure. You may need to modify the code to match your database schema."]
    /\ Forall is_markdown information
    /\ tick s' = S (tick s).
Proof.
  intros Ht He Hb. unfold account_details. rewrite Ht. cbn [when].
  unfold try_except, bind at 1. unfold execute at 1. run. rewrite He. run.
  cbn [description pending].
  unfold account_fields. unfold bind at 1. run.
  repeat match goal with
         | |- context [show_field ?d ?n ?t ?s0] =>
             let l := fresh "l" in
             let Hl := fresh "Hl" in
             let Pl := fresh "Pl" in
             destruct (show_field_run d n t s0) as (l & Hl & Pl); rewrite Hl; clear Hl;
             cbn [trace tick cursor heap]
         end.
  rewrite Hb. cbn [format_comma_2f]. run.
  exists (l ++ l0 ++ l1). eexists. split; [reflexivity |]. cbn [trace tick].
  split; [| split; [| reflexivity]].
  - rewrite <- !app_assoc. reflexivity.
  - repeat (apply Forall_app; split); assumption.
Qed.

Lemma account_without_balance_shows_error_witness :
  truthy (VStr "ACC-3") = true
  /\ drv_execute (table_driver [savings_2]) (tick initial) details_sql [VStr "ACC-3"]
       = Returns (Some (Results account_columns
                          ((VStr "ACC-3" :: [VNone; VStr "Savings"]) :: [])))
  /\ dict_get (dict_zip account_columns (VStr "ACC-3" :: [VNone; VStr "Savings"]))
       (VStr "Balance") = Some VNone
  /\ exists information s',
       account_details (table_driver [savings_2]) busy_user (VStr "ACC-3") initial
         = (Ret tt, s')
       /\ trace s' =
            trace initial
            ++ [Execute details_sql [VStr "ACC-3"];
                Columns 2;
                Text Markdown "### Account Information"]
            ++ information
            ++ [Text Markdown "### Financial Details";
                Text Error "Error retrieving account details: unsupported format string passed to NoneType.__format__";
                Text Info "This page is designed for a specific table structure. You may need to modify the code to match your database schema."]
       /\ Forall is_markdown information
       /\ tick s' = S (tick initial).
Proof.
  split; [reflexivity |]. split; [reflexivity |]. split; [reflexivity |].
  apply (account_without_balance_shows_error (table_driver [savings_2]) busy_user
           (VStr "ACC-3") account_columns (VStr "ACC-3") [VNone; VStr "Savings"] [] initial);
    reflexivity.
Defined.
